(** * Task scheduler: trigger parser, persistence store and scheduler engine

    A shallow embedding of [scheduler/triggers.py], [scheduler/persistence.py]
    and [scheduler/scheduler.py].

    - Python [str] values are [string]s whose characters are the code points
      below 256; [int] is unbounded.
    - [dict]s keyed by task or job id are [gmap string _], the running set is
      a [gset string], SQLite tables are lists of rows in rowid order.
    - A function that catches its exceptions returns what its [except]
      clause returns; inside, [None] stands for a raised exception.
    - What lives outside the repository (the ISO date parser, the crontab
      parser of the timer engine, what the engine reports as a job's next
      run time, the local time zone, floats, how SQLite reads a text as a
      number) is a field of the class [Externals].  The general
      statements hold for every instance; the concrete ones are evaluated
      on the instance of the module [Sample].
    - The timer callback is a coroutine with one [await]: it is modelled by
      its two atomic halves, before and after the executor call; a
      cancellation at the [await] ends it there.
    - Logger calls change no state and are left out. *)

From Stdlib Require Import ZArith NArith Lia Bool Ascii String DecimalString DecimalN.
From Stdlib Require Import Sorted Permutation.
From stdpp Require Import base option list gmap strings sorting.

Local Open Scope string_scope.
Set Warnings "-register-all,-clear-no-such-hyp".

(** ** Python string primitives *)

Module PyStr.

Definition code (c : ascii) : N := N_of_ascii c.

(** [str.isspace] on the code points below 256. *)
Definition isspace (c : ascii) : bool :=
  let n := code c in
  (((9 <=? n) && (n <=? 13)) || ((28 <=? n) && (n <=? 32))
   || (n =? 133) || (n =? 160))%N.

(** The class [\d] on the code points below 256. *)
Definition isdigit (c : ascii) : bool :=
  let n := code c in ((48 <=? n) && (n <=? 57))%N.

Fixpoint lstrip (s : string) : string :=
  match s with
  | EmptyString => EmptyString
  | String c s' => if isspace c then lstrip s' else s
  end.

Fixpoint rstrip (s : string) : string :=
  match s with
  | EmptyString => EmptyString
  | String c s' =>
      match rstrip s' with
      | EmptyString => if isspace c then EmptyString else String c EmptyString
      | r => String c r
      end
  end.

(** [s.strip()] *)
Definition strip (s : string) : string := rstrip (lstrip s).

(** [s.startswith(p)] *)
Definition startswith (s p : string) : bool := String.prefix p s.

(** [s[n:]] *)
Fixpoint slice_from (n : nat) (s : string) : string :=
  match n, s with
  | O, _ => s
  | S n', String _ s' => slice_from n' s'
  | S _, EmptyString => EmptyString
  end.

(** [s.split()]: the maximal runs of non-blank characters. *)
Fixpoint split_ws (s : string) : list string :=
  match s with
  | EmptyString => []
  | String c s' =>
      if isspace c then split_ws s'
      else
        match s' with
        | EmptyString => [String c EmptyString]
        | String c' _ =>
            if isspace c' then String c EmptyString :: split_ws s'
            else
              match split_ws s' with
              | w :: ws => String c w :: ws
              | [] => [String c EmptyString]
              end
        end
  end.

(** [s.split(sep)] for a one-character separator; never the empty list. *)
Fixpoint split_on (sep : ascii) (s : string) : list string :=
  match s with
  | EmptyString => [EmptyString]
  | String c s' =>
      if Ascii.eqb c sep then EmptyString :: split_on sep s'
      else
        match split_on sep s' with
        | w :: ws => String c w :: ws
        | [] => [String c EmptyString]
        end
  end.

(** [s.split(sep, 1)]: cut at the first separator only. *)
Fixpoint split1 (sep : ascii) (s : string) : list string :=
  match s with
  | EmptyString => [EmptyString]
  | String c s' =>
      if Ascii.eqb c sep then [EmptyString; s']
      else
        match split1 sep s' with
        | w :: ws => String c w :: ws
        | [] => [String c EmptyString]
        end
  end.

(** [sep.join(parts)] *)
Fixpoint join (sep : string) (parts : list string) : string :=
  match parts with
  | [] => EmptyString
  | [p] => p
  | p :: ps => p ++ sep ++ join sep ps
  end.

Definition digit_val (c : ascii) : N := (code c - 48)%N.

Fixpoint int_acc (acc : N) (s : string) : N :=
  match s with
  | EmptyString => acc
  | String c s' => int_acc (10 * acc + digit_val c)%N s'
  end.

(** [int(s)] on a string of decimal digits. *)
Definition int (s : string) : N := int_acc 0 s.

(** [str(n)] for a non-negative integer. *)
Definition str_of_N (n : N) : string := NilEmpty.string_of_uint (N.to_uint n).

(** [str(z)] for an integer. *)
Definition str_of_Z (z : Z) : string :=
  match z with
  | Zneg p => String "-" (str_of_N (Npos p))
  | _ => str_of_N (Z.to_N z)
  end.

Fixpoint all_chars (p : ascii -> bool) (s : string) : bool :=
  match s with
  | EmptyString => true
  | String c s' => p c && all_chars p s'
  end.

(** The last character of a string and what precedes it. *)
Fixpoint unsnoc (s : string) : option (string * ascii) :=
  match s with
  | EmptyString => None
  | String c s' =>
      match unsnoc s' with
      | None => Some (EmptyString, c)
      | Some (init, l) => Some (String c init, l)
      end
  end.

(** Two lower-case hexadecimal digits. *)
Definition hex_digit (n : N) : ascii :=
  ascii_of_N (if (n <? 10)%N then 48 + n else 87 + n).

Definition hex2 (n : N) : string :=
  String (hex_digit (n / 16)) (String (hex_digit (n mod 16)) EmptyString).

(** [str.isprintable] on the code points below 256. *)
Definition isprintable (c : ascii) : bool :=
  let n := code c in
  (((32 <=? n) && (n <? 127)) || ((161 <=? n) && negb (n =? 173)))%N.

Definition contains (c : ascii) (s : string) : bool :=
  negb (all_chars (fun c' => negb (Ascii.eqb c' c)) s).

Definition backslash : ascii := ascii_of_N 92.
Definition single_quote : ascii := ascii_of_N 39.
Definition double_quote : ascii := ascii_of_N 34.

(** The characters of [repr(s)] between the quotes. *)
Fixpoint repr_body (quote : ascii) (s : string) : string :=
  match s with
  | EmptyString => EmptyString
  | String c s' =>
      (if Ascii.eqb c quote || Ascii.eqb c backslash
       then String backslash (String c EmptyString)
       else if (code c =? 9)%N then String backslash "t"
       else if (code c =? 10)%N then String backslash "n"
       else if (code c =? 13)%N then String backslash "r"
       else if isprintable c then String c EmptyString
       else String backslash (String "x" (hex2 (code c))))
      ++ repr_body quote s'
  end.

(** [repr(s)]: in single quotes, unless [s] has a single quote and no
    double quote. *)
Definition repr (s : string) : string :=
  let quote :=
    if contains single_quote s && negb (contains double_quote s)
    then double_quote else single_quote in
  String quote (repr_body quote s ++ String quote EmptyString).

End PyStr.

(** ** Regular expressions, as far as the patterns of [triggers.py] use them *)

Module Regex.

Inductive re : Type :=
| Void
| Eps
| Range (lo hi : N)
| Cat (r1 r2 : re)
| Alt (r1 r2 : re)
| Star (r : re).

(** A literal character, [[a-b]], [(?:r)?], [r+] and [[abc]]. *)
Definition Lit (c : ascii) : re := Range (PyStr.code c) (PyStr.code c).
Definition CharRange (a b : ascii) : re := Range (PyStr.code a) (PyStr.code b).
Definition Opt (r : re) : re := Alt r Eps.
Definition Plus (r : re) : re := Cat r (Star r).
Fixpoint OneOf (s : string) : re :=
  match s with
  | EmptyString => Void
  | String c EmptyString => Lit c
  | String c s' => Alt (Lit c) (OneOf s')
  end.

Definition in_range (lo hi : N) (c : ascii) : bool :=
  ((lo <=? PyStr.code c) && (PyStr.code c <=? hi))%N.

Fixpoint nullable (r : re) : bool :=
  match r with
  | Void => false
  | Eps => true
  | Range _ _ => false
  | Cat r1 r2 => nullable r1 && nullable r2
  | Alt r1 r2 => nullable r1 || nullable r2
  | Star _ => true
  end.

(** Brzozowski derivative. *)
Fixpoint deriv (c : ascii) (r : re) : re :=
  match r with
  | Void => Void
  | Eps => Void
  | Range lo hi => if in_range lo hi c then Eps else Void
  | Cat r1 r2 =>
      if nullable r1 then Alt (Cat (deriv c r1) r2) (deriv c r2)
      else Cat (deriv c r1) r2
  | Alt r1 r2 => Alt (deriv c r1) (deriv c r2)
  | Star r1 => Cat (deriv c r1) (Star r1)
  end.

(** Does the whole string belong to the language of [r]? *)
Fixpoint matches (r : re) (s : string) : bool :=
  match s with
  | EmptyString => nullable r
  | String c s' => matches (deriv c r) s'
  end.

(** The language of a regular expression. *)
Inductive lang : re -> string -> Prop :=
| lang_eps : lang Eps EmptyString
| lang_range lo hi c : in_range lo hi c = true -> lang (Range lo hi) (String c EmptyString)
| lang_cat r1 r2 s1 s2 : lang r1 s1 -> lang r2 s2 -> lang (Cat r1 r2) (s1 ++ s2)
| lang_alt_l r1 r2 s : lang r1 s -> lang (Alt r1 r2) s
| lang_alt_r r1 r2 s : lang r2 s -> lang (Alt r1 r2) s
| lang_star_nil r : lang (Star r) EmptyString
| lang_star_cons r s1 s2 : lang r s1 -> lang (Star r) s2 -> lang (Star r) (s1 ++ s2).

Definition newline : ascii := ascii_of_N 10.

(** [re.match('^' + r + '$', s)]: the matched text.  [$] also matches just
    before a final newline.  None of the patterns below accepts a newline,
    so at most one of the two cases applies. *)
Definition py_match (r : re) (s : string) : option string :=
  if matches r s then Some s
  else
    match PyStr.unsnoc s with
    | Some (init, c) =>
        if Ascii.eqb c newline && matches r init then Some init else None
    | None => None
    end.

End Regex.

(** ** [datetime] values *)

Module DateTime.

Local Open Scope Z_scope.

(** A naive [datetime] is its count of microseconds from 1970-01-01T00:00:00
    on its own calendar; an aware one also carries its UTC offset in
    seconds. *)
Inductive datetime : Type :=
| Naive (us : Z)
| Aware (us : Z) (utcoffset : Z).

Definition local_us (d : datetime) : Z :=
  match d with Naive us => us | Aware us _ => us end.

(** [a <= b]: comparing a naive with an aware value raises [TypeError]. *)
Definition dt_le (a b : datetime) : option bool :=
  match a, b with
  | Naive x, Naive y => Some (x <=? y)
  | Aware x ox, Aware y oy => Some (x - ox * 1000000 <=? y - oy * 1000000)
  | _, _ => None
  end.

(** [datetime.max], 9999-12-31T23:59:59.999999. *)
Definition max_us : Z := 253402300799999999.

(** Year, month and day of a day number counted from 1970-01-01. *)
Definition civil_from_days (z : Z) : Z * Z * Z :=
  let z := z + 719468 in
  let era := z / 146097 in
  let doe := z - era * 146097 in
  let yoe := (doe - doe / 1460 + doe / 36524 - doe / 146096) / 365 in
  let y := yoe + era * 400 in
  let doy := doe - (365 * yoe + yoe / 4 - yoe / 100) in
  let mp := (5 * doy + 2) / 153 in
  let d := doy - (153 * mp + 2) / 5 + 1 in
  let m := if mp <? 10 then mp + 3 else mp - 9 in
  (if m <=? 2 then y + 1 else y, m, d).

(** Zero-padded decimal of a non-negative number. *)
Definition pad (width : nat) (z : Z) : string :=
  let s := PyStr.str_of_N (Z.to_N z) in
  PyStr.join EmptyString (repeat "0"%string (width - String.length s)) ++ s.

(** The fields [YYYY-MM-DD], [HH:MM:SS] of a count of seconds. *)
Definition date_text (secs : Z) : string :=
  let '(y, m, d) := civil_from_days (secs / 86400) in
  pad 4 y ++ "-" ++ pad 2 m ++ "-" ++ pad 2 d.

Definition time_text (secs : Z) : string :=
  let sod := secs mod 86400 in
  pad 2 (sod / 3600) ++ ":" ++ pad 2 (sod mod 3600 / 60) ++ ":" ++ pad 2 (sod mod 60).

(** The UTC offset suffix of [isoformat], [+HH:MM] or [+HH:MM:SS]. *)
Definition offset_text (off : Z) : string :=
  let a := Z.abs off in
  (if off <? 0 then "-" else "+")
    ++ pad 2 (a / 3600) ++ ":" ++ pad 2 (a mod 3600 / 60)
    ++ (if a mod 60 =? 0 then "" else ":" ++ pad 2 (a mod 60)).

(** [d.isoformat()] *)
Definition isoformat (d : datetime) : string :=
  let us := local_us d in
  let secs := us / 1000000 in
  let frac := us mod 1000000 in
  date_text secs ++ "T" ++ time_text secs
    ++ (if frac =? 0 then "" else "." ++ pad 6 frac)
    ++ match d with Naive _ => "" | Aware _ off => offset_text off end.

(** [d.strftime('%Y-%m-%d %H:%M:%S')] *)
Definition strftime (d : datetime) : string :=
  let secs := local_us d / 1000000 in
  date_text secs ++ " " ++ time_text secs.

(** SQLite's [datetime(t)] for a count of UTC seconds [t]. *)
Definition sqlite_datetime (utc_secs : Z) : string :=
  date_text utc_secs ++ " " ++ time_text utc_secs.

End DateTime.

(** ** Collaborators outside the repository *)

Module Env.

Import DateTime.

Inductive time_unit : Type := Seconds | Minutes | Hours | Days.

(** The trigger objects of the timer engine, by the arguments
    [triggers.py] builds them from. *)
Inductive trigger : Type :=
| CronTrigger (crontab : string)
| IntervalTrigger (amount : option (time_unit * N)) (start_date : option datetime)
| DateTrigger (run_date : datetime).

(** A [float] read by [json.load], kept as the literal of the file. *)
Record pyfloat : Type := PyFloat { float_literal : string }.

(** What [json.load] returns.  A [JDict] lists its items in the order of the
    file; its keys are distinct, as those of a [dict] are. *)
Inductive json : Type :=
| JNull
| JBool (b : bool)
| JInt (z : Z)
| JFloat (f : pyfloat)
| JStr (s : string)
| JList (items : list json)
| JDict (items : list (string * json)).

Class Externals : Type := {
  (** [datetime.fromisoformat]; [None] when it raises [ValueError]. *)
  fromisoformat : string -> option datetime;
  (** Does [CronTrigger.from_crontab] accept the expression? *)
  from_crontab : string -> bool;
  (** The name and text of each field of a cron trigger. *)
  cron_fields : string -> list (string * string);
  (** What reading [job.next_run_time] gives for a job added at time [now]
      to an engine that is running or not: [None] when the attribute is not
      set (the read raises [AttributeError]), [Some None] for a job that
      will not fire again. *)
  job_next_run_time : bool -> trigger -> Z -> option (option datetime);
  (** [f > k], [f < k], [f // k], [bool(f)] and [str(f)] for a float [f]
      and an integer [k]. *)
  float_gt : pyfloat -> Z -> bool;
  float_lt : pyfloat -> Z -> bool;
  float_floordiv : pyfloat -> Z -> pyfloat;
  float_truthy : pyfloat -> bool;
  float_str : pyfloat -> string;
  (** [str] of a list or a dict. *)
  container_str : json -> string;
  (** The UTC offset, in seconds, that the local time zone has at a wall
      time given in microseconds: the triggers of the engine make the naive
      dates they are given aware with it. *)
  local_utcoffset : Z -> Z;
  (** SQLite's text of a [REAL]. *)
  sqlite_real_text : pyfloat -> string;
  (** The number a text reads as for SQLite, an integer or a real; [None]
      when the text is no well-formed number. *)
  sqlite_numeric_text : string -> option (Z + pyfloat);
  (** The integer a [REAL] is equal to, when SQLite stores it as one. *)
  sqlite_real_integer : pyfloat -> option Z;
}.

End Env.

(** ** [scheduler/triggers.py] *)

Module Triggers.

Import PyStr Regex DateTime.
Export Env.

Definition digit : re := CharRange "0" "9".

(** [r'^(\d+)([smhd])$'] *)
Definition re_value_unit : re := Cat (Plus digit) (OneOf "smhd").

(** Groups 1 and 2 of a match of [re_value_unit]: the digits and the unit. *)
Definition match_value_unit (s : string) : option (string * ascii) :=
  match py_match re_value_unit s with
  | Some m => unsnoc m
  | None => None
  end.

(** The shape shared by the five patterns of [_validate_cron]:
    [\*|V(?:-V)?(?:,V(?:-V)?)*|\*/\d+] for a value pattern [V]. *)
Definition cron_item (V : re) : re := Cat V (Opt (Cat (Lit "-") V)).

Definition cron_field_re (V : re) : re :=
  Alt (Lit "*")
    (Alt (Cat (cron_item V) (Star (Cat (Lit ",") (cron_item V))))
         (Cat (Lit "*") (Cat (Lit "/") (Plus digit)))).

(** [[0-5]?\d] *)
Definition V_minute : re := Cat (Opt (CharRange "0" "5")) digit.
(** [1?\d|2[0-3]] *)
Definition V_hour : re :=
  Alt (Cat (Opt (Lit "1")) digit) (Cat (Lit "2") (CharRange "0" "3")).
(** [[1-9]|[12]\d|3[01]] *)
Definition V_day : re :=
  Alt (CharRange "1" "9")
    (Alt (Cat (OneOf "12") digit) (Cat (Lit "3") (OneOf "01"))).
(** [[1-9]|1[0-2]] *)
Definition V_month : re :=
  Alt (CharRange "1" "9") (Cat (Lit "1") (CharRange "0" "2")).
(** [[0-6]] *)
Definition V_day_of_week : re := CharRange "0" "6".

Definition patterns : list re :=
  [cron_field_re V_minute; cron_field_re V_hour; cron_field_re V_day;
   cron_field_re V_month; cron_field_re V_day_of_week].

Definition _validate_cron (cron_expr : string) : bool :=
  let parts := split_ws cron_expr in
  if negb (length parts =? 5)%nat then false
  else
    forallb
      (fun ip : re * string => bool_decide (is_Some (py_match ip.1 ip.2)))
      (zip patterns parts).

Definition unit_of_char (unit : ascii) : option time_unit :=
  if Ascii.eqb unit "s" then Some Seconds
  else if Ascii.eqb unit "m" then Some Minutes
  else if Ascii.eqb unit "h" then Some Hours
  else if Ascii.eqb unit "d" then Some Days
  else None.

Definition unit_seconds (u : time_unit) : Z :=
  match u with
  | Seconds => 1
  | Minutes => 60
  | Hours => 3600
  | Days => 86400
  end.

(** [timedelta(...)] raises [OverflowError] beyond 999999999 days. *)
Definition timedelta_ok (u : time_unit) (value : N) : bool :=
  (Z.of_N value * unit_seconds u / 86400 <=? 999999999)%Z.

(** [IntervalTrigger(...)] without a start date starts at
    [datetime.now(tz) + interval], an addition that raises [OverflowError]
    beyond [datetime.max]; a start date that is given is taken as it is. *)
Definition start_date_ok (now seconds : Z) (start_time : option datetime) : bool :=
  match start_time with
  | Some _ => true
  | None => (now + seconds * 1000000 <=? max_us)%Z
  end.

Section WithExternals.

Context `{Externals}.

Definition _parse_cron (schedule_spec : string) : option trigger :=
  let cron_expr := strip (slice_from 5 schedule_spec) in
  if negb (_validate_cron cron_expr) then None
  else if from_crontab cron_expr then Some (CronTrigger cron_expr)
  else None.

(** [_parse_interval]; [now] is what [datetime.now(tz)] returns inside
    the constructor of the trigger. *)
Definition _parse_interval (now : Z) (schedule_spec : string)
    (start_time : option datetime) : option trigger :=
  let interval_spec := strip (slice_from 6 schedule_spec) in
  match match_value_unit interval_spec with
  | None => None
  | Some (digits, unit) =>
      let value := int digits in
      if (value <=? 0)%N then None
      else
        match unit_of_char unit with
        | Some u =>
            if timedelta_ok u value
               && start_date_ok now (Z.of_N value * unit_seconds u) start_time
            then Some (IntervalTrigger (Some (u, value)) start_time)
            else None
        | None =>
            if start_date_ok now 1 start_time
            then Some (IntervalTrigger None start_time)
            else None
        end
  end.

Definition _parse_date (now : Z) (schedule_spec : string) : option trigger :=
  let date_str := strip (slice_from 3 schedule_spec) in
  match fromisoformat date_str with
  | None => None
  | Some run_date =>
      (* [run_date <= datetime.now()] only decides a warning, but raises
         [TypeError] inside the [try] when [run_date] is aware *)
      match dt_le run_date (Naive now) with
      | None => None
      | Some _ => Some (DateTrigger run_date)
      end
  end.

Definition _parse_relative (now : Z) (schedule_spec : string) : option trigger :=
  let relative_spec := strip (slice_from 3 schedule_spec) in
  match match_value_unit relative_spec with
  | None => None
  | Some (digits, unit) =>
      let value := int digits in
      if (value <=? 0)%N then None
      else
        match unit_of_char unit with
        | Some u =>
            let run_date := (now + Z.of_N value * unit_seconds u * 1000000)%Z in
            if timedelta_ok u value && (run_date <=? max_us)%Z
            then Some (DateTrigger (Naive run_date))
            else None
        | None => None
        end
  end.

(** [TriggerParser.parse]; [now] is what [datetime.now()] returns. *)
Definition parse (now : Z) (schedule_spec : string) (start_time : option datetime)
  : option trigger :=
  if startswith schedule_spec "cron:" then _parse_cron schedule_spec
  else if startswith schedule_spec "every " then _parse_interval now schedule_spec start_time
  else if startswith schedule_spec "at:" then _parse_date now schedule_spec
  else if startswith schedule_spec "in " then _parse_relative now schedule_spec
  else None.

(** The dictionary [unit_names], looked up at [unit]. *)
Definition unit_name (unit : ascii) (value : N) : option string :=
  if Ascii.eqb unit "s" then Some (if (value =? 1)%N then "second" else "seconds")
  else if Ascii.eqb unit "m" then Some (if (value =? 1)%N then "minute" else "minutes")
  else if Ascii.eqb unit "h" then Some (if (value =? 1)%N then "hour" else "hours")
  else if Ascii.eqb unit "d" then Some (if (value =? 1)%N then "day" else "days")
  else None.

(** The body of [get_human_readable]'s [try]; [None] when it raises. *)
Definition human_readable_body (schedule_spec : string) : option string :=
  if startswith schedule_spec "cron:" then
    let cron_expr := strip (slice_from 5 schedule_spec) in
    Some ("Cron schedule: " ++ cron_expr)
  else if startswith schedule_spec "every " then
    let interval_spec := strip (slice_from 6 schedule_spec) in
    match match_value_unit interval_spec with
    | None => Some schedule_spec
    | Some (digits, unit) =>
        let value := int digits in
        match unit_name unit value with
        | Some name => Some ("Every " ++ str_of_N value ++ " " ++ name)
        | None => None
        end
    end
  else if startswith schedule_spec "at:" then
    let date_str := strip (slice_from 3 schedule_spec) in
    match fromisoformat date_str with
    | Some run_date => Some ("At " ++ strftime run_date)
    | None => Some ("At " ++ date_str)
    end
  else if startswith schedule_spec "in " then
    let relative_spec := strip (slice_from 3 schedule_spec) in
    match match_value_unit relative_spec with
    | None => Some schedule_spec
    | Some (digits, unit) =>
        let value := int digits in
        match unit_name unit value with
        | Some name => Some ("In " ++ str_of_N value ++ " " ++ name)
        | None => None
        end
    end
  else Some schedule_spec.

(** [TriggerParser.get_human_readable]: the [except] clause returns the
    specification itself. *)
Definition get_human_readable (schedule_spec : string) : string :=
  match human_readable_body schedule_spec with
  | Some text => text
  | None => schedule_spec
  end.

Inductive trigger_info : Type :=
| CronInfo (fields : list (string * string))
| IntervalInfo (seconds : Z)
| DateInfo (run_date : string).

(** The [run_date] a date trigger holds: the date it was given, made
    aware in the local time zone when it is naive. *)
Definition localize (d : datetime) : datetime :=
  match d with
  | Naive us => Aware us (local_utcoffset us)
  | Aware _ _ => d
  end.

(** [TriggerParser.get_trigger_info]; an interval of length zero is one
    second for the engine. *)
Definition get_trigger_info (t : trigger) : trigger_info :=
  match t with
  | CronTrigger expr => CronInfo (cron_fields expr)
  | IntervalTrigger (Some (u, value)) _ => IntervalInfo (Z.of_N value * unit_seconds u)
  | IntervalTrigger None _ => IntervalInfo 1
  | DateTrigger run_date => DateInfo (isoformat (localize run_date))
  end.

End WithExternals.

End Triggers.

(** ** The schedule-specification grammar, as the specification words it *)

Module Grammar.

Import PyStr.
Import Env.

(** [<N>]: one or more decimal digits. *)
Definition g_number (s : string) : bool :=
  negb (String.eqb s "") && all_chars isdigit s.

Definition g_unit (c : ascii) : bool :=
  Ascii.eqb c "s" || Ascii.eqb c "m" || Ascii.eqb c "h" || Ascii.eqb c "d".

(** [<N><unit>], with [N] positive when [positive] is set. *)
Definition g_value_unit (positive : bool) (body : string) : bool :=
  match unsnoc body with
  | Some (n, u) =>
      g_number n && g_unit u && (if positive then (0 <? int n)%N else true)
  | None => false
  end.

(** A single value of a cron field with range [lo]-[hi]. *)
Definition g_value (lo hi : N) (v : string) : bool :=
  g_number v && ((lo <=? int v) && (int v <=? hi))%N.

(** A value or a range [a-b]. *)
Definition g_item (lo hi : N) (item : string) : bool :=
  match split_on "-" item with
  | [a] => g_value lo hi a
  | [a; b] => g_value lo hi a && g_value lo hi b
  | _ => false
  end.

(** The English word of a unit: singular for one, plural otherwise. *)
Definition unit_word (u : ascii) (n : N) : string :=
  (if Ascii.eqb u "s" then "second"
   else if Ascii.eqb u "m" then "minute"
   else if Ascii.eqb u "h" then "hour"
   else "day")
  ++ (if (n =? 1)%N then "" else "s").

(** A step [*/n]. *)
Definition g_step (f : string) : bool :=
  startswith f "*/" && g_number (slice_from 2 f).

(** A cron field: [*], a step, or a comma list of values and ranges. *)
Definition g_field (lo hi : N) (f : string) : bool :=
  String.eqb f "*" || g_step f || forallb (g_item lo hi) (split_on "," f).

(** Exactly five whitespace-separated fields, each within its range. *)
Definition g_cron (body : string) : bool :=
  match split_ws body with
  | [minute; hour; day; month; day_of_week] =>
      g_field 0 59 minute && g_field 0 23 hour && g_field 1 31 day
      && g_field 1 12 month && g_field 0 6 day_of_week
  | _ => false
  end.

Section WithExternals.

Context `{Externals}.

(** Membership in one of the four grammars.  [norm] is applied to the text
    after the prefix of the three one-token forms: the identity reads the
    grammar to the letter, [strip] allows blanks around the token. *)
Definition in_grammar (norm : string -> string) (spec : string) : bool :=
  (startswith spec "cron:" && g_cron (slice_from 5 spec))
  || (startswith spec "every " && g_value_unit true (norm (slice_from 6 spec)))
  || (startswith spec "at:"
      && bool_decide (is_Some (fromisoformat (norm (slice_from 3 spec)))))
  || (startswith spec "in " && g_value_unit false (norm (slice_from 3 spec))).

End WithExternals.

End Grammar.

(** ** [scheduler/persistence.py] *)

Module Persistence.

Import PyStr DateTime.
Export Env.

(** A value bound to a statement or stored in a column. *)
Inductive sqlval : Type :=
| SNull
| SInt (z : Z)
| SReal (f : pyfloat)
| SText (s : string).

(** A row of [schedules].  [task_id] and [schedule_value] only ever receive
    strings; [job_id] and [schedule_type] have TEXT affinity, [next_run_time]
    has NUMERIC affinity. *)
Record schedule_row : Type := ScheduleRow {
  s_id : Z;
  s_task_id : string;
  s_job_id : sqlval;
  s_type : sqlval;
  s_value : string;
  s_created_at : string;
  s_next_run_time : sqlval;
}.

(** A row of [task_runs]. *)
Record run_row : Type := RunRow {
  r_id : Z;
  r_task_id : string;
  r_status : string;
  r_start_time : option string;
  r_end_time : option string;
  r_error : option string;
}.

(** The database file.  [db_ok = false] stands for a database on which every
    statement raises [sqlite3.Error]. *)
Record store : Type := Store {
  db_ok : bool;
  schedules : list schedule_row;
  schedules_seq : Z;
  task_runs : list run_row;
  task_runs_seq : Z;
}.


Definition has_schedule (task_id : string) (rows : list schedule_row) : bool :=
  existsb (fun r => String.eqb (s_task_id r) task_id) rows.

(** [INSERT INTO schedules (...)], [created_at] defaulting to
    [CURRENT_TIMESTAMP]. *)
Definition insert_schedule (utcnow : Z) (task_id : string) (job_id schedule_type : sqlval)
    (schedule_value : string) (next_run_time : sqlval) (db : store) : store :=
  let id := (schedules_seq db + 1)%Z in
  {| db_ok := db_ok db;
     schedules := schedules db ++
       [ScheduleRow id task_id job_id schedule_type schedule_value
          (sqlite_datetime utcnow) next_run_time];
     schedules_seq := id;
     task_runs := task_runs db;
     task_runs_seq := task_runs_seq db |}.

Definition with_schedules (rows : list schedule_row) (db : store) : store :=
  {| db_ok := db_ok db;
     schedules := rows;
     schedules_seq := schedules_seq db;
     task_runs := task_runs db;
     task_runs_seq := task_runs_seq db |}.

Definition with_task_runs (rows : list run_row) (seq : Z) (db : store) : store :=
  {| db_ok := db_ok db;
     schedules := schedules db;
     schedules_seq := schedules_seq db;
     task_runs := rows;
     task_runs_seq := seq |}.

Definition update_schedule (task_id : string) (job_id schedule_type : sqlval)
    (schedule_value : string) (next_run_time : sqlval) (r : schedule_row)
  : schedule_row :=
  if String.eqb (s_task_id r) task_id
  then ScheduleRow (s_id r) (s_task_id r) job_id schedule_type schedule_value
         (s_created_at r) next_run_time
  else r.

Definition opt_text (o : option string) : sqlval :=
  match o with Some s => SText s | None => SNull end.

(** [save_schedule]; every error is caught and logged.  The three texts
    keep their type in their columns: the text of [isoformat] does not read
    as a number. *)
Definition save_schedule (utcnow : Z) (task_id job_id schedule_type schedule_value : string)
    (next_run_time : option datetime) (db : store) : store :=
  if negb (db_ok db) then db
  else
    let next_run_time_str := opt_text (isoformat <$> next_run_time) in
    if has_schedule task_id (schedules db)
    then with_schedules
           (map (update_schedule task_id (SText job_id) (SText schedule_type)
                   schedule_value next_run_time_str) (schedules db)) db
    else insert_schedule utcnow task_id (SText job_id) (SText schedule_type)
           schedule_value next_run_time_str db.

(** [delete_schedule] *)
Definition delete_schedule (task_id : string) (db : store) : store :=
  if negb (db_ok db) then db
  else with_schedules
         (filter (fun r => s_task_id r ≠ task_id) (schedules db)) db.

(** [get_schedule]: the first row of the task, [None] on any error. *)
Definition get_schedule (task_id : string) (db : store) : option schedule_row :=
  if negb (db_ok db) then None
  else find (fun r => String.eqb (s_task_id r) task_id) (schedules db).

(** [get_all_schedules]: the empty list on any error. *)
Definition get_all_schedules (db : store) : list schedule_row :=
  if negb (db_ok db) then [] else schedules db.

(** [log_task_run]: one more row, never an update. *)
Definition log_task_run (task_id status : string) (start_time end_time : option datetime)
    (error : option string) (db : store) : store :=
  if negb (db_ok db) then db
  else
    let id := (task_runs_seq db + 1)%Z in
    with_task_runs
      (task_runs db ++
         [RunRow id task_id status (isoformat <$> start_time)
            (isoformat <$> end_time) error])
      id db.

(** The [WHERE] clause of [cleanup_old_runs]: both sides are text and are
    compared byte by byte; a [NULL] start time compares as unknown. *)
Definition older_than (cutoff : string) (r : run_row) : bool :=
  match r_start_time r with
  | Some t => String.ltb t cutoff
  | None => false
  end.

(** [cleanup_old_runs]: [utcnow] is SQLite's ['now'] in seconds.  The
    modifier [f"-{days} days"] is malformed for a negative [days], and
    [datetime] then yields [NULL]. *)
Definition cleanup_old_runs (utcnow : Z) (days : Z) (db : store) : store :=
  if negb (db_ok db) then db
  else if (days <? 0)%Z then db
  else
    let cutoff := sqlite_datetime (utcnow - days * 86400) in
    with_task_runs
      (filter (fun r => older_than cutoff r = false) (task_runs db))
      (task_runs_seq db) db.

(** The sort key of [ORDER BY start_time DESC]: is the start of [a] at or
    after that of [b]?  [NULL] sorts below every text, and texts compare
    byte by byte. *)
Definition start_ge (a b : run_row) : bool :=
  match r_start_time a, r_start_time b with
  | _, None => true
  | None, Some _ => false
  | Some x, Some y => negb (String.ltb x y)
  end.

(** [ORDER BY start_time DESC] as the database engine carries it out.  SQL
    leaves open in which order rows with equal keys are returned, so the
    order is a parameter of the model. *)
Class RowOrder : Type := {
  order_by_start_desc : list run_row -> list run_row;
}.

(** [get_task_runs]: the empty list on any error.  Binding a [limit] that
    does not fit 64 bits raises [OverflowError]; a negative [LIMIT] is no
    limit. *)
Definition get_task_runs `{RowOrder} (task_id : string) (limit : Z) (db : store)
  : list run_row :=
  if negb (db_ok db) then []
  else if negb ((- 2 ^ 63 <=? limit) && (limit <? 2 ^ 63))%Z then []
  else
    let rows :=
      order_by_start_desc (filter (fun r => r_task_id r = task_id) (task_runs db)) in
    if (limit <? 0)%Z then rows else take (Z.to_nat limit) rows.

(** *** The legacy migration *)

Definition dict_get (d : list (string * json)) (key : string) : option json :=
  snd <$> find (fun kv => String.eqb (fst kv) key) d.


Definition as_str (j : json) : option string :=
  match j with JStr s => Some s | _ => None end.

Definition is_str (j : json) (s : string) : bool :=
  match j with JStr s' => String.eqb s' s | _ => false end.

Fixpoint all_str (l : list json) : option (list string) :=
  match l with
  | [] => Some []
  | j :: l' =>
      match as_str j, all_str l' with
      | Some s, Some ss => Some (s :: ss)
      | _, _ => None
      end
  end.

Section WithExternals.

Context `{Externals}.

(** [bool(j)] *)
Definition truthy (j : json) : bool :=
  match j with
  | JNull => false
  | JBool b => b
  | JInt z => negb (z =? 0)%Z
  | JFloat f => float_truthy f
  | JStr s => negb (String.eqb s "")
  | JList l => negb (length l =? 0)%nat
  | JDict d => negb (length d =? 0)%nat
  end.

(** [str(j)], as an f-string formats it. *)
Definition py_str (j : json) : string :=
  match j with
  | JNull => "None"
  | JBool true => "True"
  | JBool false => "False"
  | JInt z => str_of_Z z
  | JFloat f => float_str f
  | JStr s => s
  | _ => container_str j
  end.

(** [j > k] and [j < k] for an integer [k]; [None] is [TypeError]. *)
Definition num_gt (j : json) (k : Z) : option bool :=
  match j with
  | JBool b => Some (k <? (if b then 1 else 0))%Z
  | JInt z => Some (k <? z)%Z
  | JFloat f => Some (float_gt f k)
  | _ => None
  end.

Definition num_lt (j : json) (k : Z) : option bool :=
  match j with
  | JBool b => Some ((if b then 1 else 0) <? k)%Z
  | JInt z => Some (z <? k)%Z
  | JFloat f => Some (float_lt f k)
  | _ => None
  end.

(** [j // k] for a positive integer [k]. *)
Definition num_floordiv (j : json) (k : Z) : option json :=
  match j with
  | JBool b => Some (JInt ((if b then 1 else 0) / k))
  | JInt z => Some (JInt (z / k))
  | JFloat f => Some (JFloat (float_floordiv f k))
  | _ => None
  end.






Definition cron_field_names : list string :=
  ["minute"; "hour"; "day"; "month"; "day_of_week"].

(** The [schedule_value] rebuilt from a legacy trigger; [None] when the
    conversion raises. *)
Definition legacy_schedule_value (trigger : list (string * json)) (schedule_type : json)
  : option string :=
  if is_str schedule_type "cron" then
    let cron_parts := omap (dict_get trigger) cron_field_names in
    if (length cron_parts =? 5)%nat then
      match all_str cron_parts with
      | Some parts => Some ("cron:" ++ join " " parts)
      | None => None
      end
    else Some "unknown"
  else if is_str schedule_type "interval" then
    let seconds := default (JInt 0) (dict_get trigger "seconds") in
    match num_gt seconds 0 with
    | None => None
    | Some false => Some "unknown"
    | Some true =>
        match num_lt seconds 60, num_lt seconds 3600, num_lt seconds 86400 with
        | Some true, _, _ => Some ("every " ++ py_str seconds ++ "s")
        | Some false, Some true, _ =>
            (fun minutes => "every " ++ py_str minutes ++ "m") <$> num_floordiv seconds 60
        | Some false, Some false, Some true =>
            (fun hours => "every " ++ py_str hours ++ "h") <$> num_floordiv seconds 3600
        | Some false, Some false, Some false =>
            (fun days => "every " ++ py_str days ++ "d") <$> num_floordiv seconds 86400
        | _, _, _ => None
        end
    end
  else if is_str schedule_type "date" then
    let run_date := default JNull (dict_get trigger "run_date") in
    if truthy run_date then Some ("at:" ++ py_str run_date) else Some "unknown"
  else Some "unknown".






End WithExternals.

End Persistence.

(** ** [scheduler/scheduler.py] *)

Module Scheduler.

Import PyStr DateTime.
Export Triggers Persistence.

(** The fields of [AgentTask] that the scheduler reads or writes. *)
Record AgentTask : Type := Task {
  t_status : string;
  t_progress : Z;
  t_result : option string;
  t_error : option string;
  t_updated_at : Z;
  t_schedule : option string;
  t_next_run_time : option datetime;
}.

(** The callback a job is bound to. *)
Inductive job_func : Type :=
| ExecuteTask (task_id : string)
| CleanupTask.

(** A job of the timer engine.  [j_next_run_time = None]: the attribute is
    not set. *)
Record job : Type := Job {
  j_func : job_func;
  j_trigger : trigger;
  j_next_run_time : option (option datetime);
}.

(** The events handed to [_notify_listeners]. *)
Inductive event : Type :=
| schedule_update (task_id job_id schedule_type schedule_value human_readable : string)
    (next_run_time : option string)
| schedule_removed (task_id : string)
| task_started (task_id start_time : string)
| task_finished (task_id status start_time end_time : string) (error : option string)
| task_error (task_id error end_time : string).

(** The scheduler with its collaborators: the task registry [agent.tasks],
    the job table of the timer engine, the store, and the trace of events
    passed to the listeners. *)
Record state : Type := State {
  tasks : gmap string AgentTask;
  jobs : gmap string job;
  engine_running : bool;
  scheduled_tasks : gmap string string;
  running_tasks : gset string;
  persistence : store;
  emitted : list event;
}.

(** The readings of the clocks during one call: [datetime.now()] in
    microseconds, the text of [datetime.now().timestamp()], and SQLite's
    ['now'] in seconds. *)
Record clock : Type := Clock {
  now : Z;
  timestamp : string;
  utcnow : Z;
}.

Definition set_tasks (v : gmap string AgentTask) (st : state) : state :=
  State v (jobs st) (engine_running st) (scheduled_tasks st) (running_tasks st)
    (persistence st) (emitted st).

Definition set_jobs (v : gmap string job) (st : state) : state :=
  State (tasks st) v (engine_running st) (scheduled_tasks st) (running_tasks st)
    (persistence st) (emitted st).

Definition set_engine_running (v : bool) (st : state) : state :=
  State (tasks st) (jobs st) v (scheduled_tasks st) (running_tasks st)
    (persistence st) (emitted st).

Definition set_scheduled_tasks (v : gmap string string) (st : state) : state :=
  State (tasks st) (jobs st) (engine_running st) v (running_tasks st)
    (persistence st) (emitted st).

Definition set_running_tasks (v : gset string) (st : state) : state :=
  State (tasks st) (jobs st) (engine_running st) (scheduled_tasks st) v
    (persistence st) (emitted st).

Definition set_persistence (v : store) (st : state) : state :=
  State (tasks st) (jobs st) (engine_running st) (scheduled_tasks st)
    (running_tasks st) v (emitted st).

(** [_notify_listeners]: every listener is called with the event; one that
    raises is logged and skipped. *)
Definition _notify_listeners (e : event) (st : state) : state :=
  State (tasks st) (jobs st) (engine_running st) (scheduled_tasks st)
    (running_tasks st) (persistence st) (emitted st ++ [e]).

(** [scheduler.remove_job]: [None] is [JobLookupError]. *)
Definition remove_job (job_id : string) (js : gmap string job) : option (gmap string job) :=
  match js !! job_id with
  | Some _ => Some (delete job_id js)
  | None => None
  end.

Definition schedule_type_of (t : trigger) : string :=
  match t with
  | CronTrigger _ => "cron"
  | IntervalTrigger _ _ => "interval"
  | DateTrigger _ => "date"
  end.

Definition with_schedule (human_readable : option string) (next_run_time : option datetime)
    (t : AgentTask) : AgentTask :=
  Task (t_status t) (t_progress t) (t_result t) (t_error t) (t_updated_at t)
    human_readable next_run_time.

(** The reset of a task before it runs. *)
Definition reset_task (updated_at : Z) (t : AgentTask) : AgentTask :=
  Task "pending" 0 None None updated_at (t_schedule t) (t_next_run_time t).

(** What [get_task_schedule] returns. *)
Record schedule_info : Type := ScheduleInfo {
  i_task_id : string;
  i_job_id : string;
  i_schedule_type : sqlval;
  i_schedule_value : string;
  i_human_readable : string;
  i_next_run_time : option string;
  i_trigger : trigger_info;
}.

(** How the executor call of an execution ended: the [status] and [error]
    the task object holds when it returns, the text of the [Exception] it
    raised, or a [BaseException] that is no [Exception]: the
    [asyncio.CancelledError] of a cancelled coroutine, [KeyboardInterrupt],
    [SystemExit]. *)
Inductive exec_outcome : Type :=
| Returned (status : string) (error : option string)
| Raised (message : string)
| Cancelled.

(** Where [_execute_task] stands when it first yields control. *)
Inductive fire : Type :=
| Skipped
| Awaiting (start_time : Z).

Section WithExternals.

Context `{Externals}.

(** [schedule_task] *)
Definition schedule_task (c : clock) (task_id schedule_spec : string)
    (start_time : option datetime) (st : state) : bool * state :=
  match tasks st !! task_id with
  | None => (false, st)
  | Some task =>
      match parse (now c) schedule_spec start_time with
      | None => (false, st)
      | Some trigger =>
          let schedule_type := schedule_type_of trigger in
          let job_id := "task_" ++ task_id ++ "_" ++ timestamp c in
          let job :=
            Job (ExecuteTask task_id) trigger
              (job_next_run_time (engine_running st) trigger (now c)) in
          let st := set_jobs (<[job_id := job]> (jobs st)) st in
          let st := set_scheduled_tasks (<[task_id := job_id]> (scheduled_tasks st)) st in
          let human_readable := get_human_readable schedule_spec in
          match j_next_run_time job with
          | None => (false, st)
          | Some next_run_time =>
              let st :=
                set_persistence
                  (save_schedule (utcnow c) task_id job_id schedule_type
                     schedule_spec next_run_time (persistence st)) st in
              let st :=
                set_tasks
                  (<[task_id := with_schedule (Some human_readable) next_run_time task]>
                     (tasks st)) st in
              let st :=
                _notify_listeners
                  (schedule_update task_id job_id schedule_type schedule_spec
                     human_readable (isoformat <$> next_run_time)) st in
              (true, st)
          end
      end
  end.

(** [cancel_task] *)
Definition cancel_task (task_id : string) (st : state) : bool * state :=
  match scheduled_tasks st !! task_id with
  | None => (false, st)
  | Some job_id =>
      let st :=
        match remove_job job_id (jobs st) with
        | Some js => set_jobs js st
        | None => st
        end in
      let st := set_scheduled_tasks (delete task_id (scheduled_tasks st)) st in
      let st := set_persistence (delete_schedule task_id (persistence st)) st in
      let st :=
        match tasks st !! task_id with
        | Some task => set_tasks (<[task_id := with_schedule None None task]> (tasks st)) st
        | None => st
        end in
      let st := _notify_listeners (schedule_removed task_id) st in
      (true, st)
  end.

(** [get_task_schedule] *)
Definition get_task_schedule (task_id : string) (st : state) : option schedule_info :=
  job_id ← scheduled_tasks st !! task_id;
  job ← jobs st !! job_id;
  schedule ← get_schedule task_id (persistence st);
  let trigger_info := get_trigger_info (j_trigger job) in
  let human_readable := get_human_readable (s_value schedule) in
  next_run_time ← j_next_run_time job;
  Some (ScheduleInfo task_id job_id (s_type schedule) (s_value schedule)
          human_readable (isoformat <$> next_run_time) trigger_info).

(** [get_all_schedules] *)
Definition get_all_schedules (st : state) : gmap string schedule_info :=
  map_imap (fun task_id _ => get_task_schedule task_id st) (scheduled_tasks st).

(** [get_task_runs] *)
Definition get_task_runs `{RowOrder} (task_id : string) (limit : Z) (st : state)
  : list run_row :=
  Persistence.get_task_runs task_id limit (persistence st).

(** [_execute_task] up to its [await]. *)
Definition execute_begin (c : clock) (task_id : string) (st : state) : fire * state :=
  match tasks st !! task_id with
  | None => (Skipped, st)
  | Some task =>
      if decide (task_id ∈ running_tasks st) then (Skipped, st)
      else
        let st := set_running_tasks ({[task_id]} ∪ running_tasks st) st in
        let start_time := now c in
        let st :=
          set_persistence
            (log_task_run task_id "running" (Some (Naive start_time)) None None
               (persistence st)) st in
        let st :=
          _notify_listeners (task_started task_id (isoformat (Naive start_time))) st in
        let st := set_tasks (<[task_id := reset_task (now c) task]> (tasks st)) st in
        (Awaiting start_time, st)
  end.

(** The [except] clause of [_execute_task]. *)
Definition execute_failed (c : clock) (task_id : string) (start_time : Z)
    (message : string) (st : state) : state :=
  let end_time := now c in
  let st :=
    set_persistence
      (log_task_run task_id "failed" (Some (Naive start_time)) (Some (Naive end_time))
         (Some message) (persistence st)) st in
  let st :=
    _notify_listeners (task_error task_id message (isoformat (Naive end_time))) st in
  if decide (task_id ∈ running_tasks st)
  then set_running_tasks (running_tasks st ∖ {[task_id]}) st
  else st.

(** [_execute_task] after its [await].  [running_tasks.remove] raises
    [KeyError] when the task is no longer in the set, and the text of a
    [KeyError] is the [repr] of its key.  [except Exception] does not catch
    a cancellation: it leaves the callback, and nothing more of it runs. *)
Definition execute_resume (c : clock) (task_id : string) (start_time : Z)
    (outcome : exec_outcome) (st : state) : state :=
  match outcome with
  | Returned status error =>
      let end_time := now c in
      let st :=
        set_persistence
          (log_task_run task_id status (Some (Naive start_time))
             (Some (Naive end_time)) error (persistence st)) st in
      let st :=
        _notify_listeners
          (task_finished task_id status (isoformat (Naive start_time))
             (isoformat (Naive end_time)) error) st in
      if decide (task_id ∈ running_tasks st)
      then set_running_tasks (running_tasks st ∖ {[task_id]}) st
      else execute_failed c task_id start_time (repr task_id) st
  | Raised message => execute_failed c task_id start_time message st
  | Cancelled => st
  end.

(** A whole run of [_execute_task].  [executor] stands for everything that
    happens while the executor call is awaited: it maps the state at the
    [await] to the outcome of the call and the state at the resumption. *)
Definition _execute_task (c_begin c_end : clock)
    (executor : string -> state -> exec_outcome * state)
    (task_id : string) (st : state) : state :=
  match execute_begin c_begin task_id st with
  | (Skipped, st) => st
  | (Awaiting start_time, st) =>
      let '(outcome, st) := executor task_id st in
      execute_resume c_end task_id start_time outcome st
  end.

(** The inner [try] of [_load_schedules]: is the date of a ["date"]
    schedule read and found in the past? *)
Definition past_date (now : Z) (schedule_value : string) : bool :=
  match split1 ":" schedule_value !! 1%nat with
  | None => false
  | Some rest =>
      match fromisoformat (strip rest) with
      | None => false
      | Some run_date =>
          match dt_le run_date (Naive now) with
          | Some true => true
          | _ => false
          end
      end
  end.

Definition is_text (v : sqlval) (s : string) : bool :=
  match v with SText s' => String.eqb s' s | _ => false end.

(** The loop of [_load_schedules]. *)
Fixpoint load_loop (c : clock) (rows : list schedule_row) (st : state) : state :=
  match rows with
  | [] => st
  | schedule :: rest =>
      let task_id := s_task_id schedule in
      match tasks st !! task_id with
      | None => load_loop c rest st
      | Some _ =>
          if is_text (s_type schedule) "date" && past_date (now c) (s_value schedule)
          then load_loop c rest st
          else load_loop c rest (schedule_task c task_id (s_value schedule) None st).2
      end
  end.

Definition _load_schedules (c : clock) (st : state) : state :=
  load_loop c (Persistence.get_all_schedules (persistence st)) st.

(** [scheduler.start()] of the engine: the jobs added so far get their next
    run time. *)
Definition engine_start (c : clock) (st : state) : state :=
  set_engine_running true
    (set_jobs
       ((fun j =>
           match j_next_run_time j with
           | None => Job (j_func j) (j_trigger j)
                       (job_next_run_time true (j_trigger j) (now c))
           | Some _ => j
           end) <$> jobs st) st).

(** [_schedule_cleanup]: the daily job, [CronTrigger(hour=0, minute=0)]. *)
Definition _schedule_cleanup (c : clock) (st : state) : state :=
  let trigger := CronTrigger "0 0 * * *" in
  set_jobs
    (<["cleanup_task" :=
        Job CleanupTask trigger (job_next_run_time (engine_running st) trigger (now c))]>
       (jobs st)) st.

(** [start] *)
Definition start (c : clock) (st : state) : state :=
  _schedule_cleanup c (engine_start c (_load_schedules c st)).

(** [_cleanup_task], with the value of [SCHEDULER_RETENTION_DAYS]. *)
Definition _cleanup_task (c : clock) (retention_days : Z) (st : state) : state :=
  set_persistence (cleanup_old_runs (utcnow c) retention_days (persistence st)) st.

End WithExternals.

End Scheduler.

(** ** A sample environment, for running the model on concrete inputs *)

Module Sample.

Import PyStr DateTime.
Export Scheduler.

(** Day number, from 1970-01-01, of a calendar date. *)
Definition days_from_civil (y m d : Z) : Z :=
  (let y := if m <=? 2 then y - 1 else y in
   let era := y / 400 in
   let yoe := y - era * 400 in
   let doy := (153 * (if 2 <? m then m - 3 else m + 9) + 2) / 5 + d - 1 in
   let doe := yoe * 365 + yoe / 4 - yoe / 100 + doy in
   era * 146097 + doe - 719468)%Z.

(** The number written at [s[from : from + len]]. *)
Definition field (s : string) (from len : nat) : option Z :=
  let t := substring from len s in
  if (String.length t =? len)%nat && all_chars isdigit t
  then Some (Z.of_N (int t)) else None.

Definition separator (s : string) (at_ : nat) (c : ascii) : bool :=
  match String.get at_ s with
  | Some c' => Ascii.eqb c' c
  | None => false
  end.

(** A date parser that reads [YYYY-MM-DDTHH:MM:SS] and nothing else. *)
Definition iso_basic (s : string) : option datetime :=
  if (String.length s =? 19)%nat && separator s 4 "-" && separator s 7 "-"
     && separator s 10 "T" && separator s 13 ":" && separator s 16 ":"
  then
    y ← field s 0 4; m ← field s 5 2; d ← field s 8 2;
    hh ← field s 11 2; mm ← field s 14 2; ss ← field s 17 2;
    if ((1 <=? m) && (m <=? 12) && (1 <=? d) && (d <=? 31)
        && (hh <? 24) && (mm <? 60) && (ss <? 60))%Z
    then Some (Naive ((days_from_civil y m d * 86400 + hh * 3600 + mm * 60 + ss)
                      * 1000000)%Z)
    else None
  else None.

(** An engine that sets [next_run_time] only once it runs, as a job store
    computes it when the job is really added. *)
Definition next_fire (running : bool) (t : trigger) (now : Z) : option (option datetime) :=
  if running then
    Some (Some
      match t with
      | CronTrigger _ => Aware now 0
      | IntervalTrigger (Some (u, value)) _ =>
          Aware (now + Z.of_N value * unit_seconds u * 1000000)%Z 0
      | IntervalTrigger None _ => Aware (now + 1000000)%Z 0
      | DateTrigger d => d
      end)
  else None.

#[export] Instance sample_externals : Externals := {|
  fromisoformat := iso_basic;
  from_crontab := fun _ => true;
  cron_fields := fun expr => zip Persistence.cron_field_names (split_ws expr);
  job_next_run_time := next_fire;
  float_gt := fun _ _ => false;
  float_lt := fun _ _ => false;
  float_floordiv := fun f _ => f;
  float_truthy := fun _ => true;
  float_str := float_literal;
  container_str := fun _ => "[...]";
  local_utcoffset := fun _ => 0%Z;
  sqlite_real_text := float_literal;
  sqlite_numeric_text :=
    fun s => if Grammar.g_number s then Some (inl (Z.of_N (int s))) else None;
  sqlite_real_integer := fun _ => None;
|}.

Definition empty_store : store := Store true [] 0 [] 0.

(** The scheduler as [__init__] leaves it, over a given registry. *)
Definition init_state (registry : gmap string AgentTask) : state :=
  State registry ∅ false ∅ ∅ empty_store [].

Definition new_task : AgentTask := Task "pending" 0 None None 0 None None.

(** 2024-05-01T12:00:00, on both clocks. *)
Definition noon : clock := Clock 1714564800000000 "1714564800.0" 1714564800.

(** One registered task, ["t1"], in a scheduler that was just built. *)
Definition fresh : state := init_state {[ "t1" := new_task ]}.

(** The same scheduler once the engine runs. *)
Definition running_engine : state := set_engine_running true fresh.

(** The same, over a database on which every statement fails. *)
Definition broken_db : state :=
  set_persistence (Store false [] 0 [] 0) running_engine.

(** The same, while an execution of ["t1"] is in flight. *)
Definition busy : state := set_running_tasks {[ "t1" ]} running_engine.

(** ["t1"] scheduled every ten seconds on the running engine. *)
Definition tracked : state :=
  (schedule_task noon "t1" "every 10s" None running_engine).2.

(** A schedule whose task has left the registry. *)
Definition orphan : state :=
  set_scheduled_tasks {[ "t2" := "task_t2_1714564800.0" ]} running_engine.

(** A one-shot schedule of ["t1"] for 2020-01-01, as persisted. *)
Definition stale_row : schedule_row :=
  ScheduleRow 1 "t1" (SText "task_t1_1577000000.0") (SText "date")
    "at:2020-01-01T00:00:00" "2019-12-22 07:33:20" (SText "2020-01-01T00:00:00+00:00").

(** A schedule of a task that is not in the registry. *)
Definition lost_row : schedule_row :=
  ScheduleRow 2 "t4" (SText "task_t4_1577000000.0") (SText "interval")
    "every 5m" "2019-12-22 07:33:20" SNull.

(** A scheduler that was just built over a store with these two rows. *)
Definition restarted : state :=
  set_persistence (Store true [stale_row; lost_row] 2 [] 0) fresh.



(** A table that already has the row of ["t1"]. *)
Definition partly_migrated : store :=
  Store true
    [ScheduleRow 1 "t1" (SText "job-1") (SText "interval") "every 1h"
       "2024-04-30 08:00:00" SNull]
    1 [] 0.

(** 2024-04-01T01:00:00, thirty days and eleven hours before [noon]. *)
Definition old_start : Z := 1711933200000000.

(** The run history after one run of ["t1"] that started then and took
    five seconds. *)
Definition history : store :=
  log_task_run "t1" "completed" (Some (Naive old_start))
    (Some (Naive (old_start + 5000000))) None empty_store.

(** An executor that completes the task at once. *)
Definition completes (task_id : string) (st : state) : exec_outcome * state :=
  (Returned "completed" None, st).

(** One hour after [noon]. *)
Definition one_pm : clock := Clock 1714568400000000 "1714568400.0" 1714568400.

(** An executor during whose call the task is taken out of the running
    set. *)
Definition forgets (task_id : string) (st : state) : exec_outcome * state :=
  (Returned "completed" None, set_running_tasks (running_tasks st ∖ {[task_id]}) st).

(** An executor call that is cancelled while it is awaited. *)
Definition cancelled (task_id : string) (st : state) : exec_outcome * state :=
  (Cancelled, st).

(** The scheduler after a run of ["t1"] that started at [noon] and was
    cancelled. *)
Definition leaked : state := _execute_task noon one_pm cancelled "t1" running_engine.




(** ["t1"] scheduled a second time, an hour later, without a cancel. *)
Definition rescheduled : state :=
  (schedule_task one_pm "t1" "every 1h" None tracked).2.

(** A relative one-shot of ["t1"], as persisted in 2019. *)
Definition relative_row : schedule_row :=
  ScheduleRow 3 "t1" (SText "task_t1_1577000000.0") (SText "date")
    "in 2h" "2019-12-22 07:33:20" (SText "2019-12-22T09:33:20+00:00").

(** A legacy trigger of ninety seconds. *)
Definition ninety_seconds : list (string * json) :=
  [("type", JStr "interval"); ("seconds", JInt 90)].

(** A database engine that sorts by insertion. *)
Fixpoint insert_desc (r : run_row) (l : list run_row) : list run_row :=
  match l with
  | [] => [r]
  | x :: l' => if start_ge r x then r :: l else x :: insert_desc r l'
  end.

#[export] Instance insertion_order : RowOrder := {|
  order_by_start_desc := foldr insert_desc [];
|}.

End Sample.

(** ** Notions used in the statements *)

Module Statements.

Export Scheduler.

(** The [task_id] column of [schedules]. *)
Definition task_ids (db : store) : list string := s_task_id <$> schedules db.

Section WithExternals.

Context `{Externals}.

(** The condition under which the loop of [_load_schedules] hands a row to
    [schedule_task]: its task is in the registry, and it is not a ["date"]
    schedule whose date is read and found in the past. *)
Definition reloaded (c : clock) (registry : gmap string AgentTask)
    (schedule : schedule_row) : bool :=
  bool_decide (is_Some (registry !! s_task_id schedule))
  && negb (is_text (s_type schedule) "date" && past_date (now c) (s_value schedule)).

(** One call of [schedule_task] as [_load_schedules] makes it. *)
Definition reload_row (c : clock) (st : state) (schedule : schedule_row) : state :=
  (schedule_task c (s_task_id schedule) (s_value schedule) None st).2.

(** A word: a text that is not empty and holds no blank. *)
Definition is_word (w : string) : Prop :=
  w <> "" /\ PyStr.all_chars (fun c => negb (PyStr.isspace c)) w = true.

(** Does the pattern of a cron field with value pattern [V] accept the
    text? *)
Definition accepts (V : Regex.re) (f : string) : bool :=
  match Regex.py_match (cron_field_re V) f with Some _ => true | None => false end.

(** No row of [schedules] has an id beyond the last one given out. *)
Definition ids_fresh (db : store) : Prop :=
  forall r, r ∈ schedules db -> (s_id r <= schedules_seq db)%Z.



(** The unit the migration picks for a legacy interval of [s] seconds: the
    divisor, the letter and the unit. *)
Definition legacy_unit (s : Z) : Z * ascii * time_unit :=
  if (s <? 60)%Z then (1%Z, "s"%char, Seconds)
  else if (s <? 3600)%Z then (60%Z, "m"%char, Minutes)
  else if (s <? 86400)%Z then (3600%Z, "h"%char, Hours)
  else (86400%Z, "d"%char, Days).

(** The id [schedule_task] gives the job of a task. *)
Definition job_id_at (c : clock) (task_id : string) : string :=
  "task_" ++ task_id ++ "_" ++ timestamp c.

(** What identifies a row of [schedules] and never changes once it is
    inserted: its id, its task and its creation time. *)
Definition row_identity (r : schedule_row) : Z * string * string :=
  (s_id r, s_task_id r, s_created_at r).

(** The steps the event loop interleaves: the calls of the public
    interface, the two halves of the timer callback, the daily cleanup, and
    the agent changing its registry. *)
Inductive call : Type :=
| ScheduleTask (c : clock) (task_id schedule_spec : string)
    (start_time : option DateTime.datetime)
| CancelTask (task_id : string)
| FireBegin (c : clock) (task_id : string)
| FireEnd (c : clock) (task_id : string) (start_time : Z) (outcome : exec_outcome)
| CleanupRuns (c : clock) (retention_days : Z)
| AgentSets (registry : gmap string AgentTask).

Definition step (st : state) (k : call) : state :=
  match k with
  | ScheduleTask c task_id schedule_spec start_time =>
      (schedule_task c task_id schedule_spec start_time st).2
  | CancelTask task_id => (cancel_task task_id st).2
  | FireBegin c task_id => (execute_begin c task_id st).2
  | FireEnd c task_id start_time outcome => execute_resume c task_id start_time outcome st
  | CleanupRuns c retention_days => _cleanup_task c retention_days st
  | AgentSets registry => set_tasks registry st
  end.

(** The state after a sequence of steps. *)
Definition run (st : state) (calls : list call) : state := foldl step st calls.

(** Every tracked job id has the form [schedule_task] gives it. *)
Definition tracked_ids_wf (st : state) : Prop :=
  forall task_id job_id,
    scheduled_tasks st !! task_id = Some job_id ->
    exists ts, job_id = "task_" ++ task_id ++ "_" ++ ts.

End WithExternals.

End Statements.

(** ** The calendar, for the statements about stored dates *)

Module Calendar.

Import DateTime.
Local Open Scope Z_scope.

(** A number that orders calendar dates as the calendar does. *)
Definition date_key (ymd : Z * Z * Z) : Z :=
  let '(y, m, d) := ymd in (y * 16 + m) * 32 + d.

(** The date of day [doe] of the 400-year cycle that starts on 0000-03-01. *)
Definition cycle_date (doe : Z) : Z * Z * Z := civil_from_days (doe - 719468).

Definition date_in_cycle (ymd : Z * Z * Z) : bool :=
  let '(y, m, d) := ymd in
  (0 <=? y) && (y <=? 400) && (1 <=? m) && (m <=? 12) && (1 <=? d) && (d <=? 31).

(** One day of a walk through the cycle: the day reached, the key of the
    day before, and whether every date so far was well formed and later
    than the one before it. *)
Definition cycle_step (s : Z * Z * bool) : Z * Z * bool :=
  let date := cycle_date s.1.1 in
  (s.1.1 + 1, date_key date, s.2 && date_in_cycle date && (s.1.2 <? date_key date)).

(** Is the walk through the first [n] days of the cycle in order, and its
    last date before 0400-03-01? *)
Definition cycle_ok (n : N) : bool :=
  let r := N.iter n cycle_step (0, -1, true) in
  r.2 && (r.1.2 <? date_key (400, 3, 1)).

(** Does [p] hold of the [n] numbers from [i] on? *)
Definition all_from (p : Z -> bool) (i : Z) (n : N) : bool :=
  (N.iter n (fun s : Z * bool => (s.1 + 1, s.2 && p s.1)) (i, true)).2.

(** A two-digit field has two characters and sorts as its number does. *)
Definition pad2_ok (a : Z) : bool :=
  (String.length (pad 2 a) =? 2)%nat
  && all_from (fun b => match String.compare (pad 2 a) (pad 2 b), a ?= b with
                        | Eq, Eq | Lt, Lt | Gt, Gt => true
                        | _, _ => false
                        end) 0 100.

(** A four-digit field is two two-digit fields. *)
Definition pad4_ok (y : Z) : bool :=
  String.eqb (pad 4 y) (pad 2 (y / 100) ++ pad 2 (y mod 100)).

(** The seconds from 0001-01-01T00:00:00 to 9999-12-31T23:59:59. *)
Definition in_calendar (secs : Z) : Prop := -62135596800 <= secs <= 253402300799.

End Calendar.

(** ** A sample session *)

Module Scenario.

Import Sample Statements.

(** The calls of a short session. *)
Definition session : list call :=
  [ScheduleTask noon "t1" "every 10s" None;
   FireBegin noon "t1";
   ScheduleTask one_pm "t1" "every 1h" None;
   FireEnd one_pm "t1" 1714564800000000 (Returned "completed" None);
   CancelTask "t1";
   CleanupRuns one_pm 30;
   ScheduleTask one_pm "t1" "in 2h" None].

End Scenario.

(** * Properties *)

Import PyStr Regex DateTime Grammar Scheduler Statements.
Import Calendar.

#[local] Arguments String.append !_ _ : simpl nomatch.

(** ** Strings *)

Section StringFacts.

Implicit Types (s t : string) (c : ascii).

Lemma str_app_nil_r s : s ++ "" = s.
Proof. induction s as [|c s IH]; simpl; [done | by rewrite IH]. Qed.

Lemma str_app_empty s t : s ++ t = "" -> s = "" /\ t = "".
Proof. destruct s; simpl; [done | discriminate]. Qed.

Lemma all_chars_app p s t :
  all_chars p (s ++ t) = all_chars p s && all_chars p t.
Proof.
  induction s as [|c s IH]; simpl; [done |]. by rewrite IH, andb_assoc.
Qed.

Lemma unsnoc_snoc s c : unsnoc (s ++ String c "") = Some (s, c).
Proof.
  induction s as [|c' s IH]; simpl; [done |]. by rewrite IH.
Qed.

Lemma unsnoc_Some s init c : unsnoc s = Some (init, c) -> s = init ++ String c "".
Proof.
  revert init. induction s as [|c' s IH]; intros init; simpl; [done |].
  destruct (unsnoc s) as [[i l]|] eqn:E.
  - intros [= <- <-]. simpl. by rewrite (IH i eq_refl).
  - intros [= <- <-]. destruct s; [done |]. simpl in E.
    by destruct (unsnoc s) as [[? ?]|].
Qed.

Lemma prefix_empty s : String.prefix "" s = true.
Proof. by destruct s. Qed.

Lemma split_on_absent sep s :
  all_chars (fun c => negb (Ascii.eqb c sep)) s = true -> split_on sep s = [s].
Proof.
  induction s as [|c s IH]; simpl; [done |].
  intros [Hc Hs]%andb_true_iff. apply negb_true_iff in Hc. by rewrite Hc, IH.
Qed.

Lemma split_on_first sep s t :
  all_chars (fun c => negb (Ascii.eqb c sep)) s = true ->
  split_on sep (s ++ String sep t) = s :: split_on sep t.
Proof.
  induction s as [|c s IH]; simpl; [by rewrite Ascii.eqb_refl |].
  intros [Hc Hs]%andb_true_iff. apply negb_true_iff in Hc. by rewrite Hc, IH.
Qed.

Lemma all_chars_impl (p q : ascii -> bool) s :
  (forall c, p c = true -> q c = true) ->
  all_chars p s = true -> all_chars q s = true.
Proof.
  intros Hpq. induction s as [|c s IH]; simpl; [done |].
  intros [Hc Hs]%andb_true_iff. by rewrite (Hpq c Hc), IH.
Qed.

Lemma split_ws_lstrip s : split_ws (lstrip s) = split_ws s.
Proof.
  induction s as [|c s IH]; [done |].
  simpl. destruct (isspace c) eqn:Ec; [exact IH |]. simpl. by rewrite Ec.
Qed.

Lemma rstrip_head c r s : rstrip s = String c r -> exists s', s = String c s'.
Proof.
  destruct s as [|c' s]; simpl; [done |].
  destruct (rstrip s); [destruct (isspace c')|]; intros [= <- <-]; eauto.
Qed.

Lemma split_ws_cons c s :
  split_ws (String c s)
  = if isspace c then split_ws s
    else match s with
         | "" => [String c ""]
         | String c' _ =>
             if isspace c' then String c "" :: split_ws s
             else match split_ws s with
                  | w :: ws => String c w :: ws
                  | [] => [String c ""]
                  end
         end.
Proof. reflexivity. Qed.

Lemma split_ws_rstrip s : split_ws (rstrip s) = split_ws s.
Proof.
  induction s as [|c s IH]; [done |].
  simpl rstrip. destruct (rstrip s) as [|c1 r] eqn:Er.
  - rewrite (split_ws_cons c s). change (split_ws "") with (@nil string) in IH.
    destruct (isspace c) eqn:Ec; [done |]. rewrite <- IH.
    rewrite (split_ws_cons c ""), Ec.
    destruct s as [|c' s']; [done |]. by destruct (isspace c').
  - destruct (rstrip_head _ _ _ Er) as [s' ->].
    rewrite (split_ws_cons c (String c1 r)), (split_ws_cons c (String c1 s')).
    by rewrite IH.
Qed.

Lemma split_ws_strip s : split_ws (strip s) = split_ws s.
Proof. unfold strip. by rewrite split_ws_rstrip, split_ws_lstrip. Qed.

(** What [rstrip] returns does not end with a blank. *)
Lemma rstrip_last s init c : unsnoc (rstrip s) = Some (init, c) -> isspace c = false.
Proof.
  revert init. induction s as [|c' s IH]; intros init; simpl; [done |].
  destruct (rstrip s) as [|c1 r] eqn:Er.
  - destruct (isspace c') eqn:Ec; simpl; [done |]. by intros [= <- <-].
  - simpl. simpl in IH. destruct (unsnoc r) as [[i l]|].
    + intros [= <- <-]. by eapply IH.
    + intros [= <- <-]. by eapply IH.
Qed.

Lemma unsnoc_all_chars p s init c :
  unsnoc s = Some (init, c) -> all_chars p s = true -> p c = true.
Proof.
  intros ->%unsnoc_Some. rewrite all_chars_app. simpl.
  intros [_ Hc]%andb_true_iff. by apply andb_true_iff in Hc as [Hc _].
Qed.

(** The words of [split()] contain no blank. *)
Lemma split_ws_words s :
  Forall (fun w => all_chars (fun c => negb (isspace c)) w = true) (split_ws s).
Proof.
  induction s as [|c s IH]; [constructor |].
  rewrite split_ws_cons. destruct (isspace c) eqn:Ec; [exact IH |].
  destruct s as [|c' s']; [repeat constructor; simpl; by rewrite Ec |].
  destruct (isspace c').
  - constructor; [simpl; by rewrite Ec | exact IH].
  - destruct (split_ws (String c' s')) as [|w ws].
    + repeat constructor. simpl. by rewrite Ec.
    + inversion IH as [|? ? Hw Hws]; subst.
      constructor; [simpl; by rewrite Ec, Hw | exact Hws].
Qed.

End StringFacts.

(** ** Regular expressions: the matcher decides the language *)

Section RegexFacts.

Implicit Types (r : re) (s t : string) (c : ascii).

Lemma nullable_sound r : nullable r = true -> lang r "".
Proof.
  induction r as [| |lo hi|r1 IH1 r2 IH2|r1 IH1 r2 IH2|r1 IH]; simpl; try done.
  - intros _. constructor.
  - intros [H1 H2]%andb_true_iff. apply (lang_cat r1 r2 "" ""); auto.
  - intros [H1|H2]%orb_true_iff; [apply lang_alt_l | apply lang_alt_r]; auto.
  - intros _. constructor.
Qed.

Lemma nullable_complete r s : lang r s -> s = "" -> nullable r = true.
Proof.
  induction 1 as [|lo hi c Hc|r1 r2 s1 s2 _ IH1 _ IH2|r1 r2 s _ IH|r1 r2 s _ IH
                  |r|r s1 s2 _ _ _ _]; simpl; try done.
  - intros [-> ->]%str_app_empty. by rewrite IH1, IH2.
  - intros ->. by rewrite IH.
  - intros ->. rewrite IH by done. apply orb_true_r.
Qed.

Lemma deriv_sound c r s : lang (deriv c r) s -> lang r (String c s).
Proof.
  revert s.
  induction r as [| |lo hi|r1 IH1 r2 IH2|r1 IH1 r2 IH2|r1 IH]; intros s; simpl.
  - inversion 1.
  - inversion 1.
  - destruct (in_range lo hi c) eqn:E; inversion 1; subst. by constructor.
  - destruct (nullable r1) eqn:En.
    + inversion 1 as [| | | ? ? ? Hl | ? ? ? Hr | |]; subst.
      * inversion Hl as [| |? ? s1 s2 H1 H2| | | |]; subst.
        apply (lang_cat r1 r2 (String c s1) s2); auto.
      * apply (lang_cat r1 r2 "" (String c s)); auto using nullable_sound.
    + inversion 1 as [| |? ? s1 s2 H1 H2| | | |]; subst.
      apply (lang_cat r1 r2 (String c s1) s2); auto.
  - inversion 1; subst; [apply lang_alt_l | apply lang_alt_r]; auto.
  - inversion 1 as [| |? ? s1 s2 H1 H2| | | |]; subst.
    apply (lang_star_cons r1 (String c s1) s2); auto.
Qed.

Lemma deriv_complete c r t : lang r t -> forall s, t = String c s -> lang (deriv c r) s.
Proof.
  induction 1 as [|lo hi c' Hc|r1 r2 s1 s2 H1 IH1 H2 IH2|r1 r2 s' _ IH|r1 r2 s' _ IH
                  |r|r s1 s2 H1 IH1 H2 IH2]; intros s Heq; simpl; try done.
  - injection Heq as -> <-. rewrite Hc. constructor.
  - destruct s1 as [|c1 s1]; simpl in Heq.
    + rewrite (nullable_complete r1 "" H1 eq_refl). apply lang_alt_r. by apply IH2.
    + injection Heq as -> <-.
      assert (lang (Cat (deriv c r1) r2) (s1 ++ s2)) by (constructor; auto).
      destruct (nullable r1); [by apply lang_alt_l | done].
  - apply lang_alt_l. by apply IH.
  - apply lang_alt_r. by apply IH.
  - destruct s1 as [|c1 s1]; simpl in Heq.
    + by apply IH2.
    + injection Heq as -> <-. constructor; auto.
Qed.

(** [matches] decides membership in the language. *)
Lemma matches_lang r s : matches r s = true <-> lang r s.
Proof.
  revert r. induction s as [|c s IH]; intros r; simpl.
  - split; [apply nullable_sound | intros Hl; by apply (nullable_complete r "")].
  - rewrite IH. split; [apply deriv_sound | intros Hl; by apply (deriv_complete c r _ Hl)].
Qed.

Lemma lang_range_inv lo hi s :
  lang (Range lo hi) s -> exists c, s = String c "" /\ in_range lo hi c = true.
Proof. inversion 1; subst. eauto. Qed.

Lemma lang_cat_inv r1 r2 s :
  lang (Cat r1 r2) s -> exists s1 s2, s = s1 ++ s2 /\ lang r1 s1 /\ lang r2 s2.
Proof. inversion 1; subst. eauto. Qed.

Lemma lang_alt_inv r1 r2 s : lang (Alt r1 r2) s -> lang r1 s \/ lang r2 s.
Proof. inversion 1; subst; auto. Qed.

Lemma lang_eps_inv s : lang Eps s -> s = "".
Proof. by inversion 1. Qed.

(** Induction over the iterations of a starred expression. *)
Lemma lang_star_iter r (P : string -> Prop) :
  P "" ->
  (forall s1 s2, lang r s1 -> lang (Star r) s2 -> P s2 -> P (s1 ++ s2)) ->
  forall s, lang (Star r) s -> P s.
Proof.
  intros Hnil Hcons s Hs. remember (Star r) as r' eqn:Er.
  induction Hs as [| | | | |r0|r0 s1 s2 H1 _ H2 IH2]; try discriminate.
  - exact Hnil.
  - injection Er as ->. apply Hcons; auto.
Qed.

End RegexFacts.

(** ** The patterns of the trigger parser *)

Section PatternFacts.

Implicit Types (s t n : string) (c u : ascii).

Lemma code_inj c1 c2 : code c1 = code c2 -> c1 = c2.
Proof.
  unfold code. intros Heq.
  by rewrite <- (ascii_N_embedding c1), <- (ascii_N_embedding c2), Heq.
Qed.

Lemma lang_lit c s : lang (Lit c) s <-> s = String c "".
Proof.
  unfold Lit. split.
  - intros (c' & -> & Hr)%lang_range_inv. unfold in_range in Hr.
    apply andb_true_iff in Hr as [H1%N.leb_le H2%N.leb_le].
    f_equal. apply code_inj. lia.
  - intros ->. constructor. unfold in_range. by rewrite !N.leb_refl.
Qed.

Lemma lang_digit s : lang digit s <-> exists c, s = String c "" /\ isdigit c = true.
Proof.
  split.
  - intros (c & -> & Hr)%lang_range_inv. by exists c.
  - intros (c & -> & Hc). by constructor.
Qed.

Lemma lang_star_digit s : lang (Star digit) s <-> all_chars isdigit s = true.
Proof.
  split.
  - revert s. apply (lang_star_iter digit (fun s => all_chars isdigit s = true)); [done |].
    intros s1 s2 (c & -> & Hc)%lang_digit _ IH. simpl. by rewrite Hc, IH.
  - induction s as [|c s IH]; simpl; [constructor |].
    intros [Hc Hs]%andb_true_iff.
    apply (lang_star_cons digit (String c "") s); [|by apply IH].
    apply lang_digit. eauto.
Qed.

Lemma lang_plus_digit s : lang (Plus digit) s <-> g_number s = true.
Proof.
  unfold Plus, g_number. split.
  - intros (s1 & s2 & -> & (c & -> & Hc)%lang_digit & Hs%lang_star_digit)%lang_cat_inv.
    simpl. by rewrite Hc, Hs.
  - destruct s as [|c s]; simpl; [done |].
    intros [Hc Hs]%andb_true_iff.
    apply (lang_cat digit (Star digit) (String c "") s).
    + apply lang_digit. eauto.
    + by apply lang_star_digit.
Qed.

Lemma lang_unit s :
  lang (OneOf "smhd") s <-> exists u, s = String u "" /\ g_unit u = true.
Proof.
  simpl. unfold g_unit. split.
  - intros [->%lang_lit|[->%lang_lit|[->%lang_lit| ->%lang_lit]%lang_alt_inv
           ]%lang_alt_inv]%lang_alt_inv; eexists; (split; [reflexivity | done]).
  - intros (u & -> & Hu).
    repeat apply orb_true_iff in Hu as [Hu|Hu]; apply Ascii.eqb_eq in Hu as ->.
    + apply lang_alt_l. by apply lang_lit.
    + apply lang_alt_r, lang_alt_l. by apply lang_lit.
    + apply lang_alt_r, lang_alt_r, lang_alt_l. by apply lang_lit.
    + apply lang_alt_r, lang_alt_r, lang_alt_r. by apply lang_lit.
Qed.

Lemma lang_value_unit s :
  lang re_value_unit s
  <-> exists n u, s = n ++ String u "" /\ g_number n = true /\ g_unit u = true.
Proof.
  unfold re_value_unit. split.
  - intros (n & s2 & -> & Hn%lang_plus_digit & (u & -> & Hu)%lang_unit)%lang_cat_inv.
    eauto.
  - intros (n & u & -> & Hn & Hu). constructor.
    + by apply lang_plus_digit.
    + apply lang_unit. eauto.
Qed.

(** On a number followed by a unit letter the pattern matches and its
    groups are the two. *)
Lemma match_value_unit_in n u :
  g_number n = true -> g_unit u = true ->
  match_value_unit (n ++ String u "") = Some (n, u).
Proof.
  intros Hn Hu. unfold match_value_unit, py_match.
  rewrite (proj2 (matches_lang re_value_unit _)) by (apply lang_value_unit; eauto).
  apply unsnoc_snoc.
Qed.

(** The groups of a match are a number and a unit letter. *)
Lemma match_value_unit_out s n u :
  match_value_unit s = Some (n, u) ->
  g_number n = true /\ g_unit u = true
  /\ (s = n ++ String u "" \/ s = (n ++ String u "") ++ String newline "").
Proof.
  unfold match_value_unit, py_match.
  destruct (matches re_value_unit s) eqn:Em.
  - intros Hu. apply matches_lang, lang_value_unit in Em as (n' & u' & -> & Hn & Hg).
    rewrite unsnoc_snoc in Hu. injection Hu as <- <-. auto.
  - destruct (unsnoc s) as [[init c]|] eqn:Es; [|done].
    destruct (Ascii.eqb c newline) eqn:Ec; [|done].
    destruct (matches re_value_unit init) eqn:Ei; [|done]. simpl.
    intros Hu. apply matches_lang, lang_value_unit in Ei as (n' & u' & -> & Hn & Hg).
    rewrite unsnoc_snoc in Hu. injection Hu as <- <-.
    apply Ascii.eqb_eq in Ec as ->. apply unsnoc_Some in Es. auto.
Qed.

Lemma unit_name_word u value :
  g_unit u = true -> unit_name u value = Some (unit_word u value).
Proof.
  unfold g_unit, unit_name, unit_word. intros Hu.
  repeat apply orb_true_iff in Hu as [Hu|Hu]; apply Ascii.eqb_eq in Hu as ->;
    simpl; by destruct (value =? 1)%N.
Qed.

Lemma isdigit_not_space c : isdigit c = true -> isspace c = false.
Proof.
  unfold isdigit, isspace. intros [H1%N.leb_le H2%N.leb_le]%andb_true_iff.
  repeat (apply orb_false_iff; split); try apply andb_false_iff;
    rewrite ?N.leb_gt, ?N.eqb_neq; lia.
Qed.

Lemma g_unit_not_space u : g_unit u = true -> isspace u = false.
Proof.
  unfold g_unit. intros Hu.
  repeat apply orb_true_iff in Hu as [Hu|Hu]; by apply Ascii.eqb_eq in Hu as ->.
Qed.

Lemma rstrip_snoc t u :
  isspace u = false -> rstrip (t ++ String u "") = t ++ String u "".
Proof.
  intros Hu. induction t as [|c t IH]; simpl; [by rewrite Hu |].
  rewrite IH. by destruct t.
Qed.

(** A number followed by a unit letter has no blank to strip. *)
Lemma strip_value_unit n u :
  g_number n = true -> g_unit u = true ->
  strip (n ++ String u "") = n ++ String u "".
Proof.
  intros Hn Hu. unfold strip.
  assert (Hl : lstrip (n ++ String u "") = n ++ String u "").
  { unfold g_number in Hn. destruct n as [|c n]; [done |]. simpl in *.
    apply andb_true_iff in Hn as [Hc _]. by rewrite (isdigit_not_space c Hc). }
  rewrite Hl. apply rstrip_snoc. by apply g_unit_not_space.
Qed.

(** *** The cron field patterns accept only fields of the grammar *)

Lemma g_number_without sep v :
  isdigit sep = false -> g_number v = true ->
  all_chars (fun c => negb (Ascii.eqb c sep)) v = true.
Proof.
  intros Hsep [_ Hd]%andb_true_iff. revert Hd. apply all_chars_impl.
  intros c Hc. apply negb_true_iff. destruct (Ascii.eqb_spec c sep); [congruence | done].
Qed.

Lemma g_value_number lo hi v : g_value lo hi v = true -> g_number v = true.
Proof. by intros [? _]%andb_true_iff. Qed.

Section Field.

Variables (V : re) (lo hi : N).
Hypothesis V_values : forall v, lang V v -> g_value lo hi v = true.

Lemma cron_item_ok item :
  lang (cron_item V) item ->
  g_item lo hi item = true
  /\ all_chars (fun c => negb (Ascii.eqb c ",")) item = true.
Proof.
  unfold cron_item, Opt.
  intros (v1 & s2 & -> & H1%V_values & [H2| ->%lang_eps_inv]%lang_alt_inv)%lang_cat_inv.
  - apply lang_cat_inv in H2 as (d & v2 & -> & ->%lang_lit & H2%V_values). simpl.
    pose proof (g_value_number _ _ _ H1) as Hn1.
    pose proof (g_value_number _ _ _ H2) as Hn2.
    split.
    + unfold g_item. rewrite split_on_first by by apply g_number_without.
      rewrite split_on_absent by by apply g_number_without.
      by rewrite H1, H2.
    + rewrite all_chars_app. simpl.
      by rewrite !g_number_without.
  - rewrite str_app_nil_r. pose proof (g_value_number _ _ _ H1) as Hn1. split.
    + unfold g_item. by rewrite split_on_absent by by apply g_number_without.
    + by apply g_number_without.
Qed.

Lemma cron_list_ok rest :
  lang (Star (Cat (Lit ",") (cron_item V))) rest ->
  forall item,
    g_item lo hi item = true ->
    all_chars (fun c => negb (Ascii.eqb c ",")) item = true ->
    forallb (g_item lo hi) (split_on "," (item ++ rest)) = true.
Proof.
  revert rest.
  apply (lang_star_iter (Cat (Lit ",") (cron_item V))
           (fun rest => forall item,
                g_item lo hi item = true ->
                all_chars (fun c => negb (Ascii.eqb c ",")) item = true ->
                forallb (g_item lo hi) (split_on "," (item ++ rest)) = true)).
  - intros item Hi Hc. rewrite str_app_nil_r, split_on_absent by done.
    simpl. by rewrite Hi.
  - intros s1 s2 (d & item' & -> & ->%lang_lit & Hi')%lang_cat_inv _ IH item Hi Hc.
    simpl. rewrite split_on_first by done. simpl. rewrite Hi. simpl.
    destruct (cron_item_ok item' Hi') as [Hg Hn]. by apply IH.
Qed.

(** A field that one of the five patterns accepts is a field of the
    grammar. *)
Lemma cron_field_ok f : lang (cron_field_re V) f -> g_field lo hi f = true.
Proof.
  unfold cron_field_re, g_field.
  intros [->%lang_lit|[Hl|Hs]%lang_alt_inv]%lang_alt_inv.
  - done.
  - apply lang_cat_inv in Hl as (item & rest & -> & Hi & Hr).
    destruct (cron_item_ok item Hi) as [Hg Hn].
    rewrite (cron_list_ok rest Hr item Hg Hn). apply orb_true_r.
  - apply lang_cat_inv in Hs as (a & t & -> & ->%lang_lit & Hs).
    apply lang_cat_inv in Hs as (b & n & -> & ->%lang_lit & Hn%lang_plus_digit).
    unfold g_step, startswith. simpl. rewrite prefix_empty, Hn. simpl.
    by rewrite ?orb_true_r.
Qed.

End Field.

Lemma g_value_1 lo hi c :
  (48 <= code c <= 57)%N -> (lo <= code c - 48 <= hi)%N ->
  g_value lo hi (String c "") = true.
Proof.
  intros Hc Hv. unfold g_value, g_number, int, isdigit, digit_val. simpl.
  repeat (apply andb_true_iff; split); rewrite ?N.leb_le;
    first [done | unfold digit_val; lia].
Qed.

Lemma g_value_2 lo hi c d :
  (48 <= code c <= 57)%N -> (48 <= code d <= 57)%N ->
  (lo <= 10 * (code c - 48) + (code d - 48) <= hi)%N ->
  g_value lo hi (String c (String d "")) = true.
Proof.
  intros Hc Hd Hv. unfold g_value, g_number, int, isdigit, digit_val. simpl.
  repeat (apply andb_true_iff; split); rewrite ?N.leb_le;
    first [done | unfold digit_val; lia].
Qed.

Ltac lang_cases :=
  repeat match goal with
         | H : lang (Cat _ _) _ |- _ => apply lang_cat_inv in H as (? & ? & -> & ? & ?)
         | H : lang (Alt _ _) _ |- _ => apply lang_alt_inv in H as [?|?]
         | H : lang (Range _ _) _ |- _ => apply lang_range_inv in H as (? & -> & ?)
         | H : lang Eps _ |- _ => apply lang_eps_inv in H as ->
         end.

Ltac range_bounds :=
  repeat match goal with
         | H : in_range _ _ _ = true |- _ =>
             unfold in_range in H; simpl in H;
             apply andb_true_iff in H as [?%N.leb_le ?%N.leb_le]
         end.

Ltac value_in_range :=
  intros v Hv; cbv [V_minute V_hour V_day V_month V_day_of_week digit Opt
                    CharRange Lit OneOf] in Hv;
  lang_cases; range_bounds; simpl;
  first [apply g_value_1 | apply g_value_2]; lia.

Lemma V_minute_values : forall v, lang V_minute v -> g_value 0 59 v = true.
Proof. value_in_range. Qed.

Lemma V_hour_values : forall v, lang V_hour v -> g_value 0 23 v = true.
Proof. value_in_range. Qed.

Lemma V_day_values : forall v, lang V_day v -> g_value 1 31 v = true.
Proof. value_in_range. Qed.

Lemma V_month_values : forall v, lang V_month v -> g_value 1 12 v = true.
Proof. value_in_range. Qed.

Lemma V_day_of_week_values : forall v, lang V_day_of_week v -> g_value 0 6 v = true.
Proof. value_in_range. Qed.

(** On a text without blanks [$] can only match at the very end. *)
Lemma py_match_word r s :
  all_chars (fun c => negb (isspace c)) s = true ->
  is_Some (py_match r s) -> lang r s.
Proof.
  intros Hs. unfold py_match. destruct (matches r s) eqn:Em.
  - intros _. by apply matches_lang.
  - destruct (unsnoc s) as [[init c]|] eqn:Eu; [|by intros [? ?]].
    pose proof (unsnoc_all_chars _ _ _ _ Eu Hs) as Hc. simpl in Hc.
    destruct (Ascii.eqb_spec c newline) as [->|_]; [done |]. by intros [? ?].
Qed.

Lemma validate_cron_grammar expr : _validate_cron expr = true -> g_cron expr = true.
Proof.
  unfold _validate_cron, g_cron. pose proof (split_ws_words expr) as Hw.
  destruct (split_ws expr) as [|f1 [|f2 [|f3 [|f4 [|f5 [|f6 fs]]]]]]; try done.
  simpl. repeat (apply Forall_cons in Hw as [? Hw]).
  rewrite !andb_true_iff, !bool_decide_eq_true.
  intros (Hm1 & Hm2 & Hm3 & Hm4 & Hm5 & _).
  rewrite (cron_field_ok V_minute 0 59 V_minute_values f1) by by apply py_match_word.
  rewrite (cron_field_ok V_hour 0 23 V_hour_values f2) by by apply py_match_word.
  rewrite (cron_field_ok V_day 1 31 V_day_values f3) by by apply py_match_word.
  rewrite (cron_field_ok V_month 1 12 V_month_values f4) by by apply py_match_word.
  by rewrite (cron_field_ok V_day_of_week 0 6 V_day_of_week_values f5)
    by by apply py_match_word.
Qed.

(** The groups of a match on a stripped text are the whole text. *)
Lemma match_value_unit_stripped body n u :
  match_value_unit (strip body) = Some (n, u) ->
  g_number n = true /\ g_unit u = true /\ unsnoc (strip body) = Some (n, u).
Proof.
  intros Hm. destruct (match_value_unit_out _ _ _ Hm) as (Hn & Hu & [Hs|Hs]).
  - rewrite Hs. by rewrite unsnoc_snoc.
  - exfalso. unfold strip in Hs.
    assert (Hl : unsnoc (rstrip (lstrip body)) = Some (n ++ String u "", newline))
      by (rewrite Hs; apply unsnoc_snoc).
    by apply rstrip_last in Hl.
Qed.

End PatternFacts.

(** ** The trigger parser *)

Section ParserFacts.

Context `{Externals}.

Lemma human_readable_body_total spec : is_Some (human_readable_body spec).
Proof.
  unfold human_readable_body.
  repeat match goal with
         | |- context [if ?b then _ else _] => destruct b; eauto
         end.
  - destruct (match_value_unit _) as [[n u]|] eqn:Em; [|eauto].
    destruct (match_value_unit_out _ _ _ Em) as (_ & Hu & _).
    by rewrite (unit_name_word u _ Hu).
  - destruct (fromisoformat _); eauto.
  - destruct (match_value_unit _) as [[n u]|] eqn:Em; [|eauto].
    destruct (match_value_unit_out _ _ _ Em) as (_ & Hu & _).
    by rewrite (unit_name_word u _ Hu).
Qed.

Lemma human_readable_every n u :
  g_number n = true -> g_unit u = true ->
  get_human_readable ("every " ++ n ++ String u "")
  = "Every " ++ str_of_N (int n) ++ " " ++ unit_word u (int n).
Proof.
  intros Hn Hu. unfold get_human_readable, human_readable_body, startswith. simpl.
  rewrite prefix_empty, (strip_value_unit n u Hn Hu), (match_value_unit_in n u Hn Hu).
  by rewrite (unit_name_word u _ Hu).
Qed.

Lemma human_readable_in n u :
  g_number n = true -> g_unit u = true ->
  get_human_readable ("in " ++ n ++ String u "")
  = "In " ++ str_of_N (int n) ++ " " ++ unit_word u (int n).
Proof.
  intros Hn Hu. unfold get_human_readable, human_readable_body, startswith. simpl.
  rewrite prefix_empty, (strip_value_unit n u Hn Hu), (match_value_unit_in n u Hn Hu).
  by rewrite (unit_name_word u _ Hu).
Qed.

(** C4, as amended. [get_human_readable] is a function of the
    specification alone and never raises (the body of its [try] does not
    even reach the [except] clause).  ["every <N><unit>"] is rendered
    ["Every N <unit-word>"] and ["in <N><unit>"] is rendered
    ["In N <unit-word>"], with the unit word in the singular exactly for
    [N = 1]; ["cron:<expr>"] is rendered ["Cron schedule: "] followed by
    [<expr>] with the blanks around it removed; a specification with none
    of the four prefixes is returned as it is. *)
Theorem get_human_readable_contract :
  (forall spec, human_readable_body spec = Some (get_human_readable spec))
  /\ (forall expr,
        get_human_readable ("cron:" ++ expr) = "Cron schedule: " ++ strip expr)
  /\ (forall n u,
        g_number n = true -> g_unit u = true ->
        get_human_readable ("every " ++ n ++ String u "")
        = "Every " ++ str_of_N (int n) ++ " " ++ unit_word u (int n))
  /\ (forall n u,
        g_number n = true -> g_unit u = true ->
        get_human_readable ("in " ++ n ++ String u "")
        = "In " ++ str_of_N (int n) ++ " " ++ unit_word u (int n))
  /\ (forall spec,
        startswith spec "cron:" = false -> startswith spec "every " = false ->
        startswith spec "at:" = false -> startswith spec "in " = false ->
        get_human_readable spec = spec)
  /\ get_human_readable "every 1h" = "Every 1 hour"
  /\ get_human_readable "every 2h" = "Every 2 hours"
  /\ get_human_readable "cron:0 9 * * 1-5" = "Cron schedule: 0 9 * * 1-5".
Proof.
  split; [|split; [|split; [|split; [|split]]]].
  - intros spec. unfold get_human_readable.
    by destruct (human_readable_body_total spec) as [text ->].
  - intros expr. unfold get_human_readable, human_readable_body, startswith. simpl.
    by rewrite prefix_empty.
  - apply human_readable_every.
  - apply human_readable_in.
  - intros spec H1 H2 H3 H4. unfold get_human_readable, human_readable_body.
    by rewrite H1, H2, H3, H4.
  - repeat split; reflexivity.
Qed.

Lemma g_cron_strip body : g_cron (strip body) = g_cron body.
Proof. unfold g_cron. by rewrite split_ws_strip. Qed.

Lemma parse_value_unit_grammar positive body n u :
  match_value_unit (strip body) = Some (n, u) ->
  (positive = true -> (int n <=? 0)%N = false) ->
  g_value_unit positive (strip body) = true.
Proof.
  intros (Hn & Hu & Hs)%match_value_unit_stripped Hp.
  unfold g_value_unit. rewrite Hs, Hn, Hu. simpl.
  destruct positive; [|done]. apply N.ltb_lt. specialize (Hp eq_refl).
  apply N.leb_gt in Hp. lia.
Qed.

(** Whatever [parse] accepts is in the grammar, blanks around the token
    allowed. *)
Lemma parse_in_grammar now spec start t :
  parse now spec start = Some t -> in_grammar strip spec = true.
Proof.
  unfold parse, in_grammar.
  destruct (startswith spec "cron:") eqn:E1.
  { unfold _parse_cron. destruct (_validate_cron _) eqn:Ev; [|done]. intros _.
    apply validate_cron_grammar in Ev. rewrite g_cron_strip in Ev. by rewrite Ev. }
  destruct (startswith spec "every ") eqn:E2.
  { unfold _parse_interval.
    destruct (match_value_unit _) as [[n u]|] eqn:Em; [|done].
    destruct (int n <=? 0)%N eqn:Ep; [done |]. intros _.
    rewrite (parse_value_unit_grammar true _ n u Em) by done. by rewrite ?orb_true_r. }
  destruct (startswith spec "at:") eqn:E3.
  { unfold _parse_date. destruct (fromisoformat _) eqn:Ef; [|done]. intros _.
    simpl. rewrite ?bool_decide_eq_true_2 by eauto. by rewrite ?orb_true_r. }
  destruct (startswith spec "in ") eqn:E4; [|done].
  unfold _parse_relative.
  destruct (match_value_unit _) as [[n u]|] eqn:Em; [|done]. intros _.
  rewrite (parse_value_unit_grammar false _ n u Em) by done. by rewrite ?orb_true_r.
Qed.

End ParserFacts.

(** ** The store *)

Section StoreFacts.

Implicit Types (db : store) (task_id : string).

Lemma has_schedule_true task_id rows :
  has_schedule task_id rows = true <-> task_id ∈ s_task_id <$> rows.
Proof.
  unfold has_schedule. rewrite existsb_exists, list_elem_of_fmap. split.
  - intros (r & Hin & Heq). apply String.eqb_eq in Heq. exists r.
    split; [done | by apply list_elem_of_In].
  - intros (r & -> & Hin). exists r. split; [by apply list_elem_of_In |].
    apply String.eqb_refl.
Qed.

Lemma has_schedule_false task_id rows :
  has_schedule task_id rows = false <-> task_id ∉ s_task_id <$> rows.
Proof.
  rewrite <- has_schedule_true. by destruct (has_schedule task_id rows).
Qed.

Lemma delete_schedule_gone task_id db r :
  db_ok db = true -> r ∈ schedules (delete_schedule task_id db) -> s_task_id r ≠ task_id.
Proof.
  intros Hok. unfold delete_schedule. rewrite Hok. simpl.
  rewrite list_elem_of_filter. by intros [? _].
Qed.

Lemma find_app_r {A} (p : A -> bool) (l1 l2 : list A) :
  find p l1 = None -> find p (l1 ++ l2) = find p l2.
Proof.
  induction l1 as [|a l1 IH]; simpl; [done |]. destruct (p a); [done | exact IH].
Qed.

Lemma find_none_has_schedule task_id rows :
  has_schedule task_id rows = false ->
  find (fun r => String.eqb (s_task_id r) task_id) rows = None.
Proof.
  unfold has_schedule. induction rows as [|r rows IH]; simpl; [done |].
  destruct (String.eqb (s_task_id r) task_id); simpl; [done | exact IH].
Qed.

Lemma find_updated task_id j t v n rows :
  has_schedule task_id rows = true ->
  exists r,
    find (fun r => String.eqb (s_task_id r) task_id)
      (map (update_schedule task_id j t v n) rows) = Some r
    /\ s_task_id r = task_id /\ s_job_id r = j /\ s_type r = t
    /\ s_value r = v /\ s_next_run_time r = n.
Proof.
  unfold has_schedule. induction rows as [|r rows IH]; simpl; [done |].
  destruct (String.eqb (s_task_id r) task_id) eqn:E; simpl.
  - intros _. exists (update_schedule task_id j t v n r).
    unfold update_schedule. rewrite E. simpl. rewrite E.
    apply String.eqb_eq in E. done.
  - unfold update_schedule at 1. rewrite !E. exact IH.
Qed.

(** After [save_schedule] on a working store, [get_schedule] returns a row
    with the saved columns. *)
Lemma get_schedule_saved utcnow task_id job_id ty value nrt db :
  db_ok db = true ->
  exists r,
    get_schedule task_id (save_schedule utcnow task_id job_id ty value nrt db) = Some r
    /\ s_task_id r = task_id /\ s_job_id r = SText job_id /\ s_type r = SText ty
    /\ s_value r = value.
Proof.
  intros Hok. unfold get_schedule, save_schedule. rewrite Hok. simpl.
  destruct (has_schedule task_id (schedules db)) eqn:E; simpl; rewrite Hok; simpl.
  - destruct (find_updated task_id (SText job_id) (SText ty) value
                (opt_text (isoformat <$> nrt)) _ E) as (r & Hf & ? & ? & ? & ? & ?).
    eauto 10.
  - rewrite find_app_r by by apply find_none_has_schedule.
    simpl. rewrite String.eqb_refl. eauto 10.
Qed.

(** What [cleanup_old_runs] does on a working store: it keeps, unchanged and
    in order, the runs whose start text is not below the cutoff text, and
    touches nothing else. *)
Lemma cleanup_old_runs_keeps utcnow days db :
  db_ok db = true -> (0 <= days)%Z ->
  let cutoff := sqlite_datetime (utcnow - days * 86400) in
  task_runs (cleanup_old_runs utcnow days db)
  = filter (fun r => older_than cutoff r = false) (task_runs db)
  /\ schedules (cleanup_old_runs utcnow days db) = schedules db.
Proof.
  intros Hok Hd. unfold cleanup_old_runs. rewrite Hok. simpl.
  by rewrite (proj2 (Z.ltb_ge _ _) Hd).
Qed.

Lemma compare_common_prefix p a b :
  String.compare (p ++ a) (p ++ b) = String.compare a b.
Proof.
  induction p as [|c p IH]; simpl; [done |].
  unfold Ascii.compare. by rewrite N.compare_refl.
Qed.

(** The defect behind C9, in general: a run that started on the calendar
    date of the cutoff is kept whatever its time of day, because the stored
    text has a ["T"] where the cutoff text has a blank. *)
Lemma same_day_run_kept utcnow days t r :
  r_start_time r = Some (isoformat (Naive t)) ->
  date_text (t / 1000000) = date_text (utcnow - days * 86400) ->
  older_than (sqlite_datetime (utcnow - days * 86400)) r = false.
Proof.
  intros Hs Hd. unfold older_than. rewrite Hs.
  unfold isoformat, sqlite_datetime. simpl local_us. rewrite Hd.
  unfold String.ltb. by rewrite compare_common_prefix.
Qed.

End StoreFacts.

(** ** The legacy migration *)

Section MigrationFacts.

Context `{Externals}.

Implicit Types (db : store) (entries : list (string * json)).

Lemma has_schedule_ids task_id rows rows' :
  s_task_id <$> rows = s_task_id <$> rows' ->
  has_schedule task_id rows = has_schedule task_id rows'.
Proof.
  intros Heq. destruct (has_schedule task_id rows') eqn:E.
  - apply has_schedule_true. rewrite Heq. by apply has_schedule_true.
  - apply has_schedule_false. rewrite Heq. by apply has_schedule_false.
Qed.

Lemma task_ids_insert utcnow task_id j t v n db :
  task_ids (insert_schedule utcnow task_id j t v n db) = (task_ids db ++ [task_id])%list.
Proof. unfold task_ids, insert_schedule. simpl. by rewrite fmap_app. Qed.














End MigrationFacts.

(** ** The scheduler engine *)

Section EngineFacts.

Context `{Externals}.

Implicit Types (st : state) (c : clock) (task_id : string).

(** What [task.schedule = ...; task.next_run_time = ...] leaves of a task. *)
Lemma with_schedule_fields human_readable next_run_time (t : AgentTask) :
  let t' := with_schedule human_readable next_run_time t in
  t_schedule t' = human_readable /\ t_next_run_time t' = next_run_time
  /\ t_status t' = t_status t /\ t_progress t' = t_progress t
  /\ t_result t' = t_result t /\ t_error t' = t_error t
  /\ t_updated_at t' = t_updated_at t.
Proof. done. Qed.

Lemma cancel_task_untracked task_id st :
  scheduled_tasks st !! task_id = None -> cancel_task task_id st = (false, st).
Proof. intros Hn. unfold cancel_task. by rewrite Hn. Qed.

Lemma remove_job_delete job_id st :
  jobs (match remove_job job_id (jobs st) with
        | Some js => set_jobs js st
        | None => st
        end) = delete job_id (jobs st).
Proof.
  unfold remove_job. destruct (jobs st !! job_id) eqn:E; simpl; [done |].
  symmetry. by apply delete_id.
Qed.

Lemma cancel_task_tracked task_id job_id st :
  scheduled_tasks st !! task_id = Some job_id ->
  exists st',
    cancel_task task_id st = (true, st')
    /\ jobs st' = delete job_id (jobs st)
    /\ scheduled_tasks st' = delete task_id (scheduled_tasks st)
    /\ persistence st' = delete_schedule task_id (persistence st)
    /\ tasks st' = alter (with_schedule None None) task_id (tasks st)
    /\ emitted st' = (emitted st ++ [schedule_removed task_id])%list
    /\ running_tasks st' = running_tasks st
    /\ engine_running st' = engine_running st.
Proof.
  intros Hs. unfold cancel_task. rewrite Hs. eexists. split; [reflexivity |].
  pose proof (remove_job_delete job_id st) as Hj.
  destruct (remove_job job_id (jobs st)) as [js|]; simpl in *;
    (destruct (tasks st !! task_id) as [task|] eqn:Et; simpl;
     repeat split; try done;
     apply map_eq; intros k; rewrite lookup_alter; case_decide; subst;
     rewrite ?lookup_insert_eq, ?lookup_insert_ne, ?Et by done; done).
Qed.

Lemma get_task_schedule_untracked task_id st :
  scheduled_tasks st !! task_id = None -> get_task_schedule task_id st = None.
Proof. intros Hn. unfold get_task_schedule. by rewrite Hn. Qed.

Lemma execute_begin_running c task_id st :
  task_id ∈ running_tasks st -> execute_begin c task_id st = (Skipped, st).
Proof.
  intros Hr. unfold execute_begin. destruct (tasks st !! task_id); [|done].
  by rewrite decide_True.
Qed.

Lemma execute_failed_releases c task_id start_time message st :
  task_id ∉ running_tasks (execute_failed c task_id start_time message st).
Proof.
  unfold execute_failed. simpl. case_decide; simpl; set_solver.
Qed.

Lemma execute_resume_releases c task_id start_time outcome st :
  outcome ≠ Cancelled ->
  task_id ∉ running_tasks (execute_resume c task_id start_time outcome st).
Proof.
  intros Hc. destruct outcome as [status error|message|]; simpl; [| | done].
  - case_decide; simpl; [set_solver | apply execute_failed_releases].
  - apply execute_failed_releases.
Qed.

(** C1. An invocation of the timer callback for a task that is already in
    [running_tasks] stops at the guard: it never reaches the executor call
    and leaves the whole state (run rows, [running_tasks], the registry,
    the events) as it was; a task that is not running is not held back by
    the running one: it is marked running, gets its ["running"] row and
    its [task_started] event, and goes on to the executor. *)
Theorem execute_task_overlap_guard c_begin c_end executor task_id st :
  task_id ∈ running_tasks st ->
  execute_begin c_begin task_id st = (Skipped, st)
  /\ _execute_task c_begin c_end executor task_id st = st
  /\ forall other task,
      other ∉ running_tasks st -> tasks st !! other = Some task ->
      exists st',
        execute_begin c_begin other st = (Awaiting (now c_begin), st')
        /\ running_tasks st' = {[other]} ∪ running_tasks st
        /\ persistence st' =
             log_task_run other "running" (Some (Naive (now c_begin))) None None
               (persistence st)
        /\ emitted st' =
             (emitted st ++ [task_started other (isoformat (Naive (now c_begin)))])%list
        /\ tasks st' = <[other := reset_task (now c_begin) task]> (tasks st).
Proof.
  intros Hr. pose proof (execute_begin_running c_begin task_id st Hr) as Hb.
  split; [exact Hb |]. split.
  - unfold _execute_task. by rewrite Hb.
  - intros other task Hn Ht. unfold execute_begin. rewrite Ht.
    rewrite decide_False by done. eexists. split; [reflexivity |]. done.
Qed.

(** An invocation that passes the guard puts [task_id] into
    [running_tasks] before the executor call. *)
Lemma execute_begin_awaiting c task_id st task :
  tasks st !! task_id = Some task -> task_id ∉ running_tasks st ->
  exists st',
    execute_begin c task_id st = (Awaiting (now c), st')
    /\ running_tasks st' = {[task_id]} ∪ running_tasks st.
Proof.
  intros Ht Hn. unfold execute_begin. rewrite Ht, decide_False by done.
  eexists. split; [reflexivity | done].
Qed.

(** The slot of a task after a whole invocation: released when the
    executor call returned or raised an [Exception], kept when the call was
    cancelled. *)
Lemma execute_task_slot c_begin c_end executor task_id st task :
  tasks st !! task_id = Some task -> task_id ∉ running_tasks st ->
  let st' := _execute_task c_begin c_end executor task_id st in
  let at_await := (execute_begin c_begin task_id st).2 in
  ((executor task_id at_await).1 ≠ Cancelled -> task_id ∉ running_tasks st')
  /\ ((executor task_id at_await).1 = Cancelled ->
      running_tasks st' = running_tasks (executor task_id at_await).2).
Proof.
  intros Ht Hn st' at_await. subst st' at_await. unfold _execute_task.
  destruct (execute_begin_awaiting c_begin task_id st task Ht Hn) as (st1 & -> & _).
  simpl. destruct (executor task_id st1) as [outcome st2]. simpl. split.
  - apply execute_resume_releases.
  - by intros ->.
Qed.

(** C8. [cancel_task] on a task without an entry in [scheduled_tasks]
    returns false and changes nothing.  On a tracked task it returns true:
    the job is gone from the engine (whether or not it was still there),
    the entry is gone from [scheduled_tasks], [delete_schedule] has run
    (on a working store no row of the task is left), the registry entry
    has [schedule] and [next_run_time] cleared, [schedule_removed] is the
    one event emitted, and [get_task_schedule] then returns [None]. *)
Theorem cancel_task_contract task_id st :
  (scheduled_tasks st !! task_id = None -> cancel_task task_id st = (false, st))
  /\ (forall job_id,
      scheduled_tasks st !! task_id = Some job_id ->
      exists st',
        cancel_task task_id st = (true, st')
        /\ jobs st' = delete job_id (jobs st)
        /\ scheduled_tasks st' = delete task_id (scheduled_tasks st)
        /\ persistence st' = delete_schedule task_id (persistence st)
        /\ (db_ok (persistence st) = true ->
            forall r, r ∈ schedules (persistence st') -> s_task_id r ≠ task_id)
        /\ tasks st' = alter (with_schedule None None) task_id (tasks st)
        /\ (forall task,
              tasks st !! task_id = Some task ->
              exists task',
                tasks st' !! task_id = Some task'
                /\ t_schedule task' = None /\ t_next_run_time task' = None
                /\ t_status task' = t_status task /\ t_progress task' = t_progress task
                /\ t_result task' = t_result task /\ t_error task' = t_error task
                /\ t_updated_at task' = t_updated_at task)
        /\ (forall other, other ≠ task_id -> tasks st' !! other = tasks st !! other)
        /\ emitted st' = (emitted st ++ [schedule_removed task_id])%list
        /\ get_task_schedule task_id st' = None).
Proof.
  split; [apply cancel_task_untracked |].
  intros job_id Hs.
  destruct (cancel_task_tracked task_id job_id st Hs)
    as (st' & Hc & Hj & Hsc & Hp & Ht & He & _ & _).
  exists st'. split; [exact Hc |]. split; [exact Hj |]. split; [exact Hsc |].
  split; [exact Hp |]. split.
  { intros Hok r. rewrite Hp. by apply delete_schedule_gone. }
  split; [exact Ht |]. split.
  { intros task Htask. exists (with_schedule None None task). split.
    - by rewrite Ht, lookup_alter_eq, Htask.
    - apply with_schedule_fields. }
  split; [intros other Hne; by rewrite Ht, lookup_alter_ne |].
  split; [exact He |].
  apply get_task_schedule_untracked. rewrite Hsc. apply lookup_delete_eq.
Qed.

(** C10. [cancel_task] on a task that is tracked in [scheduled_tasks] but
    has no entry in the registry returns true all the same: job, tracking
    entry and persisted row are removed and [schedule_removed] is emitted;
    the registry is left as it is. *)
Theorem cancel_task_without_registry_entry task_id job_id st :
  scheduled_tasks st !! task_id = Some job_id ->
  tasks st !! task_id = None ->
  exists st',
    cancel_task task_id st = (true, st')
    /\ jobs st' = delete job_id (jobs st)
    /\ scheduled_tasks st' = delete task_id (scheduled_tasks st)
    /\ persistence st' = delete_schedule task_id (persistence st)
    /\ (db_ok (persistence st) = true ->
        forall r, r ∈ schedules (persistence st') -> s_task_id r ≠ task_id)
    /\ emitted st' = (emitted st ++ [schedule_removed task_id])%list
    /\ tasks st' = tasks st.
Proof.
  intros Hs Hn.
  destruct (cancel_task_tracked task_id job_id st Hs)
    as (st' & Hc & Hj & Hsc & Hp & Ht & He & _ & _).
  exists st'. repeat split; try done.
  - intros Hok r. rewrite Hp. by apply delete_schedule_gone.
  - rewrite Ht. apply map_eq. intros k. rewrite lookup_alter.
    case_decide; [subst; by rewrite Hn | done].
Qed.

Lemma schedule_task_cases c task_id spec start st :
  let job_id := "task_" ++ task_id ++ "_" ++ timestamp c in
  (schedule_task c task_id spec start st = (false, st)
   /\ (tasks st !! task_id = None \/ parse (now c) spec start = None))
  \/ (exists task trigger,
        tasks st !! task_id = Some task
        /\ parse (now c) spec start = Some trigger
        /\ job_next_run_time (engine_running st) trigger (now c) = None
        /\ schedule_task c task_id spec start st =
             (false,
              set_scheduled_tasks (<[task_id := job_id]> (scheduled_tasks st))
                (set_jobs
                   (<[job_id := Job (ExecuteTask task_id) trigger None]> (jobs st)) st)))
  \/ (exists task trigger nrt st',
        tasks st !! task_id = Some task
        /\ parse (now c) spec start = Some trigger
        /\ job_next_run_time (engine_running st) trigger (now c) = Some nrt
        /\ schedule_task c task_id spec start st = (true, st')
        /\ jobs st' = <[job_id := Job (ExecuteTask task_id) trigger (Some nrt)]> (jobs st)
        /\ scheduled_tasks st' = <[task_id := job_id]> (scheduled_tasks st)
        /\ persistence st' =
             save_schedule (utcnow c) task_id job_id (schedule_type_of trigger) spec nrt
               (persistence st)
        /\ tasks st' =
             <[task_id := with_schedule (Some (get_human_readable spec)) nrt task]>
               (tasks st)
        /\ emitted st' =
             (emitted st ++
                [schedule_update task_id job_id (schedule_type_of trigger) spec
                   (get_human_readable spec) (isoformat <$> nrt)])%list
        /\ running_tasks st' = running_tasks st
        /\ engine_running st' = engine_running st).
Proof.
  intros job_id. unfold schedule_task. fold job_id.
  destruct (tasks st !! task_id) as [task|] eqn:Et; [| left; auto].
  destruct (parse (now c) spec start) as [trigger|] eqn:Ep; [| left; auto].
  right. simpl.
  destruct (job_next_run_time (engine_running st) trigger (now c)) as [nrt|] eqn:En.
  - right. exists task, trigger, nrt. eexists.
    repeat split; first [assumption | reflexivity].
  - left. exists task, trigger. repeat split; first [assumption | reflexivity].
Qed.

(** C2, as amended. [schedule_task] returns true only if the task is in
    the registry, the specification parses, the job is in the engine's
    table and [scheduled_tasks] maps the task to it; [save_schedule] has
    then been called, which stores the row on a working store and leaves a
    failing store as it was.  When it returns false, either nothing has
    changed or the job has been registered and tracked and stays so:
    nothing is rolled back. *)
Theorem schedule_task_outcome c task_id spec start st ok st' :
  schedule_task c task_id spec start st = (ok, st') ->
  let job_id := "task_" ++ task_id ++ "_" ++ timestamp c in
  (ok = true ->
   exists task trigger nrt,
     tasks st !! task_id = Some task
     /\ parse (now c) spec start = Some trigger
     /\ jobs st' !! job_id = Some (Job (ExecuteTask task_id) trigger (Some nrt))
     /\ scheduled_tasks st' !! task_id = Some job_id
     /\ persistence st' =
          save_schedule (utcnow c) task_id job_id (schedule_type_of trigger) spec nrt
            (persistence st)
     /\ (db_ok (persistence st) = true ->
         exists r, get_schedule task_id (persistence st') = Some r
                   /\ s_job_id r = SText job_id /\ s_value r = spec)
     /\ (db_ok (persistence st) = false -> persistence st' = persistence st))
  /\ (ok = false ->
      st' = st
      \/ exists trigger,
          parse (now c) spec start = Some trigger
          /\ jobs st' !! job_id = Some (Job (ExecuteTask task_id) trigger None)
          /\ scheduled_tasks st' !! task_id = Some job_id).
Proof.
  intros Hr job_id.
  destruct (schedule_task_cases c task_id spec start st)
    as [[Hf _]|[(task & trigger & Ht & Hp & Hn & Hf)
               |(task & trigger & nrt & st1 & Ht & Hp & Hn & Hf & Hj & Hs & Hdb & _)]];
    rewrite Hf in Hr; injection Hr as <- <-.
  - split; [done |]. intros _. by left.
  - split; [done |]. intros _. right. exists trigger. simpl.
    by rewrite !lookup_insert_eq.
  - split; [| done]. intros _. exists task, trigger, nrt.
    rewrite Hj, Hs, Hdb, !lookup_insert_eq. repeat split; try done.
    + intros Hok.
      destruct (get_schedule_saved (utcnow c) task_id
                  ("task_" ++ task_id ++ "_" ++ timestamp c)
                  (schedule_type_of trigger) spec nrt _ Hok)
        as (r & Hg & _ & Hjid & _ & Hv).
      eauto.
    + intros Hbad. unfold save_schedule. by rewrite Hbad.
Qed.

(** What a call of [schedule_task] leaves alone. *)
Lemma schedule_task_frame c task_id spec start st :
  let st' := (schedule_task c task_id spec start st).2 in
  (forall k, is_Some (tasks st' !! k) <-> is_Some (tasks st !! k))
  /\ (forall k, k ≠ task_id -> scheduled_tasks st' !! k = scheduled_tasks st !! k)
  /\ (forall k j, jobs st' !! k = Some j ->
                  j_func j = ExecuteTask task_id \/ jobs st !! k = Some j).
Proof.
  destruct (schedule_task_cases c task_id spec start st)
    as [[Hf _]|[(task & trigger & Ht & Hp & Hn & Hf)
               |(task & trigger & nrt & st1 & Ht & Hp & Hn & Hf & Hj & Hs & _ & Hts & _)]];
    rewrite Hf; simpl.
  - split; [done |]. split; [done |]. intros k j Hk. by right.
  - split; [done |]. split.
    + intros k Hk. by rewrite lookup_insert_ne.
    + intros k j. rewrite lookup_insert. destruct (decide _); [|by right].
      intros [= <-]. by left.
  - rewrite Hj, Hs, Hts. split; [|split].
    + intros k. rewrite lookup_insert. destruct (decide _); [subst; by rewrite Ht | done].
    + intros k Hk. by rewrite lookup_insert_ne.
    + intros k j. rewrite lookup_insert. destruct (decide _); [|by right].
      intros [= <-]. by left.
Qed.

Lemma reloaded_ext c (m1 m2 : gmap string AgentTask) r :
  (forall k, is_Some (m1 !! k) <-> is_Some (m2 !! k)) ->
  reloaded c m1 r = reloaded c m2 r.
Proof.
  intros Hd. unfold reloaded. f_equal. apply bool_decide_ext, Hd.
Qed.

Lemma reloaded_unknown c (m : gmap string AgentTask) r :
  m !! s_task_id r = None -> reloaded c m r = false.
Proof.
  intros Hn. unfold reloaded. rewrite Hn. rewrite bool_decide_eq_false_2; [done |].
  by intros [? ?].
Qed.

(** The loop of [_load_schedules] is [schedule_task] over the rows it keeps,
    in their order. *)
Lemma load_loop_foldl c rows st :
  load_loop c rows st
  = foldl (reload_row c) st (filter (fun r => reloaded c (tasks st) r = true) rows).
Proof.
  revert st. induction rows as [|r rows IH]; intros st; [done |].
  simpl. destruct (tasks st !! s_task_id r) as [task|] eqn:Et.
  - destruct (is_text (s_type r) "date" && past_date (now c) (s_value r)) eqn:Ed.
    + rewrite filter_cons_False; [apply IH |].
      unfold reloaded. rewrite Ed, andb_false_r. done.
    + rewrite filter_cons_True.
      2:{ unfold reloaded. rewrite Ed, Et, andb_true_r.
          apply bool_decide_eq_true_2. eauto. }
      simpl. rewrite IH. unfold reload_row at 2. f_equal.
      apply list_filter_iff. intros r'.
      pose proof (schedule_task_frame c (s_task_id r) (s_value r) None st) as [Hd _].
      by rewrite (reloaded_ext c _ _ r' Hd).
  - rewrite filter_cons_False; [apply IH |].
    rewrite reloaded_unknown by done. done.
Qed.






(** C5, as amended. A specification that is in none of the four grammars,
    where the token after ["every "], ["at:"] or ["in "] may have blanks
    around it, is refused by [parse], and [schedule_task] then returns
    false and leaves the whole state as it was: no job, no row, the
    registry untouched, no event. *)
Theorem unparsable_spec_rejected c task_id spec start st :
  in_grammar strip spec = false ->
  parse (now c) spec start = None
  /\ schedule_task c task_id spec start st = (false, st).
Proof.
  intros Hg.
  assert (Hp : parse (now c) spec start = None).
  { destruct (parse (now c) spec start) as [t|] eqn:Ep; [|done].
    apply parse_in_grammar in Ep. congruence. }
  split; [exact Hp |]. unfold schedule_task. rewrite Hp.
  by destruct (tasks st !! task_id).
Qed.

End EngineFacts.

(** ** Numbers and their decimal text *)

Section NumberFacts.

Lemma int_acc_uint_pos d acc :
  int_acc (N.pos acc) (NilEmpty.string_of_uint d) = N.pos (Pos.of_uint_acc d acc).
Proof.
  revert acc. induction d; intros acc; simpl; [done |..];
    rewrite <- IHd; f_equal; unfold digit_val; simpl; lia.
Qed.

Lemma int_acc_uint d : int_acc 0 (NilEmpty.string_of_uint d) = Pos.of_uint d.
Proof.
  induction d; simpl; [done | exact IHd |..]; apply (int_acc_uint_pos d).
Qed.

(** [int(str(n)) = n] *)
Lemma int_str_of_N n : int (str_of_N n) = n.
Proof.
  unfold int, str_of_N. rewrite int_acc_uint. apply DecimalN.Unsigned.of_to.
Qed.

Lemma uint_digits d : all_chars isdigit (NilEmpty.string_of_uint d) = true.
Proof. induction d; simpl; [done |..]; exact IHd. Qed.

(** [str(n)] is a number of the grammar. *)
Lemma g_number_str_of_N n : g_number (str_of_N n) = true.
Proof.
  unfold g_number, str_of_N. rewrite uint_digits, andb_true_r.
  destruct n as [|p]; [done |]. simpl.
  pose proof (DecimalPos.Unsigned.to_uint_nonnil p) as Hn.
  by destruct (Pos.to_uint p).
Qed.

End NumberFacts.

(** ** The trigger parser, accepted specifications *)

Section ParserCoverage.

Context `{Externals}.

Implicit Types (d body spec : string) (u : ascii).

Lemma unit_of_char_g_unit u unit : unit_of_char u = Some unit -> g_unit u = true.
Proof.
  unfold unit_of_char, g_unit.
  repeat (destruct (Ascii.eqb u _); [by rewrite ?orb_true_r |]). done.
Qed.

Lemma g_unit_unit_of_char u : g_unit u = true -> is_Some (unit_of_char u).
Proof.
  unfold unit_of_char, g_unit. intros Hu.
  repeat (destruct (Ascii.eqb u _); [by eauto |]). done.
Qed.

(** The pattern matches a stripped text exactly when the text is a number
    followed by a unit letter. *)
Lemma match_value_unit_none body :
  g_value_unit false (strip body) = false -> match_value_unit (strip body) = None.
Proof.
  intros Hg. destruct (match_value_unit (strip body)) as [[n u]|] eqn:Em; [|done].
  rewrite (parse_value_unit_grammar false body n u Em) in Hg; done.
Qed.

Lemma match_value_unit_digits d u :
  g_number d = true -> g_unit u = true ->
  match_value_unit (strip (d ++ String u "")) = Some (d, u).
Proof.
  intros Hd Hu. rewrite (strip_value_unit d u Hd Hu). by apply match_value_unit_in.
Qed.

(** What [parse] makes of a number and a unit letter after ["every "]. *)
Lemma parse_interval_digits now d u unit start :
  g_number d = true -> unit_of_char u = Some unit ->
  parse now ("every " ++ d ++ String u "") start
  = (if (0 <? int d)%N && timedelta_ok unit (int d)
        && start_date_ok now (Z.of_N (int d) * unit_seconds unit) start
     then Some (IntervalTrigger (Some (unit, int d)) start) else None).
Proof.
  intros Hd Hu. pose proof (unit_of_char_g_unit u unit Hu) as Hg.
  unfold parse, _parse_interval, startswith. simpl.
  rewrite prefix_empty, (match_value_unit_digits d u Hd Hg), Hu.
  destruct (int d <=? 0)%N eqn:E0.
  - apply N.leb_le in E0. by rewrite (proj2 (N.ltb_ge _ _) E0).
  - apply N.leb_gt in E0. by rewrite (proj2 (N.ltb_lt _ _) E0).
Qed.

(** What [parse] makes of a number and a unit letter after ["in "]. *)
Lemma parse_relative_digits now d u unit start :
  g_number d = true -> unit_of_char u = Some unit ->
  parse now ("in " ++ d ++ String u "") start
  = if (0 <? int d)%N && timedelta_ok unit (int d)
       && (now + Z.of_N (int d) * unit_seconds unit * 1000000 <=? max_us)%Z
    then Some (DateTrigger (Naive (now + Z.of_N (int d) * unit_seconds unit * 1000000)))
    else None.
Proof.
  intros Hd Hu. pose proof (unit_of_char_g_unit u unit Hu) as Hg.
  unfold parse, _parse_relative, startswith. simpl.
  rewrite prefix_empty, (match_value_unit_digits d u Hd Hg), Hu.
  destruct (int d <=? 0)%N eqn:E0.
  - apply N.leb_le in E0. by rewrite (proj2 (N.ltb_ge _ _) E0).
  - apply N.leb_gt in E0. by rewrite (proj2 (N.ltb_lt _ _) E0).
Qed.

(** X1. [parse] on ["every "] followed by decimal digits [d] and a unit
    letter: when the number is positive, the interval fits a [timedelta]
    and, if no start time is given, the first run at [now] plus the
    interval is not beyond [datetime.max], the result is the interval
    trigger of exactly [int d] units, with the given start time; otherwise
    [None].  Leading zeros do not matter, zero is refused.  The trigger
    information of the result gives the length in seconds. *)
Theorem parse_interval_amount now d u unit start :
  g_number d = true -> unit_of_char u = Some unit ->
  let seconds := (Z.of_N (int d) * unit_seconds unit)%Z in
  let first_run_fits :=
    match start with
    | Some _ => true
    | None => (now + seconds * 1000000 <=? max_us)%Z
    end in
  parse now ("every " ++ d ++ String u "") start
  = (if (0 <? int d)%N && timedelta_ok unit (int d) && first_run_fits
     then Some (IntervalTrigger (Some (unit, int d)) start) else None)
  /\ (forall t, parse now ("every " ++ d ++ String u "") start = Some t ->
                get_trigger_info t = IntervalInfo seconds).
Proof.
  intros Hd Hu seconds first_run_fits.
  pose proof (parse_interval_digits now d u unit start Hd Hu) as Hp.
  unfold start_date_ok in Hp. fold seconds in Hp. fold first_run_fits in Hp.
  split; [exact Hp |]. intros t. rewrite Hp.
  destruct (_ && _); [|done]. by intros [= <-].
Qed.

(** X2. [parse] on ["in "] followed by decimal digits and a unit letter:
    the result is the date trigger at [now] plus that many units, a naive
    instant strictly after [now]; it is [None] when the number is zero,
    when the amount does not fit a [timedelta], or when the instant is
    beyond [datetime.max].  The start time plays no part. *)
Theorem parse_relative_instant now d u unit start :
  g_number d = true -> unit_of_char u = Some unit ->
  let run_date := (now + Z.of_N (int d) * unit_seconds unit * 1000000)%Z in
  parse now ("in " ++ d ++ String u "") start
  = (if (0 <? int d)%N && timedelta_ok unit (int d) && (run_date <=? max_us)%Z
     then Some (DateTrigger (Naive run_date)) else None)
  /\ (forall t, parse now ("in " ++ d ++ String u "") start = Some t ->
                t = DateTrigger (Naive run_date) /\ (now < run_date <= max_us)%Z).
Proof.
  intros Hd Hu run_date.
  pose proof (parse_relative_digits now d u unit start Hd Hu) as Hp. fold run_date in Hp.
  split; [exact Hp |]. intros t. rewrite Hp.
  destruct (0 <? int d)%N eqn:E0; [|done]. apply N.ltb_lt in E0.
  destruct (timedelta_ok unit (int d)); [|done].
  destruct (run_date <=? max_us)%Z eqn:E1; [|done]. apply Z.leb_le in E1.
  simpl. intros [= <-]. split; [done |]. subst run_date.
  destruct unit; simpl in *; lia.
Qed.

(** X3. Whatever [parse] accepts has one of the four prefixes, and the
    prefix alone decides the class of the trigger: ["cron:"] gives a cron
    trigger, ["every "] an interval trigger, ["at:"] and ["in "] a date
    trigger.  This is the [schedule_type] that [schedule_task] stores. *)
Theorem parse_type_by_prefix now spec start t :
  parse now spec start = Some t ->
  schedule_type_of t
  = (if startswith spec "cron:" then "cron"
     else if startswith spec "every " then "interval" else "date")
  /\ (startswith spec "cron:" || startswith spec "every "
      || startswith spec "at:" || startswith spec "in ") = true.
Proof.
  unfold parse.
  destruct (startswith spec "cron:").
  { unfold _parse_cron. destruct (negb _); [done |].
    destruct (from_crontab _); [|done]. by intros [= <-]. }
  destruct (startswith spec "every ").
  { unfold _parse_interval. destruct (match_value_unit _) as [[n u]|]; [|done].
    destruct (_ <=? _)%N; [done |].
    destruct (unit_of_char u); (destruct (_ : bool); [|done]); by intros [= <-]. }
  destruct (startswith spec "at:").
  { unfold _parse_date. destruct (fromisoformat _); [|done].
    destruct (dt_le _ _); [|done]. by intros [= <-]. }
  destruct (startswith spec "in "); [|done].
  unfold _parse_relative. destruct (match_value_unit _) as [[n u]|]; [|done].
  destruct (_ <=? _)%N; [done |]. destruct (unit_of_char u); [|done].
  destruct (_ && _); [|done]. by intros [= <-].
Qed.

(** X4. The branches of [get_human_readable] for ["at:"] and for texts
    that do not match: a date that [fromisoformat] reads is rendered
    ["At YYYY-MM-DD HH:MM:SS"]; one it does not read is rendered ["At "]
    followed by the stripped text; after ["every "] or ["in "], a text that
    is not a number and a unit letter leaves the specification as it is. *)
Theorem get_human_readable_other_branches :
  (forall d dt, fromisoformat (strip d) = Some dt ->
                get_human_readable ("at:" ++ d) = "At " ++ strftime dt)
  /\ (forall d, fromisoformat (strip d) = None ->
                get_human_readable ("at:" ++ d) = "At " ++ strip d)
  /\ (forall body, g_value_unit false (strip body) = false ->
                   get_human_readable ("every " ++ body) = "every " ++ body)
  /\ (forall body, g_value_unit false (strip body) = false ->
                   get_human_readable ("in " ++ body) = "in " ++ body).
Proof.
  split; [|split; [|split]].
  - intros d dt Hf. unfold get_human_readable, human_readable_body, startswith. simpl.
    by rewrite prefix_empty, Hf.
  - intros d Hf. unfold get_human_readable, human_readable_body, startswith. simpl.
    by rewrite prefix_empty, Hf.
  - intros body Hg. unfold get_human_readable, human_readable_body, startswith. simpl.
    by rewrite prefix_empty, match_value_unit_none.
  - intros body Hg. unfold get_human_readable, human_readable_body, startswith. simpl.
    by rewrite prefix_empty, match_value_unit_none.
Qed.


Implicit Types (w : string).

Lemma split_ws_word_blank w rest :
  is_word w -> split_ws (w ++ String " " rest) = w :: split_ws rest.
Proof.
  intros [Hne Hw]. induction w as [|c w IH]; [done |].
  simpl in Hw. apply andb_true_iff in Hw as [Hc%negb_true_iff Hw].
  change (String c w ++ String " " rest) with (String c (w ++ String " " rest)).
  rewrite split_ws_cons, Hc. destruct w as [|c' w'].
  - done.
  - assert (Hc' : isspace c' = false).
    { simpl in Hw. apply andb_true_iff in Hw as [Hc' _]. by apply negb_true_iff. }
    change (String c' w' ++ String " " rest) with (String c' (w' ++ String " " rest)).
    cbv beta iota. rewrite Hc'.
    change (String c' (w' ++ String " " rest)) with (String c' w' ++ String " " rest).
    by rewrite IH.
Qed.

Lemma split_ws_word w : is_word w -> split_ws w = [w].
Proof.
  intros [Hne Hw]. induction w as [|c w IH]; [done |].
  simpl in Hw. apply andb_true_iff in Hw as [Hc%negb_true_iff Hw].
  rewrite split_ws_cons, Hc. destruct w as [|c' w']; [done |].
  assert (Hc' : isspace c' = false).
  { simpl in Hw. apply andb_true_iff in Hw as [Hc' _]. by apply negb_true_iff. }
  rewrite Hc'. by rewrite IH.
Qed.

(** [" ".join(ws).split() == ws] for words. *)
Lemma split_ws_join ws : Forall is_word ws -> split_ws (join " " ws) = ws.
Proof.
  induction 1 as [|w ws Hw Hws IH]; [done |].
  destruct ws as [|w' ws']; [by apply split_ws_word |].
  change (join " " (w :: w' :: ws')) with (w ++ " " ++ join " " (w' :: ws')).
  change (" " ++ join " " (w' :: ws')) with (String " " (join " " (w' :: ws'))).
  by rewrite split_ws_word_blank, IH.
Qed.

Lemma g_number_word d : g_number d = true -> is_word d.
Proof.
  intros [Hne Hd]%andb_true_iff. split.
  - intros ->. done.
  - revert Hd. apply all_chars_impl. intros c Hc.
    by rewrite (isdigit_not_space c Hc).
Qed.

(** A field that is a plain number is a field of the grammar exactly when
    the number is in range. *)
Lemma g_field_number lo hi d :
  g_number d = true -> g_field lo hi d = true -> (lo <= int d <= hi)%N.
Proof.
  intros Hd. unfold g_field, g_step.
  assert (Hc : forall sep, isdigit sep = false ->
                 all_chars (fun c => negb (Ascii.eqb c sep)) d = true)
    by (intros sep Hs; by apply g_number_without).
  assert (H1 : String.eqb d "*" = false /\ startswith d "*/" = false).
  { apply andb_true_iff in Hd as [Hne Hd]. destruct d as [|c d']; [done |].
    simpl in Hd. apply andb_true_iff in Hd as [Hc1 _].
    assert (Hn : c <> "*"%char) by (intros ->; vm_compute in Hc1; discriminate).
    split; [simpl; by rewrite (proj2 (Ascii.eqb_neq _ _) Hn) |].
    unfold startswith.
    change (String.prefix "*/" (String c d'))
      with (if ascii_dec "*" c then String.prefix "/" d' else false).
    by destruct (ascii_dec "*" c) as [<-|]. }
  destruct H1 as [-> ->]. simpl.
  rewrite (split_on_absent "," d) by by apply Hc. simpl. rewrite andb_true_r.
  unfold g_item. rewrite (split_on_absent "-" d) by by apply Hc.
  unfold g_value. rewrite Hd. simpl.
  intros [?%N.leb_le ?%N.leb_le]%andb_true_iff. lia.
Qed.

Lemma accepts_is_Some V f : accepts V f = bool_decide (is_Some (py_match (cron_field_re V) f)).
Proof.
  unfold accepts. destruct (py_match _ _); symmetry.
  - apply bool_decide_eq_true_2. eauto.
  - apply bool_decide_eq_false_2. by intros [? ?].
Qed.

Lemma accepts_number V lo hi n :
  (forall v, lang V v -> g_value lo hi v = true) ->
  accepts V (str_of_N n) = true -> (lo <= n <= hi)%N.
Proof.
  intros HV Ha. rewrite <- (int_str_of_N n).
  apply g_field_number; [apply g_number_str_of_N |].
  apply (cron_field_ok V lo hi HV), py_match_word.
  - apply g_number_word, g_number_str_of_N.
  - unfold accepts in Ha. destruct (py_match _ _); [eauto | done].
Qed.

Lemma accepts_below V (lo len : nat) n :
  forallb (fun k => accepts V (str_of_N (N.of_nat k))) (seq lo len) = true ->
  (N.of_nat lo <= n < N.of_nat (lo + len))%N -> accepts V (str_of_N n) = true.
Proof.
  intros Hall Hn. rewrite forallb_forall in Hall.
  rewrite <- (N2Nat.id n). apply Hall, in_seq. lia.
Qed.

Lemma field_ranges n :
  (accepts V_minute (str_of_N n) = true <-> (n <= 59)%N)
  /\ (accepts V_hour (str_of_N n) = true <-> (n <= 23)%N)
  /\ (accepts V_day (str_of_N n) = true <-> (1 <= n <= 31)%N)
  /\ (accepts V_month (str_of_N n) = true <-> (1 <= n <= 12)%N)
  /\ (accepts V_day_of_week (str_of_N n) = true <-> (n <= 6)%N).
Proof.
  split; [|split; [|split; [|split]]]; (split; [intros Ha | intros Hn]).
  - pose proof (accepts_number _ _ _ n V_minute_values Ha). lia.
  - apply (accepts_below V_minute 0 60); [by vm_compute | lia].
  - pose proof (accepts_number _ _ _ n V_hour_values Ha). lia.
  - apply (accepts_below V_hour 0 24); [by vm_compute | lia].
  - pose proof (accepts_number _ _ _ n V_day_values Ha). lia.
  - apply (accepts_below V_day 1 31); [by vm_compute | lia].
  - pose proof (accepts_number _ _ _ n V_month_values Ha). lia.
  - apply (accepts_below V_month 1 12); [by vm_compute | lia].
  - pose proof (accepts_number _ _ _ n V_day_of_week_values Ha). lia.
  - apply (accepts_below V_day_of_week 0 7); [by vm_compute | lia].
Qed.

(** X5. On five plain numbers joined by blanks, [_validate_cron] accepts
    exactly when each is in the range of its field: minute 0-59, hour
    0-23, day of month 1-31, month 1-12, day of week 0-6. *)
Theorem validate_cron_number_ranges mi h dm mo dw :
  _validate_cron (join " " (str_of_N <$> [mi; h; dm; mo; dw])) = true
  <-> (mi <= 59 /\ h <= 23 /\ 1 <= dm <= 31 /\ 1 <= mo <= 12 /\ dw <= 6)%N.
Proof.
  unfold _validate_cron. rewrite split_ws_join.
  2:{ repeat constructor; apply g_number_word, g_number_str_of_N. }
  simpl. rewrite <- !accepts_is_Some, !andb_true_iff.
  destruct (field_ranges mi) as (Hmi & _).
  destruct (field_ranges h) as (_ & Hh & _).
  destruct (field_ranges dm) as (_ & _ & Hdm & _).
  destruct (field_ranges mo) as (_ & _ & _ & Hmo & _).
  destruct (field_ranges dw) as (_ & _ & _ & _ & Hdw).
  rewrite Hmi, Hh, Hdm, Hmo, Hdw. tauto.
Qed.

(** X6. [parse] on ["cron:"]: blanks around the expression matter
    neither to the validation nor to the result; the trigger is built from
    the stripped expression, when [_validate_cron] and [from_crontab]
    both accept it.  Only ["every "] specifications use the start time. *)
Theorem parse_cron_expression now expr start :
  parse now ("cron:" ++ expr) start
  = (if _validate_cron expr && from_crontab (strip expr)
     then Some (CronTrigger (strip expr)) else None)
  /\ forall spec, startswith spec "every " = false ->
                  parse now spec start = parse now spec None.
Proof.
  split.
  - unfold parse, _parse_cron, startswith. simpl. rewrite prefix_empty.
    unfold _validate_cron. rewrite split_ws_strip.
    fold (_validate_cron expr). destruct (_validate_cron expr); [|done].
    simpl. by destruct (from_crontab _).
  - intros spec He. unfold parse. by rewrite He.
Qed.

(** X7. The text of [get_human_readable] agrees with the trigger [parse]
    builds from the same specification: a cron trigger is described by its
    expression, an interval trigger by its amount and unit (and [parse]
    never builds one without an amount), a date trigger by its date or by
    the amount and unit of its delay. *)
Theorem human_readable_agrees_with_parse now spec start t :
  parse now spec start = Some t ->
  match t with
  | CronTrigger expr => get_human_readable spec = "Cron schedule: " ++ expr
  | IntervalTrigger amount _ =>
      exists unit n u,
        amount = Some (unit, n) /\ unit_of_char u = Some unit /\ (0 < n)%N
        /\ get_human_readable spec = "Every " ++ str_of_N n ++ " " ++ unit_word u n
  | DateTrigger run_date =>
      get_human_readable spec = "At " ++ strftime run_date
      \/ exists unit n u,
          unit_of_char u = Some unit /\ (0 < n)%N
          /\ run_date = Naive (now + Z.of_N n * unit_seconds unit * 1000000)
          /\ get_human_readable spec = "In " ++ str_of_N n ++ " " ++ unit_word u n
  end.
Proof.
  unfold parse, get_human_readable, human_readable_body.
  destruct (startswith spec "cron:").
  { unfold _parse_cron. destruct (negb _); [done |].
    destruct (from_crontab _); [|done]. by intros [= <-]. }
  destruct (startswith spec "every ").
  { unfold _parse_interval.
    destruct (match_value_unit _) as [[n u]|] eqn:Em; [|done].
    destruct (match_value_unit_out _ _ _ Em) as (_ & Hu & _).
    destruct (int n <=? 0)%N eqn:E0; [done |]. apply N.leb_gt in E0.
    destruct (g_unit_unit_of_char u Hu) as [unit Hunit]. rewrite Hunit.
    destruct (_ && _); [|done]. intros [= <-].
    exists unit, (int n), u. rewrite (unit_name_word u _ Hu). done. }
  destruct (startswith spec "at:").
  { unfold _parse_date. destruct (fromisoformat _) as [dt|]; [|done].
    destruct (dt_le _ _); [|done]. intros [= <-]. by left. }
  destruct (startswith spec "in "); [|done].
  unfold _parse_relative.
  destruct (match_value_unit _) as [[n u]|] eqn:Em; [|done].
  destruct (match_value_unit_out _ _ _ Em) as (_ & Hu & _).
  destruct (int n <=? 0)%N eqn:E0; [done |]. apply N.leb_gt in E0.
  destruct (unit_of_char u) as [unit|] eqn:Hunit; [|done].
  destruct (_ && _); [|done]. intros [= <-]. right.
  exists unit, (int n), u. rewrite (unit_name_word u _ Hu). done.
Qed.

End ParserCoverage.

(** ** The store, row by row *)

Section StoreCoverage.

Implicit Types (db : store) (task_id other : string) (rows : list schedule_row).

Lemma find_row_task task_id rows r :
  find (fun r => String.eqb (s_task_id r) task_id) rows = Some r ->
  s_task_id r = task_id /\ r ∈ rows /\ has_schedule task_id rows = true.
Proof.
  unfold has_schedule. induction rows as [|r' rows IH]; simpl; [done |].
  destruct (String.eqb (s_task_id r') task_id) eqn:E.
  - intros [= <-]. apply String.eqb_eq in E. split; [done |]. split; [by left | done].
  - intros Hf. destruct (IH Hf) as (? & ? & ?). split; [done |]. split; [by right | done].
Qed.

Lemma find_update_row task_id other j t v n rows :
  find (fun r => String.eqb (s_task_id r) other) (map (update_schedule task_id j t v n) rows)
  = update_schedule task_id j t v n
      <$> find (fun r => String.eqb (s_task_id r) other) rows.
Proof.
  induction rows as [|r rows IH]; simpl; [done |].
  assert (Hs : s_task_id (update_schedule task_id j t v n r) = s_task_id r).
  { unfold update_schedule. by destruct (String.eqb _ _). }
  rewrite Hs. by destruct (String.eqb (s_task_id r) other).
Qed.

Lemma update_row_identity task_id j t v n rows :
  row_identity <$> map (update_schedule task_id j t v n) rows = row_identity <$> rows.
Proof.
  induction rows as [|r rows IH]; [done |].
  change (row_identity (update_schedule task_id j t v n r)
            :: (row_identity <$> map (update_schedule task_id j t v n) rows)
          = row_identity r :: (row_identity <$> rows)).
  rewrite IH. f_equal. unfold update_schedule. by destruct (String.eqb _ _).
Qed.

Lemma row_identity_task_ids rows rows' :
  row_identity <$> rows = row_identity <$> rows' -> s_task_id <$> rows = s_task_id <$> rows'.
Proof.
  intros Heq.
  assert (Hp : forall l : list schedule_row,
             s_task_id <$> l
             = (fun i : Z * string * string => i.1.2) <$> (row_identity <$> l)).
  { intros l. by rewrite <- list_fmap_compose. }
  by rewrite !Hp, Heq.
Qed.

Lemma find_app_Some {A} (p : A -> bool) (l1 l2 : list A) x :
  find p l1 = Some x -> find p (l1 ++ l2) = Some x.
Proof.
  induction l1 as [|a l1 IH]; simpl; [done |]. destruct (p a); [done | exact IH].
Qed.

Lemma get_schedule_other_saved utcnow task_id other job_id ty value nrt db :
  other <> task_id ->
  get_schedule other (save_schedule utcnow task_id job_id ty value nrt db)
  = get_schedule other db.
Proof.
  intros Hne. unfold get_schedule, save_schedule.
  destruct (db_ok db) eqn:Hok; simpl; [|by rewrite Hok].
  destruct (has_schedule task_id (schedules db)); simpl; rewrite Hok; simpl.
  - rewrite find_update_row.
    destruct (find _ (schedules db)) as [r|] eqn:Ef; [|done]. simpl.
    apply find_row_task in Ef as (Hr & _). unfold update_schedule.
    rewrite (proj2 (String.eqb_neq _ _)); [done | congruence].
  - destruct (find _ (schedules db)) as [r|] eqn:Ef.
    + by rewrite (find_app_Some _ _ _ _ Ef).
    + rewrite find_app_r by done. simpl.
      rewrite (proj2 (String.eqb_neq _ _)); [done | congruence].
Qed.


Lemma save_schedule_frame utcnow task_id job_id ty value nrt db :
  db_ok (save_schedule utcnow task_id job_id ty value nrt db) = db_ok db
  /\ task_runs (save_schedule utcnow task_id job_id ty value nrt db) = task_runs db
  /\ task_runs_seq (save_schedule utcnow task_id job_id ty value nrt db)
     = task_runs_seq db.
Proof.
  unfold save_schedule. destruct (db_ok db) eqn:Hok; simpl; [|by rewrite Hok].
  by destruct (has_schedule _ _).
Qed.

(** X8. On a working store, [get_schedule] after [save_schedule] returns
    a row with the saved job id, type, value and next run time, and
    [get_all_schedules] lists it; the rows of the other tasks read as
    before, and the run history is untouched. *)
Theorem save_schedule_round_trip utcnow task_id job_id ty value nrt db :
  db_ok db = true ->
  let db' := save_schedule utcnow task_id job_id ty value nrt db in
  (exists r,
      get_schedule task_id db' = Some r /\ r ∈ Persistence.get_all_schedules db'
      /\ s_task_id r = task_id /\ s_job_id r = SText job_id /\ s_type r = SText ty
      /\ s_value r = value /\ s_next_run_time r = opt_text (isoformat <$> nrt))
  /\ (forall other, other <> task_id -> get_schedule other db' = get_schedule other db)
  /\ task_runs db' = task_runs db.
Proof.
  intros Hok db'. split; [|split].
  - assert (Hok' : db_ok db' = true).
    { subst db'. by rewrite (proj1 (save_schedule_frame _ _ _ _ _ _ _)). }
    assert (exists r, get_schedule task_id db' = Some r
              /\ s_task_id r = task_id /\ s_job_id r = SText job_id /\ s_type r = SText ty
              /\ s_value r = value /\ s_next_run_time r = opt_text (isoformat <$> nrt))
      as (r & Hg & Hrest).
    { subst db'. unfold get_schedule, save_schedule. rewrite Hok. simpl.
      destruct (has_schedule task_id (schedules db)) eqn:E; simpl; rewrite Hok; simpl.
      - destruct (find_updated task_id (SText job_id) (SText ty) value
                    (opt_text (isoformat <$> nrt)) _ E) as (r & Hf & ? & ? & ? & ? & ?).
        eauto 10.
      - rewrite find_app_r by by apply find_none_has_schedule.
        simpl. rewrite String.eqb_refl. eauto 10. }
    exists r. split; [exact Hg |]. split; [|exact Hrest].
    unfold get_schedule in Hg. unfold Persistence.get_all_schedules. rewrite Hok' in *. simpl in *.
    by apply find_row_task in Hg as (_ & ? & _).
  - intros other Hne. by apply get_schedule_other_saved.
  - apply save_schedule_frame.
Qed.

Lemma has_schedule_find task_id rows :
  has_schedule task_id rows = true ->
  is_Some (find (fun r => String.eqb (s_task_id r) task_id) rows).
Proof.
  unfold has_schedule. induction rows as [|r rows IH]; simpl; [done |].
  destruct (String.eqb (s_task_id r) task_id); simpl; [eauto | exact IH].
Qed.

Lemma save_schedule_existing utcnow task_id job_id ty value nrt db r0 :
  db_ok db = true -> get_schedule task_id db = Some r0 ->
  get_schedule task_id (save_schedule utcnow task_id job_id ty value nrt db)
  = Some (ScheduleRow (s_id r0) task_id (SText job_id) (SText ty) value
            (s_created_at r0) (opt_text (isoformat <$> nrt)))
  /\ row_identity <$> schedules (save_schedule utcnow task_id job_id ty value nrt db)
     = row_identity <$> schedules db
  /\ schedules_seq (save_schedule utcnow task_id job_id ty value nrt db)
     = schedules_seq db.
Proof.
  intros Hok. unfold get_schedule, save_schedule. rewrite Hok. simpl. intros Hf.
  rewrite (proj2 (proj2 (find_row_task _ _ _ Hf))). simpl. rewrite Hok. simpl.
  rewrite find_update_row, Hf. simpl.
  apply find_row_task in Hf as (Hr & _). unfold update_schedule.
  rewrite Hr, String.eqb_refl. split; [done |].
  split; [apply update_row_identity | done].
Qed.

Lemma save_schedule_new utcnow task_id job_id ty value nrt db :
  db_ok db = true -> get_schedule task_id db = None ->
  schedules (save_schedule utcnow task_id job_id ty value nrt db)
  = (schedules db ++
       [ScheduleRow (schedules_seq db + 1) task_id (SText job_id) (SText ty) value
          (sqlite_datetime utcnow) (opt_text (isoformat <$> nrt))])%list
  /\ schedules_seq (save_schedule utcnow task_id job_id ty value nrt db)
     = (schedules_seq db + 1)%Z.
Proof.
  intros Hok. unfold get_schedule, save_schedule. rewrite Hok. simpl. intros Hf.
  destruct (has_schedule task_id (schedules db)) eqn:E; [|done].
  destruct (has_schedule_find _ _ E) as [r Hr]. congruence.
Qed.

Lemma save_schedule_NoDup utcnow task_id job_id ty value nrt db :
  NoDup (task_ids db) -> NoDup (task_ids (save_schedule utcnow task_id job_id ty value nrt db)).
Proof.
  unfold save_schedule. destruct (db_ok db); [|done]. simpl.
  destruct (has_schedule task_id (schedules db)) eqn:E.
  - unfold task_ids. simpl.
    by rewrite (row_identity_task_ids _ _ (update_row_identity _ _ _ _ _ _)).
  - intros Hnd. rewrite task_ids_insert. apply NoDup_app. split; [done |].
    split; [| apply NoDup_singleton].
    intros x Hx ->%list_elem_of_singleton. by apply has_schedule_false in E.
Qed.

(** X9. [save_schedule] is an insert or an update by task.  For a task
    that has a row, the row keeps its id and its creation time and gets the
    new columns, and no row is added; for a task without one, a row is
    appended with the next id and the current time.  A table with one row
    per task stays so. *)
Theorem save_schedule_upsert utcnow task_id job_id ty value nrt db :
  db_ok db = true ->
  let db' := save_schedule utcnow task_id job_id ty value nrt db in
  let next := opt_text (isoformat <$> nrt) in
  (forall r0,
      get_schedule task_id db = Some r0 ->
      get_schedule task_id db'
      = Some (ScheduleRow (s_id r0) task_id (SText job_id) (SText ty) value
                (s_created_at r0) next)
      /\ row_identity <$> schedules db' = row_identity <$> schedules db
      /\ schedules_seq db' = schedules_seq db)
  /\ (get_schedule task_id db = None ->
      schedules db'
      = (schedules db ++
           [ScheduleRow (schedules_seq db + 1) task_id (SText job_id) (SText ty) value
              (sqlite_datetime utcnow) next])%list
      /\ schedules_seq db' = (schedules_seq db + 1)%Z)
  /\ (NoDup (task_ids db) -> NoDup (task_ids db')).
Proof.
  intros Hok db' next. split; [|split].
  - intros r0 Hr0. by apply save_schedule_existing.
  - intros Hn. by apply save_schedule_new.
  - apply save_schedule_NoDup.
Qed.


Lemma find_filter_gone task_id rows :
  find (fun r => String.eqb (s_task_id r) task_id)
    (filter (fun r => s_task_id r ≠ task_id) rows) = None.
Proof.
  induction rows as [|r rows IH]; [done |].
  rewrite filter_cons. case_decide as Hr; [|exact IH].
  simpl. by rewrite (proj2 (String.eqb_neq _ _) Hr).
Qed.

Lemma find_filter_other task_id other rows :
  other <> task_id ->
  find (fun r => String.eqb (s_task_id r) other)
    (filter (fun r => s_task_id r ≠ task_id) rows)
  = find (fun r => String.eqb (s_task_id r) other) rows.
Proof.
  intros Hne. induction rows as [|r rows IH]; [done |].
  rewrite filter_cons. case_decide as Hr; simpl.
  - by rewrite IH.
  - rewrite Hr, (proj2 (String.eqb_neq _ _)); [exact IH | done].
Qed.

Lemma filter_absent task_id rows :
  find (fun r => String.eqb (s_task_id r) task_id) rows = None ->
  filter (fun r => s_task_id r ≠ task_id) rows = rows.
Proof.
  induction rows as [|r rows IH]; [done |]. simpl.
  destruct (String.eqb (s_task_id r) task_id) eqn:E; [done |]. intros Hf.
  apply String.eqb_neq in E. rewrite filter_cons_True by done. by rewrite IH.
Qed.

Lemma get_schedule_deleted task_id db :
  db_ok db = true -> get_schedule task_id (delete_schedule task_id db) = None.
Proof.
  intros Hok. unfold get_schedule, delete_schedule. rewrite Hok. simpl. rewrite Hok.
  simpl. apply find_filter_gone.
Qed.

Lemma delete_schedule_NoDup task_id db :
  NoDup (task_ids db) -> NoDup (task_ids (delete_schedule task_id db)).
Proof.
  unfold delete_schedule. destruct (db_ok db); [|done]. simpl.
  unfold task_ids. simpl. intros Hnd. eapply sublist_NoDup; [exact Hnd |].
  apply fmap_sublist, sublist_filter.
Qed.

(** X10. [delete_schedule] on a working store: the task has no row
    afterwards, the rows of the other tasks read as before, deleting a
    task without a row changes nothing, deleting twice is deleting once,
    a table with one row per task stays so, and the id counter and the run
    history are untouched. *)
Theorem delete_schedule_contract task_id db :
  db_ok db = true ->
  let db' := delete_schedule task_id db in
  get_schedule task_id db' = None
  /\ (forall other, other <> task_id -> get_schedule other db' = get_schedule other db)
  /\ (get_schedule task_id db = None -> db' = db)
  /\ delete_schedule task_id db' = db'
  /\ (NoDup (task_ids db) -> NoDup (task_ids db'))
  /\ schedules_seq db' = schedules_seq db
  /\ task_runs db' = task_runs db.
Proof.
  intros Hok db'. subst db'. unfold get_schedule, delete_schedule. rewrite Hok. simpl.
  rewrite Hok. simpl. split; [apply find_filter_gone |].
  split; [intros other Hne; by apply find_filter_other |].
  split.
  { intros Hf. rewrite (filter_absent _ _ Hf). by destruct db. }
  split.
  { unfold with_schedules. simpl. f_equal.
    apply filter_absent, find_filter_gone. }
  split; [|done].
  unfold task_ids. simpl. intros Hnd. eapply sublist_NoDup; [exact Hnd |].
  apply fmap_sublist, sublist_filter.
Qed.

(** X11. Row ids are not used twice.  [save_schedule] and
    [delete_schedule] keep every id at or below the last id given out, so a
    schedule that is deleted and saved again has a larger id than before,
    and the creation time of the new row. *)
Theorem schedule_row_ids_fresh utcnow task_id job_id ty value nrt db :
  db_ok db = true -> ids_fresh db ->
  ids_fresh (save_schedule utcnow task_id job_id ty value nrt db)
  /\ ids_fresh (delete_schedule task_id db)
  /\ forall r0 r1,
      get_schedule task_id db = Some r0 ->
      get_schedule task_id
        (save_schedule utcnow task_id job_id ty value nrt (delete_schedule task_id db))
      = Some r1 ->
      (s_id r0 < s_id r1)%Z /\ s_created_at r1 = sqlite_datetime utcnow.
Proof.
  intros Hok Hfr. split; [|split].
  - unfold ids_fresh, save_schedule. rewrite Hok. simpl.
    destruct (has_schedule _ _); simpl.
    + intros r [r' [-> Hin]]%list_elem_of_fmap.
      specialize (Hfr r' Hin). unfold update_schedule.
      by destruct (String.eqb _ _).
    + intros r [Hin| ->%list_elem_of_singleton]%elem_of_app; simpl; [|lia].
      specialize (Hfr r Hin). lia.
  - unfold ids_fresh, delete_schedule. rewrite Hok. simpl.
    intros r [_ Hin]%list_elem_of_filter. by apply Hfr.
  - intros r0 r1 Hg0 Hg1.
    pose proof (get_schedule_deleted task_id db Hok) as Hgone.
    assert (Hseq : schedules_seq (delete_schedule task_id db) = schedules_seq db).
    { unfold delete_schedule. by rewrite Hok. }
    assert (Hok' : db_ok (delete_schedule task_id db) = true).
    { unfold delete_schedule. by rewrite Hok. }
    destruct (save_schedule_new utcnow task_id job_id ty value nrt _ Hok' Hgone)
      as [Hrows _].
    unfold get_schedule in Hg1.
    rewrite (proj1 (save_schedule_frame _ _ _ _ _ _ _)), Hok', Hrows in Hg1.
    simpl in Hg1.
    unfold get_schedule in Hgone. rewrite Hok' in Hgone. simpl in Hgone.
    rewrite find_app_r in Hg1 by done. simpl in Hg1. rewrite String.eqb_refl in Hg1.
    injection Hg1 as <-. simpl. rewrite Hseq.
    unfold get_schedule in Hg0. rewrite Hok in Hg0. simpl in Hg0.
    apply find_row_task in Hg0 as (_ & Hin & _). specialize (Hfr r0 Hin).
    split; [lia | done].
Qed.

End StoreCoverage.

(** ** Calendar dates and their text *)

Section DateFacts.

Local Open Scope Z_scope.

Lemma str_app_assoc (a b c : string) : ((a ++ b) ++ c = a ++ (b ++ c))%string.
Proof. induction a as [|x a IH]; simpl; [done | by rewrite IH]. Qed.

Lemma all_from_spec p i n :
  all_from p i n = true -> forall k, i <= k < i + Z.of_N n -> p k = true.
Proof.
  unfold all_from.
  assert (Hgen : forall b,
    let r := N.iter n (fun s : Z * bool => (s.1 + 1, s.2 && p s.1)) (i, b) in
    r.1 = i + Z.of_N n
    /\ (r.2 = true -> forall k, i <= k < i + Z.of_N n -> p k = true)).
  { intros b. induction n as [|n IH] using N.peano_ind.
    - simpl. split; [lia |]. intros _ k Hk. lia.
    - rewrite N.iter_succ. cbv zeta in *. destruct IH as [IH1 IH2].
      destruct (N.iter n _ (i, b)) as [j ok]. simpl in *. subst j.
      split; [lia |]. intros [Hok Hp]%andb_true_iff k Hk.
      destruct (decide (k = i + Z.of_N n)) as [->|Hne]; [exact Hp |].
      apply IH2; [exact Hok | lia]. }
  intros Hr. by apply (Hgen true).
Qed.

Lemma cycle_iter n :
  let r := N.iter n cycle_step (0, -1, true) in
  r.1.1 = Z.of_N n
  /\ r.1.2 = (if (n =? 0)%N then -1 else date_key (cycle_date (Z.of_N n - 1)))
  /\ (r.2 = true ->
      forall k, 0 <= k < Z.of_N n ->
        date_in_cycle (cycle_date k) = true
        /\ (k + 1 < Z.of_N n ->
            date_key (cycle_date k) < date_key (cycle_date (k + 1)))).
Proof.
  induction n as [|n IH] using N.peano_ind.
  - simpl. split; [done |]. split; [done |]. intros _ k Hk. lia.
  - rewrite N.iter_succ. cbv zeta in *. destruct IH as (IH1 & IH2 & IH3).
    destruct (N.iter n cycle_step (0, -1, true)) as [[j prev] ok].
    unfold cycle_step. simpl in *. subst j.
    split; [lia |]. split.
    { rewrite (proj2 (N.eqb_neq _ _)) by lia.
      by replace (Z.of_N (N.succ n) - 1) with (Z.of_N n) by lia. }
    intros [[Hok Hin]%andb_true_iff Hlt%Z.ltb_lt]%andb_true_iff k Hk.
    destruct (decide (k = Z.of_N n)) as [->|Hne].
    + split; [exact Hin | lia].
    + destruct (IH3 Hok k) as [Hk1 Hk2]; [lia |]. split; [exact Hk1 |].
      intros _. destruct (decide (k + 1 = Z.of_N n)) as [Heq|Hne'].
      * rewrite Heq. rewrite IH2 in Hlt.
        rewrite (proj2 (N.eqb_neq _ _)) in Hlt by lia.
        replace (Z.of_N n - 1) with k in Hlt by lia. exact Hlt.
      * apply Hk2. lia.
Qed.

Lemma cycle_checked : cycle_ok 146097 = true.
Proof. vm_compute. reflexivity. Qed.

Lemma pad2_checked : all_from pad2_ok 0 100 = true.
Proof. vm_compute. reflexivity. Qed.

Lemma pad4_checked : all_from pad4_ok 0 10000 = true.
Proof. vm_compute. reflexivity. Qed.

Lemma cycle_ok_spec n doe :
  cycle_ok n = true -> 0 <= doe < Z.of_N n ->
  date_in_cycle (cycle_date doe) = true
  /\ date_key (cycle_date doe)
     < (if doe =? Z.of_N n - 1 then date_key (400, 3, 1)
        else date_key (cycle_date (doe + 1))).
Proof.
  unfold cycle_ok. intros Hc Hd.
  destruct (cycle_iter n) as (_ & H2 & H3). cbv zeta in Hc, H2, H3.
  destruct (N.iter n cycle_step (0, -1, true)) as [[j prev] ok]. simpl in *.
  apply andb_true_iff in Hc as [Hok Hlast%Z.ltb_lt].
  destruct (H3 Hok doe) as [Hin Hnext]; [lia |]. split; [exact Hin |].
  destruct (doe =? Z.of_N n - 1) eqn:E.
  - apply Z.eqb_eq in E as ->. subst prev.
    rewrite (proj2 (N.eqb_neq _ _)) in Hlast by lia. exact Hlast.
  - apply Z.eqb_neq in E. apply Hnext. lia.
Qed.

(** Every day of the cycle has a well-formed date, and the next day a later
    one. *)
Lemma cycle_spec doe :
  0 <= doe <= 146096 ->
  date_in_cycle (cycle_date doe) = true
  /\ date_key (cycle_date doe)
     < (if doe =? 146096 then date_key (400, 3, 1)
        else date_key (cycle_date (doe + 1))).
Proof.
  intros Hd. apply (cycle_ok_spec 146097 doe cycle_checked). lia.
Qed.

(** A date is its date in the 400-year cycle, so many cycles later. *)
Lemma civil_from_days_cycle z :
  let era := (z + 719468) / 146097 in
  let doe := z + 719468 - era * 146097 in
  civil_from_days z = (let '(y, m, d) := cycle_date doe in (y + era * 400, m, d)).
Proof.
  intros era doe. unfold cycle_date, civil_from_days. cbv zeta.
  fold era. fold doe.
  assert (Hd : 0 <= doe < 146097) by (subst doe era; Z.div_mod_to_equations; lia).
  replace (doe - 719468 + 719468) with doe by lia.
  rewrite (Z.div_small doe 146097) by lia.
  replace (doe - 0 * 146097) with doe by lia.
  set (yoe := (doe - doe / 1460 + doe / 36524 - doe / 146096) / 365).
  set (doy := doe - (365 * yoe + yoe / 4 - yoe / 100)).
  set (mp := (5 * doy + 2) / 153).
  destruct (_ <=? 2); do 2 f_equal; lia.
Qed.

Lemma date_key_shift y m d k : date_key (y + k * 400, m, d) = date_key (y, m, d) + k * 204800.
Proof. unfold date_key. lia. Qed.

(** The next day has a later date. *)
Lemma date_key_next z :
  date_key (civil_from_days z) < date_key (civil_from_days (z + 1)).
Proof.
  rewrite (civil_from_days_cycle z), (civil_from_days_cycle (z + 1)). cbv zeta.
  set (era := (z + 719468) / 146097). set (doe := z + 719468 - era * 146097).
  assert (Hd : 0 <= doe <= 146096) by (subst doe era; Z.div_mod_to_equations; lia).
  destruct (cycle_spec doe Hd) as [_ Hnext].
  destruct (doe =? 146096) eqn:E.
  - apply Z.eqb_eq in E.
    assert (He : (z + 1 + 719468) / 146097 = era + 1)
      by (subst doe era; Z.div_mod_to_equations; lia).
    rewrite He. replace (z + 1 + 719468 - (era + 1) * 146097) with 0 by lia.
    change (cycle_date 0) with (0, 3, 1).
    destruct (cycle_date doe) as [[y m] d]. rewrite !date_key_shift.
    unfold date_key in *. lia.
  - apply Z.eqb_neq in E.
    assert (He : (z + 1 + 719468) / 146097 = era)
      by (subst doe era; Z.div_mod_to_equations; lia).
    rewrite He. replace (z + 1 + 719468 - era * 146097) with (doe + 1) by lia.
    destruct (cycle_date doe) as [[y m] d].
    destruct (cycle_date (doe + 1)) as [[y' m'] d']. rewrite !date_key_shift. lia.
Qed.

Lemma date_key_mono z1 z2 :
  z1 < z2 -> date_key (civil_from_days z1) < date_key (civil_from_days z2).
Proof.
  intros Hlt. replace z2 with (z1 + 1 + (z2 - z1 - 1)) by lia.
  assert (Hn : 0 <= z2 - z1 - 1) by lia. revert Hn.
  generalize (z2 - z1 - 1). clear Hlt z2. intros n Hn. pattern n.
  apply natlike_ind; [| |exact Hn].
  - rewrite Z.add_0_r. apply date_key_next.
  - intros k Hk IH. replace (z1 + 1 + Z.succ k) with (z1 + 1 + k + 1) by lia.
    pose proof (date_key_next (z1 + 1 + k)). lia.
Qed.

(** Dates are ordered as their days are. *)
Lemma date_key_compare z1 z2 :
  (date_key (civil_from_days z1) ?= date_key (civil_from_days z2)) = (z1 ?= z2).
Proof.
  destruct (Z.compare_spec z1 z2) as [->|Hlt|Hgt].
  - apply Z.compare_refl.
  - apply Z.compare_lt_iff. by apply date_key_mono.
  - apply Z.compare_gt_iff. by apply date_key_mono.
Qed.

(** Year, month and day of a day between 0001-01-01 and 9999-12-31. *)
Lemma civil_from_days_bounds z y m d :
  -719162 <= z <= 2932896 ->
  civil_from_days z = (y, m, d) ->
  1 <= y <= 9999 /\ 1 <= m <= 12 /\ 1 <= d <= 31.
Proof.
  intros Hz Hc.
  assert (Hmd : 1 <= m <= 12 /\ 1 <= d <= 31).
  { rewrite (civil_from_days_cycle z) in Hc. cbv zeta in Hc.
    set (era := (z + 719468) / 146097) in *.
    set (doe := z + 719468 - era * 146097) in *.
    assert (Hd : 0 <= doe <= 146096) by (subst doe era; Z.div_mod_to_equations; lia).
    destruct (cycle_spec doe Hd) as [Hin _].
    destruct (cycle_date doe) as [[y0 m0] d0]. injection Hc as <- <- <-.
    unfold date_in_cycle in Hin.
    repeat (apply andb_true_iff in Hin as [Hin ?]).
    lia. }
  split; [|exact Hmd].
  assert (Hlo : date_key (1, 1, 1) <= date_key (y, m, d)).
  { change (1, 1, 1) with (civil_from_days (-719162)). rewrite <- Hc.
    destruct (decide (z = -719162)) as [->|Hne]; [lia |].
    apply Z.lt_le_incl, date_key_mono. lia. }
  assert (Hhi : date_key (y, m, d) <= date_key (9999, 12, 31)).
  { change (9999, 12, 31) with (civil_from_days 2932896). rewrite <- Hc.
    destruct (decide (z = 2932896)) as [->|Hne]; [lia |].
    apply Z.lt_le_incl, date_key_mono. lia. }
  unfold date_key in Hlo, Hhi. lia.
Qed.

Lemma compare_app_same_length (x y s t : string) :
  String.length x = String.length y ->
  String.compare (x ++ s) (y ++ t)
  = match String.compare x y with Eq => String.compare s t | c => c end.
Proof.
  revert y. induction x as [|a x IH]; intros [|b y]; simpl; try done.
  intros [= Hl]. destruct (Ascii.compare a b); [by apply IH | done | done].
Qed.

Lemma pad2_spec a b :
  0 <= a < 100 -> 0 <= b < 100 ->
  String.length (pad 2 a) = 2%nat
  /\ String.compare (pad 2 a) (pad 2 b) = (a ?= b).
Proof.
  intros Ha Hb.
  pose proof (all_from_spec _ _ _ pad2_checked a ltac:(lia)) as Hp.
  unfold pad2_ok in Hp. apply andb_true_iff in Hp as [Hl Hc].
  split; [by apply Nat.eqb_eq |].
  pose proof (all_from_spec _ _ _ Hc b ltac:(lia)) as Hab. simpl in Hab.
  by destruct (String.compare _ _), (a ?= b).
Qed.

Lemma pad4_spec y : 0 <= y < 10000 -> pad 4 y = (pad 2 (y / 100) ++ pad 2 (y mod 100))%string.
Proof.
  intros Hy. apply String.eqb_eq.
  exact (all_from_spec _ _ _ pad4_checked y ltac:(lia)).
Qed.

(** Date texts sort as the days they name, whatever follows them. *)
Lemma date_text_compare s1 s2 (x1 x2 : string) :
  in_calendar s1 -> in_calendar s2 ->
  String.compare (date_text s1 ++ x1) (date_text s2 ++ x2)
  = match s1 / 86400 ?= s2 / 86400 with Eq => String.compare x1 x2 | c => c end.
Proof.
  unfold in_calendar. intros H1 H2. unfold date_text.
  rewrite <- (date_key_compare (s1 / 86400) (s2 / 86400)).
  destruct (civil_from_days (s1 / 86400)) as [[y1 m1] d1] eqn:E1.
  destruct (civil_from_days (s2 / 86400)) as [[y2 m2] d2] eqn:E2.
  apply civil_from_days_bounds in E1 as (Hy1 & Hm1 & Hd1);
    [|Z.div_mod_to_equations; lia].
  apply civil_from_days_bounds in E2 as (Hy2 & Hm2 & Hd2);
    [|Z.div_mod_to_equations; lia].
  rewrite !pad4_spec by lia. rewrite !str_app_assoc.
  destruct (pad2_spec (y1 / 100) (y2 / 100)) as [L1 C1];
    [Z.div_mod_to_equations; lia .. |].
  destruct (pad2_spec (y1 mod 100) (y2 mod 100)) as [L2 C2];
    [Z.div_mod_to_equations; lia .. |].
  destruct (pad2_spec m1 m2) as [L3 C3]; [lia .. |].
  destruct (pad2_spec d1 d2) as [L4 C4]; [lia .. |].
  destruct (pad2_spec (y2 / 100) (y2 / 100)) as [L1' _];
    [Z.div_mod_to_equations; lia .. |].
  destruct (pad2_spec (y2 mod 100) (y2 mod 100)) as [L2' _];
    [Z.div_mod_to_equations; lia .. |].
  destruct (pad2_spec m2 m2) as [L3' _]; [lia .. |].
  destruct (pad2_spec d2 d2) as [L4' _]; [lia .. |].
  rewrite compare_app_same_length, C1 by congruence.
  rewrite compare_app_same_length, C2 by congruence.
  rewrite (compare_app_same_length "-" "-") by done.
  rewrite compare_app_same_length, C3 by congruence.
  rewrite (compare_app_same_length "-" "-") by done.
  rewrite compare_app_same_length, C4 by congruence.
  change (String.compare "-" "-") with Eq. cbv beta iota.
  unfold date_key.
  destruct (Z.compare_spec (y1 / 100) (y2 / 100));
    destruct (Z.compare_spec (y1 mod 100) (y2 mod 100));
    destruct (Z.compare_spec m1 m2);
    destruct (Z.compare_spec d1 d2);
    destruct (Z.compare_spec ((y1 * 16 + m1) * 32 + d1) ((y2 * 16 + m2) * 32 + d2));
    try reflexivity; exfalso; Z.div_mod_to_equations; lia.
Qed.

(** What the [WHERE] clause of the cleanup decides for a run whose start
    was stored by [log_task_run]: is its day before the day of the cutoff? *)
Lemma older_than_day cutoff t r :
  r_start_time r = Some (isoformat (Naive t)) ->
  in_calendar (t / 1000000) -> in_calendar cutoff ->
  older_than (sqlite_datetime cutoff) r = (t / 1000000 / 86400 <? cutoff / 86400).
Proof.
  intros Hs Ht Hc. unfold older_than. rewrite Hs.
  unfold isoformat, sqlite_datetime, String.ltb. simpl local_us.
  rewrite date_text_compare by done. unfold Z.ltb.
  by destruct (_ ?= _).
Qed.

End DateFacts.

(** ** The scheduler, call by call *)

Section SchedulerCoverage.

Context `{Externals}.

Implicit Types (st : state) (c : clock) (task_id : string) (db : store).

Lemma get_all_schedules_lookup task_id st :
  get_all_schedules st !! task_id = get_task_schedule task_id st.
Proof.
  unfold get_all_schedules. rewrite map_lookup_imap.
  destruct (scheduled_tasks st !! task_id) eqn:E; simpl; [done |].
  by rewrite get_task_schedule_untracked.
Qed.

(** X12. After a [schedule_task] that returned true, the registry entry
    holds the description in [schedule] and the next run time in
    [next_run_time], its other fields being as before; on a working store
    [get_task_schedule] returns the job id, the schedule type, the
    specification, its description, the next run time and the trigger
    information of what was just scheduled (for a one-shot given as a naive
    date, the date made aware in the local time zone); on a failing store
    it returns [None] although the job is registered.
    [get_all_schedules] has the same answer under the task. *)
Theorem schedule_task_then_get c task_id spec start st st' :
  schedule_task c task_id spec start st = (true, st') ->
  exists task trigger nrt,
    tasks st !! task_id = Some task
    /\ parse (now c) spec start = Some trigger
    /\ job_next_run_time (engine_running st) trigger (now c) = Some nrt
    /\ (exists task',
          tasks st' !! task_id = Some task'
          /\ t_schedule task' = Some (get_human_readable spec)
          /\ t_next_run_time task' = nrt
          /\ t_status task' = t_status task /\ t_progress task' = t_progress task
          /\ t_result task' = t_result task /\ t_error task' = t_error task
          /\ t_updated_at task' = t_updated_at task)
    /\ (forall us,
          trigger = DateTrigger (Naive us) ->
          get_trigger_info trigger
          = DateInfo (isoformat (Aware us (local_utcoffset us))))
    /\ (db_ok (persistence st) = true ->
        get_task_schedule task_id st'
        = Some (ScheduleInfo task_id (job_id_at c task_id)
                  (SText (schedule_type_of trigger)) spec (get_human_readable spec)
                  (isoformat <$> nrt) (get_trigger_info trigger)))
    /\ (db_ok (persistence st) = false -> get_task_schedule task_id st' = None)
    /\ get_all_schedules st' !! task_id = get_task_schedule task_id st'.
Proof.
  intros Hr.
  destruct (schedule_task_cases c task_id spec start st)
    as [[Hf _]|[(task & trigger & Ht & Hp & Hn & Hf)
               |(task & trigger & nrt & st1 & Ht & Hp & Hn & Hf & Hj & Hs & Hdb & Hts & _)]];
    rewrite Hf in Hr; try discriminate. injection Hr as <-.
  exists task, trigger, nrt. split; [exact Ht |]. split; [exact Hp |].
  split; [exact Hn |]. split.
  { exists (with_schedule (Some (get_human_readable spec)) nrt task).
    split; [by rewrite Hts, lookup_insert_eq | apply with_schedule_fields]. }
  split; [by intros us -> |].
  split; [|split; [|apply get_all_schedules_lookup]].
  - intros Hok. unfold get_task_schedule.
    rewrite Hs, lookup_insert_eq. simpl. rewrite Hj, lookup_insert_eq. simpl.
    destruct (get_schedule_saved (utcnow c) task_id
                ("task_" ++ task_id ++ "_" ++ timestamp c) (schedule_type_of trigger)
                spec nrt (persistence st) Hok)
      as (r & Hg & _ & _ & Hty & Hv).
    rewrite Hdb, Hg. simpl. by rewrite Hty, Hv.
  - intros Hbad. unfold get_task_schedule.
    rewrite Hs, lookup_insert_eq. simpl. rewrite Hj, lookup_insert_eq. simpl.
    rewrite Hdb. unfold save_schedule, get_schedule. rewrite Hbad. simpl.
    by rewrite Hbad.
Qed.

Lemma job_id_at_inj c1 c2 task_id :
  timestamp c1 <> timestamp c2 -> job_id_at c1 task_id <> job_id_at c2 task_id.
Proof.
  unfold job_id_at. intros Hne Heq. apply Hne.
  repeat apply (inj (String.app _)) in Heq. exact Heq.
Qed.

Lemma job_id_at_not_cleanup ts task_id : "task_" ++ task_id ++ "_" ++ ts <> "cleanup_task".
Proof. done. Qed.

(** X13. Scheduling a task a second time, at another time, does not
    remove its first job: the tracking entry then names the second job, the
    first stays in the engine bound to the task, and a [cancel_task]
    removes the second job only, so the task is reported as not scheduled
    while its first job is still there. *)
Theorem reschedule_leaves_first_job c1 c2 task_id spec1 spec2 start1 start2 st st1 st2 :
  timestamp c1 <> timestamp c2 ->
  schedule_task c1 task_id spec1 start1 st = (true, st1) ->
  schedule_task c2 task_id spec2 start2 st1 = (true, st2) ->
  exists j1 st3,
    jobs st1 !! job_id_at c1 task_id = Some j1
    /\ j_func j1 = ExecuteTask task_id
    /\ scheduled_tasks st2 !! task_id = Some (job_id_at c2 task_id)
    /\ jobs st2 !! job_id_at c1 task_id = Some j1
    /\ cancel_task task_id st2 = (true, st3)
    /\ scheduled_tasks st3 !! task_id = None
    /\ get_task_schedule task_id st3 = None
    /\ jobs st3 !! job_id_at c2 task_id = None
    /\ jobs st3 !! job_id_at c1 task_id = Some j1.
Proof.
  intros Hts H1 H2. pose proof (job_id_at_inj c1 c2 task_id Hts) as Hne.
  destruct (schedule_task_cases c1 task_id spec1 start1 st)
    as [[Hf _]|[(task & trigger & _ & _ & _ & Hf)
               |(task & trigger & nrt & st1' & _ & _ & _ & Hf & Hj1 & _)]];
    rewrite Hf in H1; try discriminate. injection H1 as <-.
  destruct (schedule_task_cases c2 task_id spec2 start2 st1')
    as [[Hf2 _]|[(task2 & trigger2 & _ & _ & _ & Hf2)
               |(task2 & trigger2 & nrt2 & st2' & _ & _ & _ & Hf2 & Hj2 & Hs2 & _)]];
    rewrite Hf2 in H2; try discriminate. injection H2 as <-.
  fold (job_id_at c1 task_id) in Hj1. fold (job_id_at c2 task_id) in Hj2, Hs2.
  assert (Hs : scheduled_tasks st2' !! task_id = Some (job_id_at c2 task_id))
    by (by rewrite Hs2, lookup_insert_eq).
  destruct (cancel_task_tracked task_id _ st2' Hs)
    as (st3 & Hc & Hj3 & Hs3 & _).
  exists (Job (ExecuteTask task_id) trigger (Some nrt)), st3.
  split; [by rewrite Hj1, lookup_insert_eq |]. split; [done |].
  split; [exact Hs |].
  split; [by rewrite Hj2, lookup_insert_ne, Hj1, lookup_insert_eq |].
  split; [exact Hc |].
  split; [by rewrite Hs3, lookup_delete_eq |].
  split; [apply get_task_schedule_untracked; by rewrite Hs3, lookup_delete_eq |].
  split; [by rewrite Hj3, lookup_delete_eq |].
  by rewrite Hj3, lookup_delete_ne, Hj2, lookup_insert_ne, Hj1, lookup_insert_eq.
Qed.

Lemma filter_updated task_id j t v n rows :
  filter (fun r => s_task_id r ≠ task_id) (map (update_schedule task_id j t v n) rows)
  = filter (fun r => s_task_id r ≠ task_id) rows.
Proof.
  induction rows as [|r rows IH]; [done |]. simpl map. rewrite !filter_cons, IH.
  assert (Hs : s_task_id (update_schedule task_id j t v n r) = s_task_id r)
    by (unfold update_schedule; by destruct (String.eqb _ _)).
  rewrite Hs. case_decide as Hd; [|done]. f_equal.
  unfold update_schedule. by rewrite (proj2 (String.eqb_neq _ _) Hd).
Qed.

(** What [save_schedule] followed by [delete_schedule] leaves of the table. *)
Lemma delete_saved utcnow task_id job_id ty value nrt db :
  schedules (delete_schedule task_id (save_schedule utcnow task_id job_id ty value nrt db))
  = if db_ok db then filter (fun r => s_task_id r ≠ task_id) (schedules db)
    else schedules db.
Proof.
  unfold delete_schedule, save_schedule.
  destruct (db_ok db) eqn:Hok; simpl; [|by rewrite Hok].
  destruct (has_schedule task_id (schedules db)); simpl; rewrite Hok; simpl.
  - apply filter_updated.
  - rewrite filter_app, filter_cons, decide_False by (by intros ?).
    by rewrite filter_nil, app_nil_r.
Qed.

(** X14. [cancel_task] after a [schedule_task] that returned true
    succeeds and leaves no job, no tracking entry and no row of the task;
    the registry entry has [schedule] and [next_run_time] cleared and its
    other fields as before, and the running set and the run history are as
    before.  For a task that had no schedule
    before, the engine's jobs, the tracking map and the table are back to
    what they were. *)
Theorem schedule_then_cancel c task_id spec start st st1 :
  schedule_task c task_id spec start st = (true, st1) ->
  exists task st2,
    tasks st !! task_id = Some task
    /\ cancel_task task_id st1 = (true, st2)
    /\ jobs st2 = delete (job_id_at c task_id) (jobs st)
    /\ scheduled_tasks st2 = delete task_id (scheduled_tasks st)
    /\ schedules (persistence st2)
       = (if db_ok (persistence st)
          then filter (fun r => s_task_id r ≠ task_id) (schedules (persistence st))
          else schedules (persistence st))
    /\ task_runs (persistence st2) = task_runs (persistence st)
    /\ (exists task2,
          tasks st2 = <[task_id := task2]> (tasks st)
          /\ t_schedule task2 = None /\ t_next_run_time task2 = None
          /\ t_status task2 = t_status task /\ t_progress task2 = t_progress task
          /\ t_result task2 = t_result task /\ t_error task2 = t_error task
          /\ t_updated_at task2 = t_updated_at task)
    /\ running_tasks st2 = running_tasks st
    /\ get_task_schedule task_id st2 = None
    /\ (scheduled_tasks st !! task_id = None ->
        jobs st !! job_id_at c task_id = None ->
        get_schedule task_id (persistence st) = None ->
        jobs st2 = jobs st /\ scheduled_tasks st2 = scheduled_tasks st
        /\ schedules (persistence st2) = schedules (persistence st)).
Proof.
  intros Hr.
  destruct (schedule_task_cases c task_id spec start st)
    as [[Hf _]|[(task & trigger & Ht & Hp & Hn & Hf)
               |(task & trigger & nrt & st1' & Ht & Hp & Hn & Hf & Hj & Hs & Hdb & Hts
                 & _ & Hrun & _)]];
    rewrite Hf in Hr; try discriminate. injection Hr as <-.
  fold (job_id_at c task_id) in Hj, Hs.
  assert (Htr : scheduled_tasks st1' !! task_id = Some (job_id_at c task_id))
    by (by rewrite Hs, lookup_insert_eq).
  destruct (cancel_task_tracked task_id _ st1' Htr)
    as (st2 & Hc & Hj2 & Hs2 & Hp2 & Ht2 & _ & Hr2 & _).
  assert (Hjobs : jobs st2 = delete (job_id_at c task_id) (jobs st))
    by (by rewrite Hj2, Hj, delete_insert_eq).
  assert (Hsched : scheduled_tasks st2 = delete task_id (scheduled_tasks st))
    by (by rewrite Hs2, Hs, delete_insert_eq).
  assert (Hrows : schedules (persistence st2)
                  = if db_ok (persistence st)
                    then filter (fun r => s_task_id r ≠ task_id) (schedules (persistence st))
                    else schedules (persistence st))
    by (rewrite Hp2, Hdb; apply delete_saved).
  exists task, st2. split; [exact Ht |]. split; [exact Hc |].
  split; [exact Hjobs |]. split; [exact Hsched |]. split; [exact Hrows |].
  split.
  { rewrite Hp2, Hdb. unfold delete_schedule.
    destruct (db_ok (save_schedule _ _ _ _ _ _ _)); simpl; apply save_schedule_frame. }
  split.
  { exists (with_schedule None None task). split; [| apply with_schedule_fields].
    rewrite Ht2, Hts. apply map_eq. intros k. rewrite lookup_alter.
    destruct (decide (k = task_id)) as [->|Hne].
    - by rewrite decide_True, !lookup_insert_eq.
    - rewrite decide_False by done. by rewrite !lookup_insert_ne. }
  split; [by rewrite Hr2, Hrun |].
  split; [apply get_task_schedule_untracked; by rewrite Hs2, lookup_delete_eq |].
  intros Hnt Hnj Hnr. rewrite Hjobs, Hsched, Hrows.
  split; [by apply delete_id |]. split; [by apply delete_id |].
  destruct (db_ok (persistence st)) eqn:Hok; [|done].
  apply filter_absent. unfold get_schedule in Hnr. by rewrite Hok in Hnr.
Qed.

Lemma log_task_run_schedules task_id status start_time end_time error db :
  schedules (log_task_run task_id status start_time end_time error db) = schedules db.
Proof. unfold log_task_run. by destruct (db_ok db). Qed.

Lemma cleanup_old_runs_schedules utcnow days db :
  schedules (cleanup_old_runs utcnow days db) = schedules db.
Proof. unfold cleanup_old_runs. destruct (db_ok db); [|done]. by destruct (_ <? _)%Z. Qed.

(** The timer callback and the cleanup leave the engine's jobs, the
    tracking map and the table of schedules alone. *)
Lemma execute_begin_frame c task_id st :
  let st' := (execute_begin c task_id st).2 in
  jobs st' = jobs st /\ scheduled_tasks st' = scheduled_tasks st
  /\ schedules (persistence st') = schedules (persistence st).
Proof.
  unfold execute_begin. destruct (tasks st !! task_id); [|done].
  case_decide; [done |]. simpl. by rewrite log_task_run_schedules.
Qed.

Lemma execute_failed_frame c task_id start_time message st :
  let st' := execute_failed c task_id start_time message st in
  jobs st' = jobs st /\ scheduled_tasks st' = scheduled_tasks st
  /\ schedules (persistence st') = schedules (persistence st).
Proof.
  unfold execute_failed. simpl. case_decide; simpl; by rewrite log_task_run_schedules.
Qed.

Lemma execute_resume_frame c task_id start_time outcome st :
  let st' := execute_resume c task_id start_time outcome st in
  jobs st' = jobs st /\ scheduled_tasks st' = scheduled_tasks st
  /\ schedules (persistence st') = schedules (persistence st).
Proof.
  destruct outcome as [status error|message|]; [|apply execute_failed_frame|done].
  unfold execute_resume. cbv zeta. case_decide.
  - simpl. by rewrite log_task_run_schedules.
  - match goal with
    | |- context [execute_failed ?c ?t ?s ?m ?x] =>
        destruct (execute_failed_frame c t s m x) as (Hj & Hs & Hp)
    end.
    cbv zeta in Hj, Hs, Hp. rewrite Hj, Hs, Hp. simpl.
    by rewrite log_task_run_schedules.
Qed.

Lemma step_one_row_per_task st k :
  NoDup (task_ids (persistence st)) -> NoDup (task_ids (persistence (step st k))).
Proof.
  intros Hnd. destruct k as [c task_id spec start|task_id|c task_id
                            |c task_id start_time outcome|c days|registry]; simpl.
  - destruct (schedule_task_cases c task_id spec start st)
      as [[Hf _]|[(task & trigger & _ & _ & _ & Hf)
                 |(task & trigger & nrt & st' & _ & _ & _ & Hf & _ & _ & Hdb & _)]];
      rewrite Hf; simpl; [done | done |].
    rewrite Hdb. by apply save_schedule_NoDup.
  - destruct (scheduled_tasks st !! task_id) as [job_id|] eqn:Es.
    + destruct (cancel_task_tracked task_id job_id st Es) as (st' & Hc & _ & _ & Hp & _).
      rewrite Hc. simpl. rewrite Hp. by apply delete_schedule_NoDup.
    + by rewrite cancel_task_untracked.
  - unfold task_ids.
    by rewrite (proj2 (proj2 (execute_begin_frame c task_id st))).
  - unfold task_ids.
    by rewrite (proj2 (proj2 (execute_resume_frame c task_id start_time outcome st))).
  - unfold task_ids, _cleanup_task. simpl. by rewrite cleanup_old_runs_schedules.
  - done.
Qed.

(** X15. Whatever calls, timer callbacks, cleanups and registry changes
    follow each other, a table of schedules with one row per task keeps one
    row per task. *)
Theorem run_keeps_one_row_per_task calls st :
  NoDup (task_ids (persistence st)) ->
  NoDup (task_ids (persistence (run st calls))).
Proof.
  unfold run. revert st. induction calls as [|k calls IH]; intros st Hnd; [done |].
  simpl. apply IH. by apply step_one_row_per_task.
Qed.

Lemma step_tracked_ids st k :
  tracked_ids_wf st ->
  tracked_ids_wf (step st k)
  /\ jobs (step st k) !! "cleanup_task" = jobs st !! "cleanup_task".
Proof.
  intros Hwf. destruct k as [c task_id spec start|task_id|c task_id
                            |c task_id start_time outcome|c days|registry]; simpl.
  - assert (Hins : tracked_ids_wf
                     (set_scheduled_tasks
                        (<[task_id := "task_" ++ task_id ++ "_" ++ timestamp c]>
                           (scheduled_tasks st)) st)).
    { intros t j. simpl. rewrite lookup_insert.
      destruct (decide (task_id = t)) as [->|Hne]; [|apply Hwf].
      intros [= <-]. eauto. }
    destruct (schedule_task_cases c task_id spec start st)
      as [[Hf _]|[(task & trigger & _ & _ & _ & Hf)
                 |(task & trigger & nrt & st' & _ & _ & _ & Hf & Hj & Hs & _)]];
      rewrite Hf; simpl; [done | |].
    + split; [exact Hins | by rewrite lookup_insert_ne].
    + split; [|by rewrite Hj, lookup_insert_ne].
      intros t j. rewrite Hs. apply Hins.
  - destruct (scheduled_tasks st !! task_id) as [job_id|] eqn:Es.
    + destruct (cancel_task_tracked task_id job_id st Es) as (st' & Hc & Hj & Hs & _).
      rewrite Hc. simpl. split.
      * intros t j. rewrite Hs. intros [_ Ht]%lookup_delete_Some. by apply Hwf.
      * rewrite Hj. apply lookup_delete_ne.
        destruct (Hwf task_id job_id Es) as [ts ->]. done.
    + by rewrite cancel_task_untracked.
  - destruct (execute_begin_frame c task_id st) as (Hj & Hs & _). cbv zeta in Hj, Hs.
    split; [|by rewrite Hj]. intros t j. rewrite Hs. apply Hwf.
  - destruct (execute_resume_frame c task_id start_time outcome st) as (Hj & Hs & _).
    cbv zeta in Hj, Hs. split; [|by rewrite Hj]. intros t j. rewrite Hs. apply Hwf.
  - done.
  - done.
Qed.

(** X16. Every tracked job id has the form ["task_<id>_<time>"], through
    any sequence of steps, and so no step replaces or removes the job
    registered as ["cleanup_task"]. *)
Theorem run_keeps_cleanup_job calls st :
  tracked_ids_wf st ->
  tracked_ids_wf (run st calls)
  /\ jobs (run st calls) !! "cleanup_task" = jobs st !! "cleanup_task".
Proof.
  unfold run. revert st. induction calls as [|k calls IH]; intros st Hwf; [done |].
  simpl. destruct (step_tracked_ids st k Hwf) as [Hwf' Hc].
  destruct (IH _ Hwf') as [Hw Hj]. split; [exact Hw | by rewrite Hj].
Qed.

(** X17. A timer callback for a task that is not in the registry changes
    nothing.  For a registered task that is not running, on a working
    store, and an executor call that leaves the store, the running set and
    the events alone, the invocation appends a row with status ["running"],
    which is never updated, and emits [task_started].  When the executor
    call returns or raises an [Exception], a second row follows with the
    final status, the start, the end and the error (["failed"] with the
    message when the executor raised), [task_finished] or [task_error] is
    emitted, and the running set is as before.  When the call is cancelled,
    nothing more is written: the history ends with the ["running"] row, no
    second event is emitted, and the task stays in the running set.  The
    schedules are as they were in every case. *)
Theorem execute_task_run_log c_begin c_end executor task_id st :
  (tasks st !! task_id = None ->
   _execute_task c_begin c_end executor task_id st = st)
  /\ (forall task,
        tasks st !! task_id = Some task ->
        task_id ∉ running_tasks st ->
        db_ok (persistence st) = true ->
        (forall st0,
            persistence (executor task_id st0).2 = persistence st0
            /\ running_tasks (executor task_id st0).2 = running_tasks st0
            /\ emitted (executor task_id st0).2 = emitted st0) ->
        let st' := _execute_task c_begin c_end executor task_id st in
        let started := isoformat (Naive (now c_begin)) in
        let ended := isoformat (Naive (now c_end)) in
        let seq := task_runs_seq (persistence st) in
        let running_row := RunRow (seq + 1) task_id "running" (Some started) None None in
        match (executor task_id (execute_begin c_begin task_id st).2).1 with
        | Returned status error =>
            task_runs (persistence st')
            = (task_runs (persistence st) ++
                 [running_row;
                  RunRow (seq + 2) task_id status (Some started) (Some ended) error])%list
            /\ emitted st'
               = (emitted st ++
                    [task_started task_id started;
                     task_finished task_id status started ended error])%list
            /\ running_tasks st' = running_tasks st
        | Raised message =>
            task_runs (persistence st')
            = (task_runs (persistence st) ++
                 [running_row;
                  RunRow (seq + 2) task_id "failed" (Some started) (Some ended)
                    (Some message)])%list
            /\ emitted st'
               = (emitted st ++
                    [task_started task_id started; task_error task_id message ended])%list
            /\ running_tasks st' = running_tasks st
        | Cancelled =>
            task_runs (persistence st') = (task_runs (persistence st) ++ [running_row])%list
            /\ emitted st' = (emitted st ++ [task_started task_id started])%list
            /\ running_tasks st' = {[task_id]} ∪ running_tasks st
        end
        /\ schedules (persistence st') = schedules (persistence st)).
Proof.
  split.
  { intros Hn. unfold _execute_task, execute_begin. by rewrite Hn. }
  intros task Ht Hnr Hok Hquiet. cbv zeta. unfold _execute_task.
  destruct (execute_begin c_begin task_id st) as [f st1] eqn:Eb.
  unfold execute_begin in Eb. rewrite Ht, decide_False in Eb by done.
  cbv zeta in Eb. injection Eb as <- Hst1. simpl snd.
  destruct (Hquiet st1) as (Hp & Hr & He).
  destruct (executor task_id st1) as [outcome st2]. simpl in Hp, Hr, He. simpl fst.
  assert (Hin : task_id ∈ running_tasks st2)
    by (rewrite Hr, <- Hst1; simpl; set_solver).
  assert (Hok1 : db_ok (persistence st1) = true)
    by (rewrite <- Hst1; simpl; unfold log_task_run; by rewrite Hok).
  assert (Hseq : task_runs_seq (persistence st1) = (task_runs_seq (persistence st) + 1)%Z)
    by (rewrite <- Hst1; simpl; unfold log_task_run; by rewrite Hok).
  assert (Hruns : task_runs (persistence st1)
                  = (task_runs (persistence st) ++
                       [RunRow (task_runs_seq (persistence st) + 1) task_id "running"
                          (Some (isoformat (Naive (now c_begin)))) None None])%list)
    by (rewrite <- Hst1; simpl; unfold log_task_run; by rewrite Hok).
  assert (Hsch : schedules (persistence st1) = schedules (persistence st))
    by (rewrite <- Hst1; simpl; unfold log_task_run; by rewrite Hok).
  assert (Hem : emitted st1
                = (emitted st ++ [task_started task_id (isoformat (Naive (now c_begin)))])%list)
    by (by rewrite <- Hst1).
  assert (Hrun1 : running_tasks st1 = {[task_id]} ∪ running_tasks st)
    by (by rewrite <- Hst1).
  clear Hst1.
  destruct outcome as [status error|message|].
  - unfold execute_resume. simpl. rewrite decide_True by done. simpl.
    unfold log_task_run. rewrite !Hp, Hok1. simpl.
    rewrite Hruns, Hseq, Hsch, He, Hem, Hr, Hrun1.
    rewrite <- !app_assoc. simpl.
    replace (task_runs_seq (persistence st) + 1 + 1)%Z
      with (task_runs_seq (persistence st) + 2)%Z by lia.
    repeat split; try done. set_solver.
  - unfold execute_resume, execute_failed. simpl. rewrite decide_True by done. simpl.
    unfold log_task_run. rewrite !Hp, Hok1. simpl.
    rewrite Hruns, Hseq, Hsch, He, Hem, Hr, Hrun1.
    rewrite <- !app_assoc. simpl.
    replace (task_runs_seq (persistence st) + 1 + 1)%Z
      with (task_runs_seq (persistence st) + 2)%Z by lia.
    repeat split; try done. set_solver.
  - simpl. by rewrite Hp, Hruns, Hsch, He, Hem, Hr, Hrun1.
Qed.

(** What a reload of one row leaves of the store. *)
Lemma reload_row_keeps c st r :
  db_ok (persistence st) = true ->
  has_schedule (s_task_id r) (schedules (persistence st)) = true ->
  let st' := reload_row c st r in
  db_ok (persistence st') = true
  /\ row_identity <$> schedules (persistence st') = row_identity <$> schedules (persistence st)
  /\ schedules_seq (persistence st') = schedules_seq (persistence st)
  /\ task_runs (persistence st') = task_runs (persistence st)
  /\ running_tasks st' = running_tasks st.
Proof.
  intros Hok Hhas. unfold reload_row.
  destruct (schedule_task_cases c (s_task_id r) (s_value r) None st)
    as [[Hf _]|[(task & trigger & _ & _ & _ & Hf)
               |(task & trigger & nrt & st1 & _ & _ & _ & Hf & _ & _ & Hdb & _ & _ & Hrun & _)]];
    rewrite Hf; simpl; [done | done |].
  rewrite Hdb, Hrun.
  destruct (save_schedule_frame (utcnow c) (s_task_id r)
              ("task_" ++ s_task_id r ++ "_" ++ timestamp c) (schedule_type_of trigger)
              (s_value r) nrt (persistence st)) as (-> & -> & _).
  destruct (has_schedule_find _ _ Hhas) as [r0 Hr0].
  destruct (save_schedule_existing (utcnow c) (s_task_id r)
              ("task_" ++ s_task_id r ++ "_" ++ timestamp c) (schedule_type_of trigger)
              (s_value r) nrt (persistence st) r0 Hok) as (_ & -> & ->); [|done].
  unfold get_schedule. by rewrite Hok.
Qed.

Lemma foldl_reload_keeps c rows st :
  db_ok (persistence st) = true ->
  (forall r, r ∈ rows -> has_schedule (s_task_id r) (schedules (persistence st)) = true) ->
  let st' := foldl (reload_row c) st rows in
  row_identity <$> schedules (persistence st') = row_identity <$> schedules (persistence st)
  /\ schedules_seq (persistence st') = schedules_seq (persistence st)
  /\ task_runs (persistence st') = task_runs (persistence st)
  /\ running_tasks st' = running_tasks st.
Proof.
  revert st. induction rows as [|r rows IH]; intros st Hok Hall; [done |].
  simpl. destruct (reload_row_keeps c st r Hok) as (Hok' & Hid & Hseq & Hruns & Hrun).
  { apply Hall. by left. }
  cbv zeta in *. destruct (IH (reload_row c st r) Hok') as (IH1 & IH2 & IH3 & IH4).
  { intros r' Hr'. rewrite (has_schedule_ids _ _ (schedules (persistence st))).
    - apply Hall. by right.
    - by apply row_identity_task_ids. }
  by rewrite IH1, IH2, IH3, IH4.
Qed.

(** X18. [_load_schedules] adds no row and removes none: the ids, tasks
    and creation times of the rows are as before, in the same order, so
    the row of a one-shot schedule whose date has passed stays in the
    table.  The id counter, the run history and the running set are
    untouched. *)
Theorem load_schedules_keeps_rows c st :
  let st' := _load_schedules c st in
  row_identity <$> schedules (persistence st') = row_identity <$> schedules (persistence st)
  /\ schedules_seq (persistence st') = schedules_seq (persistence st)
  /\ task_runs (persistence st') = task_runs (persistence st)
  /\ running_tasks st' = running_tasks st.
Proof.
  unfold _load_schedules. rewrite load_loop_foldl. unfold Persistence.get_all_schedules.
  destruct (db_ok (persistence st)) eqn:Hok; simpl; [|done].
  apply foldl_reload_keeps; [exact Hok |].
  intros r [_ Hin]%list_elem_of_filter. apply has_schedule_true.
  by apply list_elem_of_fmap_2.
Qed.

Lemma split1_absent sep s :
  all_chars (fun a => negb (Ascii.eqb a sep)) s = true -> split1 sep s = [s].
Proof.
  induction s as [|a s IH]; simpl; [done |].
  intros [Ha Hs]%andb_true_iff. apply negb_true_iff in Ha. by rewrite Ha, IH.
Qed.

(** A schedule value without a colon holds no date to compare. *)
Lemma past_date_no_colon now v :
  all_chars (fun a => negb (Ascii.eqb a ":")) v = true -> past_date now v = false.
Proof. intros Hv. unfold past_date. by rewrite split1_absent. Qed.

(** X19. A persisted schedule of the form ["in <N><unit>"] holds no date
    for [_load_schedules] to compare, so the row is handed to
    [schedule_task] whenever its task is registered, however old it is, and
    its delay then counts from the time of the reload. *)
Theorem reload_restarts_relative_schedule c st r task d u unit :
  tasks st !! s_task_id r = Some task ->
  s_value r = "in " ++ d ++ String u "" ->
  g_number d = true -> unit_of_char u = Some unit ->
  let run_date := (now c + Z.of_N (int d) * unit_seconds unit * 1000000)%Z in
  reloaded c (tasks st) r = true
  /\ parse (now c) (s_value r) None
     = (if (0 <? int d)%N && timedelta_ok unit (int d) && (run_date <=? max_us)%Z
        then Some (DateTrigger (Naive run_date)) else None).
Proof.
  intros Ht Hv Hd Hu run_date. split.
  - unfold reloaded. rewrite Ht, bool_decide_eq_true_2 by eauto. simpl.
    rewrite Hv, past_date_no_colon; [by rewrite andb_false_r |].
    simpl. rewrite all_chars_app. simpl.
    rewrite (g_number_without ":" d) by done.
    pose proof (unit_of_char_g_unit u unit Hu) as Hg. unfold g_unit in Hg.
    repeat apply orb_true_iff in Hg as [Hg|Hg]; by apply Ascii.eqb_eq in Hg as ->.
  - rewrite Hv. by apply parse_relative_digits.
Qed.

Lemma schedule_task_engine c task_id spec start st :
  engine_running (schedule_task c task_id spec start st).2 = engine_running st.
Proof.
  destruct (schedule_task_cases c task_id spec start st)
    as [[Hf _]|[(task & trigger & _ & _ & _ & Hf)
               |(task & trigger & nrt & st1 & _ & _ & _ & Hf & _ & _ & _ & _ & _ & _ & He)]];
    by rewrite Hf.
Qed.

Lemma foldl_reload_pending c rows st :
  engine_running st = false ->
  (forall t n, job_next_run_time false t n = None) ->
  let st' := foldl (reload_row c) st rows in
  persistence st' = persistence st /\ tasks st' = tasks st /\ emitted st' = emitted st
  /\ engine_running st' = false.
Proof.
  intros He Hunset. revert st He. induction rows as [|r rows IH]; intros st He; [done |].
  simpl.
  assert (Hone : persistence (reload_row c st r) = persistence st
                 /\ tasks (reload_row c st r) = tasks st
                 /\ emitted (reload_row c st r) = emitted st).
  { unfold reload_row.
    destruct (schedule_task_cases c (s_task_id r) (s_value r) None st)
      as [[Hf _]|[(task & trigger & _ & _ & _ & Hf)
                 |(task & trigger & nrt & st1 & _ & _ & Hn & _)]].
    - by rewrite Hf.
    - by rewrite Hf.
    - rewrite He, Hunset in Hn. discriminate. }
  destruct Hone as (Hp & Ht & Hm).
  destruct (IH (reload_row c st r)) as (IH1 & IH2 & IH3 & IH4).
  { unfold reload_row. by rewrite schedule_task_engine. }
  cbv zeta. by rewrite IH1, IH2, IH3, IH4.
Qed.

(** X20. [start] reloads the schedules before the engine runs.  With an
    engine that leaves [next_run_time] unset on a job added before it runs,
    [start] writes nothing to the store, changes no registry entry and
    emits no event: the tracking map is what [_load_schedules] made it, the
    engine runs, and the job ["cleanup_task"] is registered with the daily
    trigger. *)
Theorem load_before_engine_start c st :
  engine_running st = false ->
  (forall t n, job_next_run_time false t n = None) ->
  persistence (start c st) = persistence st
  /\ tasks (start c st) = tasks st
  /\ emitted (start c st) = emitted st
  /\ scheduled_tasks (start c st) = scheduled_tasks (_load_schedules c st)
  /\ engine_running (start c st) = true
  /\ jobs (start c st) !! "cleanup_task"
     = Some (Job CleanupTask (CronTrigger "0 0 * * *")
               (job_next_run_time true (CronTrigger "0 0 * * *") (now c))).
Proof.
  intros He Hunset.
  destruct (foldl_reload_pending c
              (filter (fun r => reloaded c (tasks st) r = true)
                 (Persistence.get_all_schedules (persistence st))) st He Hunset)
    as (Hp & Ht & Hm & _).
  cbv zeta in *. rewrite <- load_loop_foldl in Hp, Ht, Hm.
  fold (_load_schedules c st) in Hp, Ht, Hm.
  unfold start, _schedule_cleanup, engine_start. simpl.
  rewrite Hp, Ht, Hm, lookup_insert_eq. done.
Qed.

End SchedulerCoverage.

(** ** The cleanup of the run history *)

Section CleanupCoverage.

Context `{Externals}.

Implicit Types (st : state) (c : clock) (db : store).

Local Open Scope Z_scope.

(** X21. For a run whose start was stored by [log_task_run],
    [cleanup_old_runs] decides by the calendar day alone: the run is kept
    exactly when the day of its (local) start is not before the day of the
    (UTC) cutoff.  The time of day is never compared. *)
Theorem cleanup_deletes_by_calendar_day utcnow days db r t :
  db_ok db = true -> 0 <= days ->
  in_calendar (utcnow - days * 86400) ->
  r ∈ task_runs db ->
  r_start_time r = Some (isoformat (Naive t)) ->
  in_calendar (t / 1000000) ->
  (r ∈ task_runs (cleanup_old_runs utcnow days db)
   <-> (utcnow - days * 86400) / 86400 <= t / 1000000 / 86400).
Proof.
  intros Hok Hd Hc Hin Hs Ht.
  destruct (cleanup_old_runs_keeps utcnow days db Hok Hd) as [-> _].
  rewrite list_elem_of_filter, (older_than_day _ t r Hs Ht Hc), Z.ltb_ge. tauto.
Qed.

(** X22. [cleanup_old_runs] only removes rows of the run history: the
    schedules and both id counters are untouched, the rows left are in
    their order, a run without a start time is kept, a negative number of
    days or a failing store changes nothing, and a second cleanup at the
    same time removes nothing more.  [_cleanup_task] touches nothing but
    the store. *)
Theorem cleanup_old_runs_frame utcnow days db :
  let db' := cleanup_old_runs utcnow days db in
  schedules db' = schedules db
  /\ schedules_seq db' = schedules_seq db
  /\ task_runs_seq db' = task_runs_seq db
  /\ task_runs db' `sublist_of` task_runs db
  /\ (forall r, r ∈ task_runs db -> r_start_time r = None -> r ∈ task_runs db')
  /\ (days < 0 \/ db_ok db = false -> db' = db)
  /\ cleanup_old_runs utcnow days db' = db'
  /\ (forall c st,
        let st' := _cleanup_task c days st in
        tasks st' = tasks st /\ jobs st' = jobs st
        /\ scheduled_tasks st' = scheduled_tasks st
        /\ running_tasks st' = running_tasks st /\ emitted st' = emitted st).
Proof.
  cbv zeta. unfold cleanup_old_runs.
  destruct (db_ok db) eqn:Hok; simpl; [|rewrite ?Hok; simpl; repeat split; done].
  destruct (days <? 0) eqn:Hd; simpl; [rewrite ?Hok, ?Hd; simpl; repeat split; done |].
  rewrite ?Hok, ?Hd. simpl.
  split; [done |]. split; [done |]. split; [done |].
  split; [apply sublist_filter |]. split.
  { intros r Hin Hs. apply list_elem_of_filter. split; [|done].
    unfold older_than. by rewrite Hs. }
  split.
  { intros [Hneg|Hbad]; [|done]. apply Z.ltb_ge in Hd. lia. }
  split; [|done].
  unfold with_task_runs. simpl. f_equal.
  apply list_filter_filter_l. done.
Qed.

End CleanupCoverage.

(** ** The run history of a task *)

Section HistoryCoverage.

Context `{RowOrder}.

Implicit Types (db : store) (task_id : string) (l : list run_row).

(** X23. [get_task_runs], for any database engine that returns the rows
    ordered by start time: the rows returned are rows of the task, latest
    start first; a negative limit returns them all; a limit [n >= 0]
    returns [n] rows, or all if there are fewer, and none of the rows left
    out starts later than one returned; on a failing store, or with a limit
    outside 64 bits, the result is empty.  The scheduler's [get_task_runs]
    is that of the store. *)
Theorem get_task_runs_contract task_id limit db :
  (forall l, order_by_start_desc l ≡ₚ l) ->
  (forall l, StronglySorted (fun a b => start_ge a b = true) (order_by_start_desc l)) ->
  let rows := Persistence.get_task_runs task_id limit db in
  let all := filter (fun r => r_task_id r = task_id) (task_runs db) in
  (forall r, r ∈ rows -> r ∈ task_runs db /\ r_task_id r = task_id)
  /\ StronglySorted (fun a b => start_ge a b = true) rows
  /\ (db_ok db = true -> (- 2 ^ 63 <= limit < 0)%Z -> rows ≡ₚ all)
  /\ (db_ok db = true -> (0 <= limit < 2 ^ 63)%Z ->
      length rows = Z.to_nat limit `min` length all
      /\ exists rest,
          rows ++ rest ≡ₚ all
          /\ forall a b, a ∈ rows -> b ∈ rest -> start_ge a b = true)
  /\ (db_ok db = false \/ (limit < - 2 ^ 63)%Z \/ (2 ^ 63 <= limit)%Z -> rows = [])
  /\ (forall st, get_task_runs task_id limit st
                 = Persistence.get_task_runs task_id limit (persistence st)).
Proof.
  intros Hperm Hsorted rows all.
  set (sorted := order_by_start_desc all).
  assert (Hsub : forall r, r ∈ sorted -> r ∈ task_runs db /\ r_task_id r = task_id).
  { intros r Hr. subst sorted. rewrite (Hperm all) in Hr.
    by apply list_elem_of_filter in Hr as [? ?]. }
  assert (Hrows : rows = [] \/ rows = sorted
                  \/ (db_ok db = true /\ (0 <= limit < 2 ^ 63)%Z
                      /\ rows = take (Z.to_nat limit) sorted)).
  { subst rows. unfold Persistence.get_task_runs. destruct (db_ok db); [|by left].
    simpl. destruct (_ && _) eqn:E; [|by left]. simpl.
    apply andb_true_iff in E as [E1%Z.leb_le E2%Z.ltb_lt].
    destruct (limit <? 0)%Z eqn:E3; [by right; left |].
    apply Z.ltb_ge in E3. right; right. done. }
  split; [|split; [|split; [|split; [|split]]]].
  - intros r Hr. destruct Hrows as [Hr0|[Hr0|(_ & _ & Hr0)]]; rewrite Hr0 in Hr.
    + by apply elem_of_nil in Hr.
    + by apply Hsub.
    + apply Hsub. revert Hr. apply subseteq_take.
  - destruct Hrows as [->|[->|(_ & _ & ->)]].
    + constructor.
    + apply Hsorted.
    + apply (StronglySorted_app_1_l _ _ (drop (Z.to_nat limit) sorted)).
      rewrite take_drop. apply Hsorted.
  - intros Hok Hl. subst rows. unfold Persistence.get_task_runs. rewrite Hok. simpl.
    rewrite (proj2 (Z.leb_le _ _)), (proj2 (Z.ltb_lt _ _)), (proj2 (Z.ltb_lt limit 0))
      by lia.
    simpl. apply Hperm.
  - intros Hok Hl. subst rows. unfold Persistence.get_task_runs. rewrite Hok. simpl.
    rewrite (proj2 (Z.leb_le _ _)), (proj2 (Z.ltb_lt _ _)), (proj2 (Z.ltb_ge limit 0))
      by lia.
    simpl. fold all. fold sorted. split.
    + rewrite length_take. subst sorted. by rewrite (Hperm all).
    + exists (drop (Z.to_nat limit) sorted). split.
      * rewrite take_drop. apply Hperm.
      * intros a b Ha Hb.
        apply (StronglySorted_app_1_elem_of (fun a b => start_ge a b = true)
                 (take (Z.to_nat limit) sorted) (drop (Z.to_nat limit) sorted));
          [|done..].
        rewrite take_drop. apply Hsorted.
  - intros Hbad. subst rows. unfold Persistence.get_task_runs.
    destruct (db_ok db); [|done]. simpl.
    destruct Hbad as [Hbad|[Hlo|Hhi]]; [done | |].
    + by rewrite (proj2 (Z.leb_gt _ _) Hlo).
    + rewrite (proj2 (Z.ltb_ge _ _) Hhi). by rewrite andb_false_r.
  - done.
Qed.

End HistoryCoverage.

Section SampleOrder.

Import Sample.

Lemma negb_ltb_leb (x y : string) : negb (String.ltb x y) = String.leb y x.
Proof.
  unfold String.ltb, String.leb. rewrite (String.compare_antisym y x).
  by destruct (String.compare x y).
Qed.

Lemma start_ge_total a b : start_ge a b = false -> start_ge b a = true.
Proof.
  unfold start_ge. destruct (r_start_time a) as [x|], (r_start_time b) as [y|]; try done.
  rewrite !negb_ltb_leb. intros Hf.
  destruct (String.leb_total x y) as [Hl|Hl]; [done | congruence].
Qed.

Lemma start_ge_trans a b c :
  start_ge a b = true -> start_ge b c = true -> start_ge a c = true.
Proof.
  unfold start_ge.
  destruct (r_start_time a) as [x|], (r_start_time b) as [y|], (r_start_time c) as [z|];
    try done.
  rewrite !negb_ltb_leb. intros H1%Is_true_true H2%Is_true_true. apply Is_true_true.
  change (String.le z x). by transitivity y.
Qed.

Lemma insert_desc_perm r l : insert_desc r l ≡ₚ r :: l.
Proof.
  induction l as [|x l IH]; simpl; [done |].
  destruct (start_ge r x); [done |]. rewrite IH. apply Permutation_swap.
Qed.

Lemma insertion_order_perm l : order_by_start_desc l ≡ₚ l.
Proof.
  simpl. induction l as [|x l IH]; simpl; [done |].
  by rewrite insert_desc_perm, IH.
Qed.

Lemma insert_desc_sorted r l :
  StronglySorted (fun a b => start_ge a b = true) l ->
  StronglySorted (fun a b => start_ge a b = true) (insert_desc r l).
Proof.
  induction 1 as [|x l Hl IH Hx]; simpl; [repeat constructor |].
  destruct (start_ge r x) eqn:E.
  - constructor; [by constructor |]. constructor; [exact E |].
    eapply Forall_impl; [exact Hx |]. intros y Hy. by eapply start_ge_trans.
  - constructor; [exact IH |].
    apply Forall_forall. intros y Hy. rewrite insert_desc_perm in Hy.
    apply elem_of_cons in Hy as [->|Hy]; [by apply start_ge_total |].
    rewrite Forall_forall in Hx. by apply Hx.
Qed.

Lemma insertion_order_sorted l :
  StronglySorted (fun a b => start_ge a b = true) (order_by_start_desc l).
Proof.
  simpl. induction l as [|x l IH]; simpl; [constructor |]. by apply insert_desc_sorted.
Qed.

End SampleOrder.

(** ** Legacy intervals *)

Section LegacyCoverage.

Context `{Externals}.

Lemma str_of_Z_nonneg z : (0 <= z)%Z -> str_of_Z z = str_of_N (Z.to_N z).
Proof. intros Hz. destruct z; [done | done | lia]. Qed.

(** [parse] on the decimal text of a number followed by a unit letter. *)
Lemma parse_interval_str now n u unit start :
  unit_of_char u = Some unit ->
  parse now ("every " ++ str_of_N n ++ String u "") start
  = (if (0 <? n)%N && timedelta_ok unit n
        && start_date_ok now (Z.of_N n * unit_seconds unit) start
     then Some (IntervalTrigger (Some (unit, n)) start) else None).
Proof.
  intros Hu.
  rewrite (parse_interval_digits now (str_of_N n) u unit start (g_number_str_of_N n) Hu).
  by rewrite int_str_of_N.
Qed.

Ltac fold_every :=
  match goal with
  | |- context [String "e" (String "v" (String "e" (String "r" (String "y"
                  (String " " ?x)))))] =>
      change (String "e" (String "v" (String "e" (String "r" (String "y"
                (String " " x))))))
        with ("every " ++ x)
  end.

(** X24. The migration turns a legacy interval of [s > 0] whole seconds
    into ["every <n><unit>"] with the largest unit not above [s] and
    [n = s // unit]: the remainder is dropped (90 seconds become
    ["every 1m"]).  [parse] accepts the result as the interval of [n]
    units, unless it exceeds what a [timedelta] holds or its first run, at
    [now] plus the interval, is beyond [datetime.max]. *)
Theorem legacy_interval_rounds_down trigger s now :
  dict_get trigger "seconds" = Some (JInt s) -> (0 < s)%Z ->
  let k := (legacy_unit s).1.1 in
  let u := (legacy_unit s).1.2 in
  let unit := (legacy_unit s).2 in
  let n := Z.to_N (s / k) in
  legacy_schedule_value trigger (JStr "interval")
  = Some ("every " ++ str_of_N n ++ String u "")
  /\ parse now ("every " ++ str_of_N n ++ String u "") None
     = (if (s / 86400 <=? 999999999)%Z && (now + Z.of_N n * k * 1000000 <=? max_us)%Z
        then Some (IntervalTrigger (Some (unit, n)) None) else None)
  /\ unit_seconds unit = k
  /\ (Z.of_N n * k <= s < (Z.of_N n + 1) * k)%Z.
Proof.
  intros Hs Hpos. cbv zeta. unfold legacy_schedule_value, legacy_unit. simpl.
  rewrite Hs. simpl. rewrite (proj2 (Z.ltb_lt 0 s) Hpos).
  destruct (s <? 60)%Z eqn:E1; simpl.
  { apply Z.ltb_lt in E1. rewrite Z.div_1_r, (str_of_Z_nonneg s) by lia.
    split; [done |]. fold_every. rewrite (parse_interval_str now _ "s" Seconds) by done.
    unfold timedelta_ok, start_date_ok. simpl unit_seconds.
    rewrite (proj2 (N.ltb_lt 0 (Z.to_N s))) by lia. simpl.
    rewrite Z2N.id by lia.
    replace (s * 1 / 86400)%Z with (s / 86400)%Z by (f_equal; lia).
    split; [done |]. split; [done |]. lia. }
  destruct (s <? 3600)%Z eqn:E2; simpl.
  { apply Z.ltb_lt in E2. apply Z.ltb_ge in E1.
    assert (Hq : (1 <= s / 60)%Z) by (Z.div_mod_to_equations; lia).
    rewrite (str_of_Z_nonneg (s / 60)) by lia.
    split; [done |]. fold_every. rewrite (parse_interval_str now _ "m" Minutes) by done.
    unfold timedelta_ok, start_date_ok. simpl unit_seconds.
    rewrite (proj2 (N.ltb_lt 0 (Z.to_N (s / 60)))) by lia. simpl.
    rewrite Z2N.id by lia.
    rewrite (proj2 (Z.leb_le (s / 60 * 60 / 86400) 999999999))
      by (Z.div_mod_to_equations; lia).
    rewrite (proj2 (Z.leb_le (s / 86400) 999999999)) by (Z.div_mod_to_equations; lia).
    split; [done |]. split; [done |]. Z.div_mod_to_equations. lia. }
  destruct (s <? 86400)%Z eqn:E3; simpl.
  { apply Z.ltb_lt in E3. apply Z.ltb_ge in E1, E2.
    assert (Hq : (1 <= s / 3600)%Z) by (Z.div_mod_to_equations; lia).
    rewrite (str_of_Z_nonneg (s / 3600)) by lia.
    split; [done |]. fold_every. rewrite (parse_interval_str now _ "h" Hours) by done.
    unfold timedelta_ok, start_date_ok. simpl unit_seconds.
    rewrite (proj2 (N.ltb_lt 0 (Z.to_N (s / 3600)))) by lia. simpl.
    rewrite Z2N.id by lia.
    rewrite (proj2 (Z.leb_le (s / 3600 * 3600 / 86400) 999999999))
      by (Z.div_mod_to_equations; lia).
    rewrite (proj2 (Z.leb_le (s / 86400) 999999999)) by (Z.div_mod_to_equations; lia).
    split; [done |]. split; [done |]. Z.div_mod_to_equations. lia. }
  apply Z.ltb_ge in E1, E2, E3.
  assert (Hq : (1 <= s / 86400)%Z) by (Z.div_mod_to_equations; lia).
  rewrite (str_of_Z_nonneg (s / 86400)) by lia.
  split; [done |]. fold_every. rewrite (parse_interval_str now _ "d" Days) by done.
  unfold timedelta_ok, start_date_ok. simpl unit_seconds.
  rewrite (proj2 (N.ltb_lt 0 (Z.to_N (s / 86400)))) by lia. simpl.
  rewrite Z2N.id by lia. rewrite Z.div_mul by done.
  split; [done |]. split; [done |]. Z.div_mod_to_equations. lia.
Qed.

End LegacyCoverage.

(** ** More of the migration and of the cron patterns *)

Section MoreCoverage.

Context `{Externals}.

(** X25. Each of the five patterns of [_validate_cron] accepts ["*"] and
    ["*/<digits>"] for any digits: the step is not held to the range of
    the field, and may be zero. *)
Theorem cron_field_star_and_step V d :
  accepts V "*" = true
  /\ (g_number d = true -> accepts V ("*/" ++ d) = true).
Proof.
  split.
  - unfold accepts, py_match.
    rewrite (proj2 (matches_lang (cron_field_re V) "*")); [done |].
    apply lang_alt_l. by apply lang_lit.
  - intros Hd. unfold accepts, py_match.
    rewrite (proj2 (matches_lang (cron_field_re V) ("*/" ++ d))); [done |].
    apply lang_alt_r, lang_alt_r.
    apply (lang_cat (Lit "*") _ "*" ("/" ++ d)); [by apply lang_lit |].
    apply (lang_cat (Lit "/") _ "/" d); [by apply lang_lit |].
    by apply lang_plus_digit.
Qed.

(** X26. The migration rebuilds a cron specification from the five
    fields of a legacy trigger in the order minute, hour, day, month, day
    of week, whatever their order in the file; a field that is a number
    and no string makes the conversion raise; a legacy date becomes
    ["at:"] followed by its text. *)
Theorem legacy_cron_and_date_values trigger :
  (forall mi h dm mo dw,
      dict_get trigger "minute" = Some (JStr mi) ->
      dict_get trigger "hour" = Some (JStr h) ->
      dict_get trigger "day" = Some (JStr dm) ->
      dict_get trigger "month" = Some (JStr mo) ->
      dict_get trigger "day_of_week" = Some (JStr dw) ->
      legacy_schedule_value trigger (JStr "cron")
      = Some ("cron:" ++ join " " [mi; h; dm; mo; dw]))
  /\ (forall z h dm mo dw,
        dict_get trigger "minute" = Some (JInt z) ->
        dict_get trigger "hour" = Some h ->
        dict_get trigger "day" = Some dm ->
        dict_get trigger "month" = Some mo ->
        dict_get trigger "day_of_week" = Some dw ->
        legacy_schedule_value trigger (JStr "cron") = None)
  /\ (forall d,
        dict_get trigger "run_date" = Some (JStr d) -> d <> "" ->
        legacy_schedule_value trigger (JStr "date") = Some ("at:" ++ d)).
Proof.
  split; [|split].
  - intros mi h dm mo dw H1 H2 H3 H4 H5. unfold legacy_schedule_value. simpl.
    by rewrite H1, H2, H3, H4, H5.
  - intros z h dm mo dw H1 H2 H3 H4 H5. unfold legacy_schedule_value. simpl.
    by rewrite H1, H2, H3, H4, H5.
  - intros d Hd Hne. unfold legacy_schedule_value. simpl. rewrite Hd. simpl.
    by rewrite (proj2 (String.eqb_neq d "") Hne).
Qed.


End MoreCoverage.

(** ** The model at concrete inputs *)

Section Checks.

Import Sample.

(** The primitives on small inputs. *)

Example strip_blanks : strip "  0 9 * * 1-5 " = "0 9 * * 1-5".
Proof. reflexivity. Qed.

Example split_fields : split_ws " 0 9  * * 1-5 " = ["0"; "9"; "*"; "*"; "1-5"].
Proof. reflexivity. Qed.

Example split_first_colon :
  split1 ":" "at:2025-06-01T00:00:00" = ["at"; "2025-06-01T00:00:00"]
  /\ split1 ":" "in 2h" = ["in 2h"].
Proof. split; reflexivity. Qed.

Example isoformat_values :
  isoformat (Naive 0) = "1970-01-01T00:00:00"
  /\ isoformat (Naive 951825599000001) = "2000-02-29T11:59:59.000001"
  /\ isoformat (Aware 1714564800000000 7200) = "2024-05-01T12:00:00+02:00"
  /\ isoformat (Naive max_us) = "9999-12-31T23:59:59.999999"
  /\ sqlite_datetime 1711972800 = "2024-04-01 12:00:00".
Proof. vm_compute. repeat split. Qed.

Example validate_cron_values :
  _validate_cron "0 9 * * 1-5" = true
  /\ _validate_cron "*/15 0-6,22 1,15 */2 0,6" = true
  /\ _validate_cron "60 9 * * *" = false
  /\ _validate_cron "0 24 * * *" = false
  /\ _validate_cron "0 9 * * 7" = false
  /\ _validate_cron "0 9 * *" = false
  /\ _validate_cron "*,5 9 * * *" = false.
Proof. vm_compute. repeat split. Qed.

Example repr_values :
  repr "t1" = "'t1'"
  /\ repr "it's" = String double_quote ("it's" ++ String double_quote "")
  /\ repr (String backslash "n") = String single_quote
       (String backslash (String backslash ("n" ++ String single_quote "")))
  /\ repr (String (ascii_of_N 10) "") = String single_quote
       (String backslash ("n" ++ String single_quote "")).
Proof. vm_compute. repeat split. Qed.

(** The four forms of the grammar, and a text of none. *)
Example parse_values :
  parse (now noon) "cron:0 9 * * 1-5" None = Some (CronTrigger "0 9 * * 1-5")
  /\ parse (now noon) "every 30m" None = Some (IntervalTrigger (Some (Minutes, 30%N)) None)
  /\ parse (now noon) "at:2025-06-01T00:00:00" None
     = Some (DateTrigger (Naive 1748736000000000))
  /\ parse (now noon) "in 2h" None = Some (DateTrigger (Naive 1714572000000000))
  /\ parse (now noon) "every 0m" None = None
  /\ parse (now noon) "bogus" None = None.
Proof. vm_compute. repeat split. Qed.

(** A run of ["t1"]: one ["running"] row and one row with the final
    status, and the slot is free again. *)
Example run_once :
  let st := _execute_task noon noon completes "t1" running_engine in
  r_status <$> task_runs (persistence st) = ["running"; "completed"]
  /\ running_tasks st = ∅
  /\ length (emitted st) = 2%nat.
Proof. vm_compute. repeat split. Qed.

(** A run of ["t1"] during which the task leaves the running set: the
    final row is written, then [running_tasks.remove] raises [KeyError] and
    the [except] clause writes a third row, whose error is the [repr] of
    the task id. *)
Example run_forgotten :
  (fun r => (r_status r, r_error r))
    <$> task_runs (persistence (_execute_task noon noon forgets "t1" running_engine))
  = [("running", None); ("completed", None); ("failed", Some "'t1'")].
Proof. vm_compute. reflexivity. Qed.

(** C1 at a concrete state: ["t1"] is running. *)
Lemma execute_task_overlap_guard_witness :
  execute_begin noon "t1" busy = (Skipped, busy).
Proof.
  apply (execute_task_overlap_guard noon noon completes "t1" busy).
  unfold busy. simpl. set_solver.
Defined.

(** C3, the failing input.  The executor call of a run of ["t1"] is
    cancelled while it is awaited.  A cancellation is no [Exception]: the
    callback is left at its [await], ["t1"] stays in [running_tasks], the
    history holds the ["running"] row alone and no second event is emitted;
    the next invocation for ["t1"] is stopped by the guard and changes
    nothing, although no execution is in flight. *)
Lemma execute_task_cancelled_leaks_slot :
  tasks running_engine !! "t1" = Some new_task
  /\ running_tasks running_engine = ∅
  /\ running_tasks leaked = {["t1"]}
  /\ r_status <$> task_runs (persistence leaked) = ["running"]
  /\ emitted leaked = [task_started "t1" "2024-05-01T12:00:00"]
  /\ _execute_task one_pm one_pm completes "t1" leaked = leaked.
Proof. vm_compute. repeat split; reflexivity. Qed.

(** C2, the claim as stated fails twice.  Over a failing database
    [schedule_task] returns true and no row is stored; on an engine that
    has not set [next_run_time] it returns false and the job it registered
    is still in the engine's table and in [scheduled_tasks]. *)
Lemma schedule_task_not_persisted_not_rolled_back :
  (schedule_task noon "t1" "every 10s" None broken_db).1 = true
  /\ schedules (persistence (schedule_task noon "t1" "every 10s" None broken_db).2) = []
  /\ (schedule_task noon "t1" "every 10s" None fresh).1 = false
  /\ jobs (schedule_task noon "t1" "every 10s" None fresh).2 !! "task_t1_1714564800.0"
     = Some (Job (ExecuteTask "t1") (IntervalTrigger (Some (Seconds, 10%N)) None) None)
  /\ scheduled_tasks (schedule_task noon "t1" "every 10s" None fresh).2 !! "t1"
     = Some "task_t1_1714564800.0".
Proof. vm_compute. repeat split. Qed.

(** C2 as amended, at a concrete call. *)
Lemma schedule_task_outcome_witness :
  scheduled_tasks tracked !! "t1" = Some "task_t1_1714564800.0".
Proof.
  assert (Hr : schedule_task noon "t1" "every 10s" None running_engine = (true, tracked))
    by (vm_compute; reflexivity).
  destruct (schedule_task_outcome _ _ _ _ _ _ _ Hr) as [Ht _].
  destruct (Ht eq_refl) as (task & trigger & nrt & _ & _ & _ & Hs & _).
  exact Hs.
Defined.

(** C8 at concrete states: an unknown task, and ["t1"] once scheduled,
    whose registry entry holds a schedule before the call and none after. *)
Lemma cancel_task_contract_witness :
  cancel_task "t9" fresh = (false, fresh)
  /\ t_schedule <$> tasks tracked !! "t1" = Some (Some "Every 10 seconds")
  /\ exists st' task',
      cancel_task "t1" tracked = (true, st')
      /\ tasks st' !! "t1" = Some task'
      /\ t_schedule task' = None /\ t_next_run_time task' = None
      /\ get_task_schedule "t1" st' = None.
Proof.
  split; [apply (cancel_task_contract "t9" fresh); reflexivity |].
  split; [vm_compute; reflexivity |].
  destruct (proj2 (cancel_task_contract "t1" tracked) "task_t1_1714564800.0")
    as (st' & Hc & _ & _ & _ & _ & _ & Hf & _ & _ & Hg); [vm_compute; reflexivity |].
  destruct (tasks tracked !! "t1") as [task|] eqn:Et; [| vm_compute in Et; discriminate].
  destruct (Hf task eq_refl) as (task' & Ht' & Hs' & Hn' & _).
  exists st', task'. by repeat split.
Defined.

(** C10 at a concrete state. *)
Lemma cancel_task_without_registry_entry_witness :
  exists st', cancel_task "t2" orphan = (true, st') /\ tasks st' = tasks orphan.
Proof.
  destruct (cancel_task_without_registry_entry "t2" "task_t2_1714564800.0" orphan)
    as (st' & Hc & _ & _ & _ & _ & _ & Ht); [vm_compute; reflexivity .. |].
  exists st'. by split.
Defined.




(** C9, the failing input.  A run that started at 2024-04-01T01:00:00 is
    more than thirty days old at 2024-05-01T12:00:00; its start is stored
    as ["2024-04-01T01:00:00"], the cutoff is the text
    ["2024-04-01 12:00:00"], and the comparison of the two texts keeps the
    row: ["T"] sorts after the blank. *)
Lemma cleanup_keeps_run_older_than_retention :
  (old_start < (utcnow noon - 30 * 86400) * 1000000)%Z
  /\ r_start_time <$> task_runs history = [Some "2024-04-01T01:00:00"]
  /\ sqlite_datetime (utcnow noon - 30 * 86400) = "2024-04-01 12:00:00"
  /\ cleanup_old_runs (utcnow noon) 30 history = history.
Proof. vm_compute. repeat split; reflexivity. Qed.

(** C4, the claim as stated fails: the blank after the prefix of a cron
    specification is not part of the rendering. *)
Lemma human_readable_strips_cron_expression :
  get_human_readable ("cron:" ++ " 0 9 * * 1-5") = "Cron schedule: 0 9 * * 1-5"
  /\ String.eqb (get_human_readable ("cron:" ++ " 0 9 * * 1-5"))
       ("Cron schedule: " ++ " 0 9 * * 1-5") = false.
Proof. split; reflexivity. Qed.

(** C4 as amended, at concrete specifications. *)
Lemma get_human_readable_contract_witness :
  get_human_readable "every 30m" = "Every 30 minutes"
  /\ get_human_readable "in 1d" = "In 1 day"
  /\ get_human_readable "tomorrow" = "tomorrow".
Proof.
  destruct get_human_readable_contract as (_ & _ & Hevery & Hin & Hother & _).
  split; [|split].
  - apply (Hevery "30" "m"%char); reflexivity.
  - apply (Hin "1" "d"%char); reflexivity.
  - apply (Hother "tomorrow"); reflexivity.
Defined.

(** C5, the claim as stated fails: with two blanks after ["every"] the
    text is not ["every <N><unit>"], yet it parses and is scheduled. *)
Lemma padded_interval_accepted :
  in_grammar id "every  5m" = false
  /\ parse (now noon) "every  5m" None = Some (IntervalTrigger (Some (Minutes, 5%N)) None)
  /\ (schedule_task noon "t1" "every  5m" None running_engine).1 = true.
Proof. vm_compute. repeat split. Qed.

(** C5 as amended, at the specification ["bogus"] for the registered task
    ["t1"]. *)
Lemma unparsable_spec_rejected_witness :
  schedule_task noon "t1" "bogus" None running_engine = (false, running_engine).
Proof.
  apply (unparsable_spec_rejected noon "t1" "bogus" None running_engine).
  reflexivity.
Defined.

(** The further properties at concrete inputs. *)

Import Scenario.

(** X1 at a concrete input: ninety minutes. *)
Lemma parse_interval_amount_witness :
  parse (now noon) "every 90m" None = Some (IntervalTrigger (Some (Minutes, 90%N)) None).
Proof.
  exact (proj1 (parse_interval_amount (now noon) "90" "m" Minutes None eq_refl eq_refl)).
Defined.

(** X2 at a concrete input: two hours after noon. *)
Lemma parse_relative_instant_witness :
  parse (now noon) "in 2h" None = Some (DateTrigger (Naive 1714572000000000)).
Proof.
  exact (proj1 (parse_relative_instant (now noon) "2" "h" Hours None eq_refl eq_refl)).
Defined.

(** X3 at a concrete input: a relative specification is stored as a date. *)
Lemma parse_type_by_prefix_witness :
  schedule_type_of (DateTrigger (Naive 1714572000000000)) = "date".
Proof.
  exact (proj1 (parse_type_by_prefix (now noon) "in 2h" None
                  (DateTrigger (Naive 1714572000000000)) eq_refl)).
Defined.

(** X4 at a concrete input: a date, a text that is no date, a text that is no interval. *)
Lemma get_human_readable_other_branches_witness :
  get_human_readable "at:2025-06-01T00:00:00" = "At 2025-06-01 00:00:00"
  /\ get_human_readable "at: soon " = "At soon"
  /\ get_human_readable "every 5 minutes" = "every 5 minutes".
Proof.
  destruct get_human_readable_other_branches as (Hat & Hbad & Hevery & _).
  split; [|split].
  - exact (Hat "2025-06-01T00:00:00" (Naive 1748736000000000) eq_refl).
  - exact (Hbad " soon " eq_refl).
  - exact (Hevery "5 minutes" eq_refl).
Defined.

(** X5 at a concrete input: the largest value of every field. *)
Lemma validate_cron_number_ranges_witness :
  _validate_cron "59 23 31 12 6" = true.
Proof.
  apply (proj2 (validate_cron_number_ranges 59 23 31 12 6)). lia.
Defined.

(** X6 at a concrete input: blanks around the expression. *)
Lemma parse_cron_expression_witness :
  parse (now noon) "cron:  0 9 * * 1-5 " None = Some (CronTrigger "0 9 * * 1-5").
Proof.
  exact (proj1 (parse_cron_expression (now noon) "  0 9 * * 1-5 " None)).
Defined.

(** X7 at a concrete input: a cron specification. *)
Lemma human_readable_agrees_with_parse_witness :
  get_human_readable "cron: 0 9 * * 1-5" = "Cron schedule: 0 9 * * 1-5".
Proof.
  exact (human_readable_agrees_with_parse (now noon) "cron: 0 9 * * 1-5" None
           (CronTrigger "0 9 * * 1-5") eq_refl).
Defined.

(** X25 at a concrete input: a step of 99 hours. *)
Lemma cron_field_star_and_step_witness :
  accepts V_hour "*/99" = true.
Proof.
  apply (proj2 (cron_field_star_and_step V_hour "99")). reflexivity.
Defined.

(** X8 at a concrete input: a new task in a table that has a row. *)
Lemma save_schedule_round_trip_witness :
  exists r,
    get_schedule "t2"
      (save_schedule 1714564800 "t2" "job-2" "cron" "cron:0 9 * * *" None partly_migrated)
    = Some r
    /\ s_value r = "cron:0 9 * * *".
Proof.
  destruct (save_schedule_round_trip 1714564800 "t2" "job-2" "cron" "cron:0 9 * * *" None
              partly_migrated eq_refl)
    as ((r & Hg & _ & _ & _ & _ & Hv & _) & _).
  exists r. split; [exact Hg | exact Hv].
Defined.

(** X9 at a concrete input: the row of ["t1"] keeps its id and creation time. *)
Lemma save_schedule_upsert_witness :
  get_schedule "t1"
    (save_schedule 1714564800 "t1" "job-9" "cron" "cron:0 9 * * *" None partly_migrated)
  = Some (ScheduleRow 1 "t1" (SText "job-9") (SText "cron") "cron:0 9 * * *"
            "2024-04-30 08:00:00" SNull).
Proof.
  destruct (save_schedule_upsert 1714564800 "t1" "job-9" "cron" "cron:0 9 * * *" None
              partly_migrated eq_refl) as (Hup & _).
  exact (proj1 (Hup (ScheduleRow 1 "t1" (SText "job-1") (SText "interval") "every 1h"
                       "2024-04-30 08:00:00" SNull) eq_refl)).
Defined.

(** X10 at a concrete input: the row of ["t1"]. *)
Lemma delete_schedule_contract_witness :
  get_schedule "t1" (delete_schedule "t1" partly_migrated) = None.
Proof.
  exact (proj1 (delete_schedule_contract "t1" partly_migrated eq_refl)).
Defined.

(** X11 at a concrete input: a second row. *)
Lemma schedule_row_ids_fresh_witness :
  ids_fresh (save_schedule 1714564800 "t2" "job-2" "cron" "cron:0 9 * * *" None
               partly_migrated).
Proof.
  apply (schedule_row_ids_fresh 1714564800 "t2" "job-2" "cron" "cron:0 9 * * *" None
           partly_migrated eq_refl).
  intros r Hr. apply list_elem_of_singleton in Hr. rewrite Hr. simpl. lia.
Defined.

(** X12 at a concrete input: ["t1"] every ten seconds. *)
Lemma schedule_task_then_get_witness :
  exists trigger nrt task',
    parse (now noon) "every 10s" None = Some trigger
    /\ tasks tracked !! "t1" = Some task'
    /\ t_schedule task' = Some "Every 10 seconds"
    /\ t_next_run_time task' = nrt
    /\ get_task_schedule "t1" tracked
       = Some (ScheduleInfo "t1" "task_t1_1714564800.0" (SText (schedule_type_of trigger))
                 "every 10s" "Every 10 seconds" (isoformat <$> nrt)
                 (get_trigger_info trigger)).
Proof.
  assert (Hr : schedule_task noon "t1" "every 10s" None running_engine = (true, tracked))
    by (vm_compute; reflexivity).
  destruct (schedule_task_then_get _ _ _ _ _ _ Hr)
    as (task & trigger & nrt & _ & Hp & _ & (task' & Ht' & Hs' & Hn' & _) & _ & Hg & _).
  exists trigger, nrt, task'. split; [exact Hp |]. split; [exact Ht' |].
  split; [exact Hs' |]. split; [exact Hn' |]. exact (Hg eq_refl).
Defined.

(** X13 at a concrete input: the job of noon outlives the cancel. *)
Lemma reschedule_leaves_first_job_witness :
  exists j st3,
    cancel_task "t1" rescheduled = (true, st3)
    /\ get_task_schedule "t1" st3 = None
    /\ jobs st3 !! "task_t1_1714564800.0" = Some j
    /\ j_func j = ExecuteTask "t1".
Proof.
  assert (H1 : schedule_task noon "t1" "every 10s" None running_engine = (true, tracked))
    by (vm_compute; reflexivity).
  assert (H2 : schedule_task one_pm "t1" "every 1h" None tracked = (true, rescheduled))
    by (vm_compute; reflexivity).
  destruct (reschedule_leaves_first_job noon one_pm "t1" _ _ _ _ _ _ _
              ltac:(discriminate) H1 H2)
    as (j & st3 & _ & Hf & _ & _ & Hc & _ & Hg & _ & Hj).
  exists j, st3. split; [exact Hc |]. split; [exact Hg |]. split; [exact Hj | exact Hf].
Defined.

(** X14 at a concrete input: back to the state before. *)
Lemma schedule_then_cancel_witness :
  exists st2 task2,
    cancel_task "t1" tracked = (true, st2)
    /\ jobs st2 = jobs running_engine
    /\ scheduled_tasks st2 = scheduled_tasks running_engine
    /\ schedules (persistence st2) = []
    /\ tasks st2 !! "t1" = Some task2
    /\ t_schedule task2 = None /\ t_next_run_time task2 = None.
Proof.
  assert (Hr : schedule_task noon "t1" "every 10s" None running_engine = (true, tracked))
    by (vm_compute; reflexivity).
  destruct (schedule_then_cancel _ _ _ _ _ _ Hr)
    as (task & st2 & _ & Hc & _ & _ & _ & _ & (task2 & Ht2 & Hs2 & Hn2 & _) & _ & _ & Hfresh).
  destruct (Hfresh eq_refl eq_refl eq_refl) as (Hj & Hs & Hrows).
  exists st2, task2. split; [exact Hc |]. split; [exact Hj |]. split; [exact Hs |].
  split; [exact Hrows |]. split; [by rewrite Ht2, lookup_insert_eq |]. by split.
Defined.

(** X15 at a concrete input: the sample session. *)
Lemma run_keeps_one_row_per_task_witness :
  NoDup (task_ids (persistence (run running_engine session))).
Proof.
  apply (run_keeps_one_row_per_task session running_engine). constructor.
Defined.

(** X16 at a concrete input: the sample session after [start]. *)
Lemma run_keeps_cleanup_job_witness :
  jobs (run (start noon fresh) session) !! "cleanup_task"
  = jobs (start noon fresh) !! "cleanup_task".
Proof.
  apply (run_keeps_cleanup_job session (start noon fresh)).
  intros task_id job_id Hl.
  change (scheduled_tasks (start noon fresh)) with (∅ : gmap string string) in Hl.
  rewrite lookup_empty in Hl. discriminate.
Defined.

(** X17 at a concrete input: one run of ["t1"]. *)
Lemma execute_task_run_log_witness :
  r_status <$> task_runs (persistence (_execute_task noon one_pm completes "t1" running_engine))
  = ["running"; "completed"].
Proof.
  destruct (execute_task_run_log noon one_pm completes "t1" running_engine) as [_ Hlog].
  destruct (Hlog new_task eq_refl) as ((Hruns & _) & _).
  - unfold running_engine, fresh, init_state. simpl. set_solver.
  - reflexivity.
  - intros st0. done.
  - exact (eq_trans (f_equal (fmap r_status) Hruns) eq_refl).
Defined.

(** X19 at a concrete input: a row of 2019 reloaded at noon. *)
Lemma reload_restarts_relative_schedule_witness :
  reloaded noon (tasks fresh) relative_row = true
  /\ parse (now noon) "in 2h" None = Some (DateTrigger (Naive 1714572000000000)).
Proof.
  exact (reload_restarts_relative_schedule noon fresh relative_row new_task "2" "h" Hours
           eq_refl eq_refl eq_refl eq_refl).
Defined.

(** X20 at a concrete input: the restart of the sample store. *)
Lemma load_before_engine_start_witness :
  persistence (start noon restarted) = persistence restarted
  /\ tasks (start noon restarted) = tasks restarted
  /\ emitted (start noon restarted) = [].
Proof.
  destruct (@load_before_engine_start sample_externals noon restarted eq_refl
              (fun t n => eq_refl))
    as (Hp & Ht & He & _).
  split; [exact Hp |]. split; [exact Ht | exact He].
Defined.

(** X21 at a concrete input: the run of thirty days and eleven hours ago is kept. *)
Lemma cleanup_deletes_by_calendar_day_witness :
  RunRow 1 "t1" "completed" (Some "2024-04-01T01:00:00") (Some "2024-04-01T01:00:05") None
    ∈ task_runs (cleanup_old_runs (utcnow noon) 30 history).
Proof.
  apply (cleanup_deletes_by_calendar_day (utcnow noon) 30 history _ old_start).
  - reflexivity.
  - lia.
  - unfold in_calendar. simpl. lia.
  - vm_compute. left.
  - reflexivity.
  - unfold in_calendar. vm_compute. split; discriminate.
  - vm_compute. discriminate.
Defined.

(** X22 at a concrete input: a negative number of days. *)
Lemma cleanup_old_runs_frame_witness :
  cleanup_old_runs (utcnow noon) (-1) history = history.
Proof.
  destruct (cleanup_old_runs_frame (utcnow noon) (-1) history) as (_ & _ & _ & _ & _ & Hn & _).
  apply Hn. left. lia.
Defined.

(** X23 at a concrete input: the history of ["t1"], and a limit of 2^63. *)
Lemma get_task_runs_contract_witness :
  Forall (fun r => r_task_id r = "t1") (Persistence.get_task_runs "t1" 10 history)
  /\ Persistence.get_task_runs "t1" (2 ^ 63) history = [].
Proof.
  destruct (get_task_runs_contract "t1" 10 history insertion_order_perm
              insertion_order_sorted) as (Hin & _).
  destruct (get_task_runs_contract "t1" (2 ^ 63) history insertion_order_perm
              insertion_order_sorted) as (_ & _ & _ & _ & Hbad & _).
  split.
  - apply Forall_forall. intros r Hr. exact (proj2 (Hin r Hr)).
  - apply Hbad. right. right. lia.
Defined.

(** X24 at a concrete input: ninety seconds. *)
Lemma legacy_interval_rounds_down_witness :
  legacy_schedule_value ninety_seconds (JStr "interval") = Some "every 1m"
  /\ parse (now noon) "every 1m" None = Some (IntervalTrigger (Some (Minutes, 1%N)) None).
Proof.
  destruct (legacy_interval_rounds_down ninety_seconds 90 (now noon) eq_refl ltac:(lia))
    as (Hv & Hp & _).
  split; [exact Hv | exact Hp].
Defined.

(** X26 at a concrete input: fields listed in reverse order. *)
Lemma legacy_cron_and_date_values_witness :
  legacy_schedule_value
    [("type", JStr "cron"); ("day_of_week", JStr "1-5"); ("month", JStr "*");
     ("day", JStr "*"); ("hour", JStr "9"); ("minute", JStr "0")] (JStr "cron")
  = Some "cron:0 9 * * 1-5".
Proof.
  exact (proj1 (legacy_cron_and_date_values
                  [("type", JStr "cron"); ("day_of_week", JStr "1-5"); ("month", JStr "*");
                   ("day", JStr "*"); ("hour", JStr "9"); ("minute", JStr "0")])
           "0" "9" "*" "*" "1-5" eq_refl eq_refl eq_refl eq_refl eq_refl).
Defined.


End Checks.
